(** * fastapi-orgtrace: request logging pipeline, transaction boundary and
      audit history

    A shallow embedding of the cross-cutting core of the service:

    - [src/decorator/transaction.py]      ([Transactional])
    - [src/decorator/history.py]          ([History])
    - [src/provider/history_provider.py]  ([extract_entity_seq], [clean_dict])
    - [src/logging/context/request_logging_context.py]
    - [src/logging/extensions/structured_logging_adapter.py]
    - [src/logging/extensions/sql_query_logging.py]
    - [src/logging/logging_route_for_request_response.py]

    Python values are an inductive type, exceptions are results of an
    error-and-state monad, mutable adapters live in a store addressed by
    references, and context variables are a finite map from execution
    units to their private bindings. *)

From Stdlib Require Import ZArith String Ascii List Bool Lia Sorted Permutation.
From Stdlib Require Import PrimFloat FloatOps SpecFloat.
From stdpp Require Import gmap strings.
Import ListNotations.

#[local] Set Warnings "-inexact-float".

Local Open Scope string_scope.

(* ===================================================================== *)
(** ** Python values, truthiness, attribute access, exceptions           *)
(* ===================================================================== *)

Module Py.

(** The values that flow through the decorators.  [VObj r d] is an instance
    whose [__dict__] is the association list [d] (insertion ordered, as a
    Python dict) and whose [str()] is [r]; dates, datetimes and the ORM
    bookkeeping object are instances with the text Python prints for them.
    [VSession i] is an object offering [commit()] and [rollback()]. *)
#[local] Unset Elimination Schemes.
Inductive value : Type :=
| VNone
| VBool (b : bool)
| VInt (z : Z)
| VStr (s : string)
| VList (l : list value)
| VDict (d : list (string * value))
| VObj (repr : string) (d : list (string * value))
| VSession (sid : nat).
#[local] Set Elimination Schemes.

Definition pydict := list (string * value).

(** [bool(v)]: the test behind [if v], [not v] and [a and b]. Instances
    without [__bool__]/[__len__] are true. *)
Definition truthy (v : value) : bool :=
  match v with
  | VNone => false
  | VBool b => b
  | VInt z => negb (z =? 0)%Z
  | VStr s => negb (s =? EmptyString)
  | VList l => match l with [] => false | _ => true end
  | VDict d => match d with [] => false | _ => true end
  | VObj _ _ => true
  | VSession _ => true
  end.

(** [v is None] *)
Definition is_None (v : value) : bool :=
  match v with VNone => true | _ => false end.

(** [d.get(k)] on a dict with string keys: the bound value or [None]. *)
Fixpoint dict_find (d : pydict) (k : string) : option value :=
  match d with
  | [] => None
  | (k', v) :: d' => if k' =? k then Some v else dict_find d' k
  end.

Definition dict_get (d : pydict) (k : string) : value :=
  match dict_find d k with Some v => v | None => VNone end.

(** [k in d] *)
Definition dict_mem (d : pydict) (k : string) : bool :=
  match dict_find d k with Some _ => true | None => false end.

(** [hasattr(v, name)] for a data attribute [name]: only instances carry
    their own attributes. *)
Definition hasattr (v : value) (name : string) : bool :=
  match v with
  | VObj _ d => dict_mem d name
  | _ => false
  end.

(** Exceptions.  [BaseOnly] stands for the classes below [BaseException]
    but not below [Exception] (KeyboardInterrupt, SystemExit, ...), which an
    [except Exception] clause lets through. *)
Inductive exn : Type :=
| ValueError (msg : string)
| TypeError (msg : string)
| AttributeError (msg : string)
| LookupError (msg : string)
| ModuleNotFoundError (msg : string)
| OtherException (cls msg : string)
| BaseOnly (cls : string).

Definition is_Exception (e : exn) : bool :=
  match e with BaseOnly _ => false | _ => true end.

Definition is_LookupError (e : exn) : bool :=
  match e with LookupError _ => true | _ => false end.

Inductive res (A : Type) : Type :=
| Ok (a : A)
| Raise (e : exn).
Arguments Ok {A} a.
Arguments Raise {A} e.

(** [getattr(v, name)] *)
Definition getattr (v : value) (name : string) : res value :=
  match v with
  | VObj _ d =>
      match dict_find d name with
      | Some x => Ok x
      | None => Raise (AttributeError name)
      end
  | _ => Raise (AttributeError name)
  end.

(** [v.__dict__.copy()] *)
Definition obj_dict (v : value) : res pydict :=
  match v with
  | VObj _ d => Ok d
  | _ => Raise (AttributeError "__dict__")
  end.

(** *** State and exceptions *)

Definition M (S A : Type) : Type := S -> res A * S.

Definition ret {S A} (a : A) : M S A := fun s => (Ok a, s).

Definition raise {S A} (e : exn) : M S A := fun s => (Raise e, s).

Definition bind {S A B} (m : M S A) (k : A -> M S B) : M S B :=
  fun s =>
    match m s with
    | (Ok a, s') => k a s'
    | (Raise e, s') => (Raise e, s')
    end.

Definition lift_res {S A} (r : res A) : M S A := fun s => (r, s).

(** [try: m except C as e: h e] where [catches] decides [isinstance(e, C)];
    the state changes made by [m] before it raised are kept. *)
Definition try_except {S A} (m : M S A) (catches : exn -> bool)
    (h : exn -> M S A) : M S A :=
  fun s =>
    match m s with
    | (Ok a, s') => (Ok a, s')
    | (Raise e, s') => if catches e then h e s' else (Raise e, s')
    end.

Definition modify {S} (f : S -> S) : M S unit := fun s => (Ok tt, f s).

Definition gets {S A} (f : S -> A) : M S A := fun s => (Ok (f s), s).

End Py.

Import Py.

Declare Scope py_scope.
Delimit Scope py_scope with py.
Notation "'let*' x ':=' m 'in' k" := (bind m (fun x => k))
  (at level 10, x name, m at level 100, k at level 200) : py_scope.
Notation "'let*' ' p ':=' m 'in' k" := (bind m (fun p => k))
  (at level 10, p strict pattern, m at level 100, k at level 200) : py_scope.
Notation "'do*' m 'in' k" := (bind m (fun _ => k))
  (at level 10, m at level 100, k at level 200) : py_scope.
Local Open Scope py_scope.

(* ===================================================================== *)
(** ** [inspect.signature(func).bind_partial] on the call arguments      *)
(* ===================================================================== *)

Module Signature.

(** A signature is the list of declared parameter names, in order.  Every
    decorated function of the services declares plain positional-or-keyword
    parameters ([self, db, employee_seq, ...]). *)
Definition signature := list string.

(** Positional arguments are paired with the parameters in order; more
    arguments than parameters is a [TypeError]. *)
Fixpoint bind_positional (params : signature) (args : list value)
  : res pydict :=
  match args, params with
  | [], _ => Ok []
  | _ :: _, [] => Raise (TypeError "too many positional arguments")
  | a :: args', p :: params' =>
      match bind_positional params' args' with
      | Ok b => Ok ((p, a) :: b)
      | Raise e => Raise e
      end
  end.

Definition mem_string (x : string) (l : list string) : bool :=
  existsb (String.eqb x) l.
Arguments mem_string : simpl never.

(** Keywords are bound by name: a keyword naming a parameter already bound
    positionally, or no parameter at all, is a [TypeError]. *)
Fixpoint bind_keywords (params : signature) (bound : pydict)
    (kwargs : pydict) : res pydict :=
  match kwargs with
  | [] => Ok []
  | (k, v) :: kw' =>
      if dict_mem bound k then
        Raise (TypeError "multiple values for argument")
      else if negb (mem_string k params) then
        Raise (TypeError "got an unexpected keyword argument")
      else
        match bind_keywords params bound kw' with
        | Ok b => Ok ((k, v) :: b)
        | Raise e => Raise e
        end
  end.

(** [bound.arguments] of [sig.bind_partial] applied to the positional and
    keyword arguments of the call.  Defaults are
    not applied: a parameter that received no argument is absent. *)
Definition bind_partial (params : signature) (args : list value)
    (kwargs : pydict) : res pydict :=
  match bind_positional params args with
  | Raise e => Raise e
  | Ok pos =>
      match bind_keywords params pos kwargs with
      | Raise e => Raise e
      | Ok kws => Ok (pos ++ kws)%list
      end
  end.

End Signature.

Import Signature.

(* ===================================================================== *)
(** ** [json.dumps(d, default=str, sort_keys=True)]                       *)
(* ===================================================================== *)

Module Json.

(** The double quote character, as a string *)
Definition dq : string := String (ascii_of_N 34) EmptyString.

Definition hex_digit (n : N) : ascii :=
  match n with
  | 0%N => "0" | 1%N => "1" | 2%N => "2" | 3%N => "3" | 4%N => "4"
  | 5%N => "5" | 6%N => "6" | 7%N => "7" | 8%N => "8" | 9%N => "9"
  | 10%N => "a" | 11%N => "b" | 12%N => "c" | 13%N => "d" | 14%N => "e"
  | _ => "f"
  end%char.

(** The [k] lowest hexadecimal digits of [x], most significant first. *)
Fixpoint hex_fixed (k : nat) (x : N) : string :=
  match k with
  | O => EmptyString
  | S k' => hex_fixed k' (N.div x 16) +:+ String (hex_digit (N.modulo x 16)) EmptyString
  end.

Definition dec_digit (n : N) : ascii := hex_digit (N.modulo n 10).

(** Decimal digits of [x], with [fuel] bounding the number of digits. *)
Fixpoint dec_digits (fuel : nat) (x : N) (acc : string) : string :=
  match fuel with
  | O => acc
  | S fuel' =>
      let acc' := String (dec_digit x) acc in
      if (x <? 10)%N then acc' else dec_digits fuel' (N.div x 10) acc'
  end.

Definition str_of_N (x : N) : string :=
  dec_digits (S (N.to_nat (N.log2 x))) x EmptyString.

(** [str(z)] for an int *)
Definition str_of_Z (z : Z) : string :=
  match z with
  | Z0 => "0"
  | Zpos p => str_of_N (Npos p)
  | Zneg p => "-" +:+ str_of_N (Npos p)
  end.

(** One code point of a JSON string under [ensure_ascii=True]: the short
    escapes, the printable ASCII characters as they are, [\uXXXX] for the
    rest of the basic plane and a surrogate pair above it. *)
Definition escape_code (n : N) : string :=
  if (n =? 34)%N then "\" +:+ dq
  else if (n =? 92)%N then "\\"
  else if (n =? 8)%N then "\b"
  else if (n =? 12)%N then "\f"
  else if (n =? 10)%N then "\n"
  else if (n =? 13)%N then "\r"
  else if (n =? 9)%N then "\t"
  else if ((32 <=? n) && (n <=? 126))%N then String (ascii_of_N n) EmptyString
  else if (n <? 65536)%N then "\u" +:+ hex_fixed 4 n
  else
    let v := (n - 65536)%N in
    "\u" +:+ hex_fixed 4 (N.lor 55296 (N.land (N.shiftr v 10) 1023))
      +:+ "\u" +:+ hex_fixed 4 (N.lor 56320 (N.land v 1023)).

(** A string of the model is the UTF-8 encoding of the Python string.  The
    code points are read off the bytes: [acc] holds the bits of the code
    point read so far and [more] the number of continuation bytes still to
    come.  Bytes that are no UTF-8 encoding do not occur in a Python
    string. *)
Fixpoint escape_from (acc : N) (more : nat) (s : string) : string :=
  match s with
  | EmptyString => EmptyString
  | String c s' =>
      let n := N_of_ascii c in
      match more with
      | O =>
          if (n <? 128)%N then escape_code n +:+ escape_from 0 0 s'
          else if (n <? 224)%N then escape_from (N.land n 31) 1 s'
          else if (n <? 240)%N then escape_from (N.land n 15) 2 s'
          else escape_from (N.land n 7) 3 s'
      | S k =>
          let acc' := (acc * 64 + N.land n 63)%N in
          match k with
          | O => escape_code acc' +:+ escape_from 0 0 s'
          | S _ => escape_from acc' k s'
          end
      end
  end.

Definition escape (s : string) : string := escape_from 0 0 s.

Definition quote (s : string) : string := dq +:+ escape s +:+ dq.

Fixpoint join (sep : string) (l : list string) : string :=
  match l with
  | [] => EmptyString
  | [x] => x
  | x :: l' => x +:+ sep +:+ join sep l'
  end.

(** Insertion of a rendered item by key: the order of [sorted(d.items())]. *)
Fixpoint insert_item (kv : string * string) (l : list (string * string))
  : list (string * string) :=
  match l with
  | [] => [kv]
  | kv' :: l' =>
      if String.leb (fst kv) (fst kv') then kv :: l
      else kv' :: insert_item kv l'
  end.

Fixpoint sort_items (l : list (string * string)) : list (string * string) :=
  match l with
  | [] => []
  | kv :: l' => insert_item kv (sort_items l')
  end.

(** [str(v)], what [default=str] produces for a value the encoder does not
    know; a session prints its address. *)
Definition default_str (v : value) : string :=
  match v with
  | VObj r _ => r
  | VSession sid =>
      "<sqlalchemy.orm.session.Session object at 0x"
        +:+ hex_fixed 12 (N.of_nat sid) +:+ ">"
  | _ => EmptyString
  end.

Fixpoint dumps (v : value) : string :=
  match v with
  | VNone => "null"
  | VBool true => "true"
  | VBool false => "false"
  | VInt z => str_of_Z z
  | VStr s => quote s
  | VList l => "[" +:+ join ", " (map dumps l) +:+ "]"
  | VDict d =>
      "{" +:+ join ", "
        (map (fun kv => quote (fst kv) +:+ ": " +:+ snd kv)
           (sort_items
              (map (fun kv => match kv with (k, x) => (k, dumps x) end) d)))
        +:+ "}"
  | VObj _ _ | VSession _ => quote (default_str v)
  end.

(** [json.dumps(d, default=str, sort_keys=True)] for a dict [d] *)
Definition dumps_sorted (d : pydict) : string := dumps (VDict d).

End Json.

(* ===================================================================== *)
(** ** [HistoryProvider] (src/provider/history_provider.py)               *)
(* ===================================================================== *)

Module HistoryProvider.

(** [param_names.index(name)] *)
Fixpoint index_of (name : string) (l : list string) : option nat :=
  match l with
  | [] => None
  | x :: l' =>
      if x =? name then Some O
      else match index_of name l' with
           | Some i => Some (S i)
           | None => None
           end
  end.

(** The [for arg in args] loop: the attribute of the first argument that
    has it, and [entity_seq] as it was when the loop finds none. *)
Fixpoint scan_args (name : string) (args : list value) (entity_seq : value)
  : value :=
  match args with
  | [] => entity_seq
  | arg :: rest =>
      if hasattr arg name then
        match getattr arg name with
        | Ok x => x
        | Raise _ => entity_seq
        end
      else scan_args name rest entity_seq
  end.

Definition extract_entity_seq (entity : string) (args : list value)
    (kwargs : pydict) (param_names : list string) : value :=
  let name := entity +:+ "_seq" in
  let entity_seq := dict_get kwargs name in
  let entity_seq :=
    if negb (truthy entity_seq) && mem_string name param_names then
      match index_of name param_names with
      | Some idx =>
          match nth_error args idx with
          | Some a => a
          | None => entity_seq
          end
      | None => entity_seq
      end
    else entity_seq in
  if negb (truthy entity_seq) then scan_args name args entity_seq
  else entity_seq.

Definition exclude_fields : list string := ["_sa_instance_state"; "children"].

Definition clean_dict (data : pydict) : pydict :=
  List.filter (fun kv => negb (mem_string (fst kv) exclude_fields)) data.



(** The positional argument standing at the declared index of [name] *)
Definition positional (name : string) (args : list value)
    (param_names : list string) : option value :=
  match index_of name param_names with
  | Some idx => nth_error args idx
  | None => None
  end.

(** The attribute [name] of the first argument that exposes it *)
Fixpoint first_exposing (name : string) (args : list value) : option value :=
  match args with
  | [] => None
  | arg :: rest =>
      match arg with
      | VObj _ d =>
          match dict_find d name with
          | Some x => Some x
          | None => first_exposing name rest
          end
      | _ => first_exposing name rest
      end
  end.

(** The resolution order in the words of the specification: the keyword
    argument, then the positional argument of the declared parameter, then
    the first object exposing the attribute; the first match wins and no
    match is [None]. *)
Definition extract_first_match (entity : string) (args : list value)
    (kwargs : pydict) (param_names : list string) : value :=
  let name := entity +:+ "_seq" in
  match dict_find kwargs name with
  | Some v => v
  | None =>
      match positional name args param_names with
      | Some a => a
      | None =>
          match first_exposing name args with
          | Some x => x
          | None => VNone
          end
      end
  end.

End HistoryProvider.

Import HistoryProvider.

(* ===================================================================== *)
(** ** The decorators (src/decorator/transaction.py, history.py)          *)
(* ===================================================================== *)

Module Decorator.

(** The history domain object built by the wrapper
    ([EmployeeHistoryDomain], [OrganizationHistoryDomain]). *)
Record history_domain : Type := {
  d_entity_seq : value;
  d_action_type : string;
  d_username : value;
  d_created_at : Z;
  d_seq : value;
  d_before_value : option string;
  d_after_value : option string
}.

(** The ORM row handed to the session by [save_history]. *)
Record history_entity : Type := {
  entity_seq : value;
  action_type : string;
  before_value : option string;
  after_value : option string;
  username : value;
  created_at : Z
}.

(** [domain_to_entity] of the history mappers *)
Definition domain_to_entity (d : history_domain) : history_entity :=
  {| entity_seq := d_entity_seq d;
     action_type := d_action_type d;
     before_value := d_before_value d;
     after_value := d_after_value d;
     username := d_username d;
     created_at := d_created_at d |}.

(** What the decorators ask of their collaborators, in the order asked. *)
Inductive call : Type :=
| CallFunc (args : list value) (kwargs : pydict)
| CallCommit (sid : nat)
| CallRollback (sid : nat)
| CallProvider (name : string)
| CallGetBySeq (entity : string) (db seq : value)
| CallSaveHistory (entity : string) (db : value) (row : history_entity).

(** Providers registered on the container
    (src/config/dependency_registry_config.py). *)
Definition registry : list string :=
  ["user_repository"; "user_service"; "auth_service";
   "employee_repository"; "employee_service";
   "position_repository"; "position_service";
   "rank_repository"; "rank_service";
   "organization_repository"; "organization_service";
   "employee_history_repository"; "employee_history_service";
   "organization_history_repository"; "organization_history_service"].

(** Entities with a [src.domain.<entity>_history_domain] and a
    [src.mapper.<entity>_history_mapper] module. *)
Definition history_modules : list string := ["employee"; "organization"].

Definition msg_transactional : string :=
  "트랜잭션을 적용하려면 db 세션이 주입되어야 합니다.".

Definition msg_history : string :=
  "히스토리 저장을 위해서는 db 세션이 주입되어야 합니다.".

Section Collaborators.

(** The world outside the decorators: the database behind the session, the
    clock.  The wrapped function and the session and repository methods act
    on it and may raise. *)
Variable W : Type.
Variable func : list value -> pydict -> W -> res value * W.
Variable session_commit : nat -> W -> res unit * W.
Variable session_rollback : nat -> W -> res unit * W.
Variable get_by_seq : string -> value -> value -> W -> res value * W.
Variable save : string -> value -> history_entity -> W -> res unit * W.
Variable utc_now : W -> Z.

Record state : Type := { env : W; calls : list call }.

Definition pyfun : Type := list value -> pydict -> M state value.

Definition record (c : call) : M state unit :=
  modify (fun s => {| env := env s; calls := (calls s ++ [c])%list |}).

Definition ask {A} (c : W -> res A * W) : M state A :=
  fun s => let (r, w) := c (env s) in (r, {| env := w; calls := calls s |}).

(** The wrapped function, observed *)
Definition wrapped : pyfun :=
  fun args kwargs => do* record (CallFunc args kwargs) in ask (func args kwargs).

(** [db.commit()] *)
Definition db_commit (db : value) : M state unit :=
  match db with
  | VSession sid => do* record (CallCommit sid) in ask (session_commit sid)
  | _ => raise (AttributeError "commit")
  end.

(** [db.rollback()] *)
Definition db_rollback (db : value) : M state unit :=
  match db with
  | VSession sid => do* record (CallRollback sid) in ask (session_rollback sid)
  | _ => raise (AttributeError "rollback")
  end.

(** [Transactional(func)]: the [wrapper] of src/decorator/transaction.py;
    [sig] is [inspect.signature(func)]. *)
Definition Transactional (sig : signature) (f : pyfun) : pyfun :=
  fun args kwargs =>
    let* bound := lift_res (bind_partial sig args kwargs) in
    let db := dict_get bound "db" in
    if is_None db then raise (ValueError msg_transactional)
    else
      try_except
        (let* result := f args kwargs in
         do* db_commit db in
         ret result)
        is_Exception
        (fun e => do* db_rollback db in raise e).

(** [getattr(container, name)()] *)
Definition provide (name : string) : M state unit :=
  if mem_string name registry then record (CallProvider name)
  else raise (AttributeError name).

(** [getattr(repo, "get_<entity>_by_seq")(db, entity_seq)] *)
Definition repo_get_by_seq (entity : string) (db seq : value)
  : M state value :=
  do* record (CallGetBySeq entity db seq) in ask (get_by_seq entity db seq).

(** The two [importlib.import_module] calls and the [getattr]s on them *)
Definition load_history_modules (entity : string) : M state unit :=
  if mem_string entity history_modules then ret tt
  else raise (ModuleNotFoundError entity).

(** [TimeProvider.get_kst_now()]: the UTC clock moved by nine hours
    (microseconds). *)
Definition get_kst_now : M state Z :=
  gets (fun s => (utc_now (env s) + 9 * 3600 * 1000000)%Z).

(** [history_repo.save_history(db=db, domain_obj=domain, ...)] of
    src/repository/base_history_repository.py *)
Definition save_history (entity : string) (db : value) (domain : history_domain)
  : M state unit :=
  let row := domain_to_entity domain in
  do* record (CallSaveHistory entity db row) in ask (save entity db row).

(** [json.dumps(d, default=str, sort_keys=True) if d else None] *)
Definition dumps_or_none (d : option pydict) : option string :=
  match d with
  | Some (kv :: rest) => Some (Json.dumps_sorted (kv :: rest))
  | _ => None
  end.

(** [History(entity, action)(func)]: the [wrapper] of
    src/decorator/history.py. *)
Definition History (entity action : string) (sig : signature) (f : pyfun)
  : pyfun :=
  fun args kwargs =>
    let* bound := lift_res (bind_partial sig args kwargs) in
    let db := dict_get bound "db" in
    if is_None db then raise (ValueError msg_history)
    else
      let username := dict_get kwargs "username" in
      let param_names := sig in
      let entity_seq := extract_entity_seq entity args kwargs param_names in
      do* provide (entity +:+ "_repository") in
      let* before_dict :=
        (if negb (action =? "INSERT") && truthy entity_seq then
           let* before_entity := repo_get_by_seq entity db entity_seq in
           if truthy before_entity then
             let* d := lift_res (obj_dict before_entity) in
             ret (Some (clean_dict d))
           else ret None
         else ret None) in
      let* result := f args kwargs in
      let* after :=
        (if action =? "DELETE" then ret (None, entity_seq)
         else
           let* d := lift_res (obj_dict result) in
           let* s := lift_res (getattr result "seq") in
           ret (Some (clean_dict d), s)) in
      let after_dict := fst after in
      let target_seq := snd after in
      do* load_history_modules entity in
      let* now := get_kst_now in
      let domain :=
        {| d_entity_seq := target_seq;
           d_action_type := action;
           d_username := username;
           d_created_at := now;
           d_seq := VNone;
           d_before_value := dumps_or_none before_dict;
           d_after_value := dumps_or_none after_dict |} in
      do* provide (entity +:+ "_history_repository") in
      do* save_history entity db domain in
      ret result.

End Collaborators.

Arguments env {W} _.
Arguments calls {W} _.

End Decorator.

(* ===================================================================== *)
(** ** The logging pipeline (src/logging)                                 *)
(* ===================================================================== *)

Module Logging.

(** *** [uuid.uuid4()] and [str()] of it *)

(** [UUID(bytes=os.urandom(16), version=4).int] for the random integer [r]:
    the variant and version bits are forced. *)
Definition uuid4_int (r : N) : N :=
  let i := N.ldiff r (N.shiftl 0xc000 48) in
  let i := N.lor i (N.shiftl 0x8000 48) in
  let i := N.ldiff i (N.shiftl 0xf000 64) in
  N.lor i (N.shiftl 4 76).

Definition uuid_str (r : N) : string :=
  let h := Json.hex_fixed 32 (uuid4_int r) in
  substring 0 8 h +:+ "-" +:+ substring 8 4 h +:+ "-" +:+ substring 12 4 h
    +:+ "-" +:+ substring 16 4 h +:+ "-" +:+ substring 20 12 h.

(** [str(uuid.uuid4())[:8]] *)
Definition short_id (r : N) : string := substring 0 8 (uuid_str r).

Arguments uuid_str : simpl never.
Arguments short_id : simpl never.

(** *** [round(x, 2)] on a float *)

(** Nearest integer to [num / den], ties to even ([0 < den]). *)
Definition round_half_even (num den : Z) : Z :=
  let q := (num / den)%Z in
  let r := (num mod den)%Z in
  match (2 * r ?= den)%Z with
  | Lt => q
  | Gt => (q + 1)%Z
  | Eq => if Z.even q then q else (q + 1)%Z
  end.

(** The float nearest to the decimal that is nearest to [x] with two
    digits after the point.  A float with no fractional bit is its own
    rounding; so are the infinities and NaN. *)
Definition round2 (x : float) : float :=
  match Prim2SF x with
  | S754_finite s m e =>
      if (0 <=? e)%Z then x
      else
        match round_half_even (Zpos m * 100) (2 ^ (- e)) with
        | Zpos n =>
            SF2Prim (SFdiv prec emax (S754_finite s n 0)
                       (S754_finite false 100 0))
        | _ => SF2Prim (S754_zero s)
        end
  | _ => x
  end.

Arguments round2 : simpl never.

(** The float nearest to [n / 100], with the sign [s] *)
Definition hundredths (s : bool) (n : Z) : float :=
  match n with
  | Zpos p =>
      SF2Prim (SFdiv prec emax (S754_finite s p 0) (S754_finite false 100 0))
  | _ => SF2Prim (S754_zero s)
  end.

(** Modelled from the spec: [y] is [x] rounded to 2 decimal places.  For a
    finite [x = (-1)^s * m * 2^e] with bits after the point, [y] is the
    float nearest to [n / 100], where the integer [n] is at most half a
    unit away from [100 * m * 2^e], and even when it is exactly half a unit
    away; any other [x] is its own rounding. *)
Definition rounded_to_two_places (x y : float) : Prop :=
  match Prim2SF x with
  | S754_finite s m e =>
      if (0 <=? e)%Z then y = x
      else
        exists n : Z,
          (0 <= n)%Z /\
          (Z.abs (2 * (Zpos m * 100 - n * 2 ^ (- e))) <= 2 ^ (- e))%Z /\
          (Z.abs (2 * (Zpos m * 100 - n * 2 ^ (- e))) = 2 ^ (- e)
           -> Z.even n = true)%Z /\
          y = hundredths s n
  | _ => y = x
  end.

(** *** Settings (src/core/settings.py) *)

Record Settings : Type := {
  SLOW_QUERY_THRESHOLD : float
}.

(** The default of the [Settings] class *)
Definition default_settings : Settings :=
  {| SLOW_QUERY_THRESHOLD := 2.0%float |}.

(** *** [LoggingRouterProvider] (src/provider/logging_router_provider.py) *)

(** The directories below [routers/v1] as the repository has them.  The
    provider lists the directory each time it is made, so what it finds is
    a parameter of the pipeline: once the modules of [routers/v1] are
    imported, Python may have added [__pycache__]. *)
Definition routers_v1 : list string :=
  ["auth"; "employee"; "organization"; "position"; "rank"; "user"].

(** [[a-zA-Z0-9_-]] *)
Definition is_domain_char (c : ascii) : bool :=
  let n := N_of_ascii c in
  ((97 <=? n) && (n <=? 122) || (65 <=? n) && (n <=? 90)
   || (48 <=? n) && (n <=? 57) || (n =? 95) || (n =? 45))%N.

Fixpoint take_domain (s : string) : string :=
  match s with
  | EmptyString => EmptyString
  | String c s' =>
      if is_domain_char c then String c (take_domain s') else EmptyString
  end.

(** [s.replace("-", "_")] *)
Fixpoint dash_to_underscore (s : string) : string :=
  match s with
  | EmptyString => EmptyString
  | String c s' =>
      String (if (N_of_ascii c =? 45)%N then ascii_of_N 95 else c)
        (dash_to_underscore s')
  end.

Definition ends_with (suffix s : string) : bool :=
  let n := String.length s in
  let k := String.length suffix in
  (k <=? n)%nat && (substring (n - k) k s =? suffix).

(** [s.removesuffix(suffix)] *)
Definition removesuffix (suffix s : string) : string :=
  if ends_with suffix s then substring 0 (String.length s - String.length suffix) s
  else s.

(** [extract_domain_from_path]: the name after [/v1/], checked against
    [self.router_domains], [general] otherwise. *)
Definition extract_domain_from_path (router_domains : list string)
    (path : string) : string :=
  if String.prefix "/v1/" path then
    match take_domain (substring 4 (String.length path - 4) path) with
    | EmptyString => "general"
    | group =>
        let raw := dash_to_underscore group in
        if ends_with "_history" raw
           && mem_string (removesuffix "_history" raw) router_domains
        then raw
        else if mem_string raw router_domains then raw else "general"
    end
  else "general".

(** [resolve_handler_name]: the endpoint is given by its [__name__], if it
    has one. *)
Definition resolve_handler_name (endpoint : option string) : string :=
  match endpoint with
  | Some name => if name =? "<lambda>" then "unnamed_handler" else name
  | None => "unnamed_handler"
  end.

Arguments extract_domain_from_path : simpl never.
Arguments resolve_handler_name : simpl never.

(** *** Adapters, contexts, log records *)

(** A [StructuredLoggingAdapter] instance *)
Record adapter : Type := {
  logger : string;
  trace_id : string;
  _sql_logs : list (string * value);
  _method : string;
  _path : string;
  _handler : string;
  _pending_tx_event : option string
}.

(** The record handed to the logger: the [extra] fields after [process],
    the level and the adapter that made the call.  The text block of
    [_format_block_full] is the message of the same call and is left out. *)
Record log_event : Type := {
  ev_adapter : nat;
  ev_logger : string;
  ev_level : string;
  ev_trace_id : string;
  ev_log_type : string;
  ev_method : string;
  ev_path : string;
  ev_handler : string;
  ev_status_code : option Z;
  ev_duration_ms : option float;
  ev_time : string;
  ev_log_message : option string;
  ev_cause : option value;
  ev_exception : option string;
  ev_context : option value;
  ev_sql : option (list (string * value))
}.

(** The three context variables of [RequestLoggingContext], as one
    execution unit sees them. *)
Record context : Type := {
  _logger_var : option nat;
  _slow_logger_var : option nat;
  _trace_id_var : option string
}.

Definition no_context : context :=
  {| _logger_var := None; _slow_logger_var := None; _trace_id_var := None |}.

(** The process: adapters by reference, the context of every execution
    unit (asyncio task or worker thread), the records logged so far, and
    how far the clock and the random source have been read. *)
Record lstate : Type := {
  heap : gmap nat adapter;
  next_ref : nat;
  ctxs : gmap nat context;
  sink : list log_event;
  ticks : nat;
  draws : nat
}.

(** The messages of the pending transaction record *)
Definition msg_commit : string := "✅ COMMIT".
Definition msg_rollback : string := "⛔️ ROLLBACK".

Definition blank : adapter :=
  {| logger := EmptyString; trace_id := EmptyString; _sql_logs := [];
     _method := EmptyString; _path := EmptyString; _handler := EmptyString;
     _pending_tx_event := None |}.

Definition deref (s : lstate) (r : nat) : adapter :=
  match heap s !! r with Some a => a | None => blank end.

Definition ctx_of (s : lstate) (u : nat) : context :=
  match ctxs s !! u with Some c => c | None => no_context end.

Definition with_heap (f : gmap nat adapter -> gmap nat adapter) (s : lstate)
  : lstate :=
  {| heap := f (heap s); next_ref := next_ref s; ctxs := ctxs s;
     sink := sink s; ticks := ticks s; draws := draws s |}.

Definition with_ctx (u : nat) (f : context -> context) (s : lstate) : lstate :=
  {| heap := heap s; next_ref := next_ref s;
     ctxs := <[u := f (ctx_of s u)]> (ctxs s);
     sink := sink s; ticks := ticks s; draws := draws s |}.

Definition with_sink (f : list log_event -> list log_event) (s : lstate)
  : lstate :=
  {| heap := heap s; next_ref := next_ref s; ctxs := ctxs s;
     sink := f (sink s); ticks := ticks s; draws := draws s |}.

(** Whether [json.dumps(v)] without [default] accepts [v]: instances are
    refused with a [TypeError]. *)
Fixpoint serializable (v : value) : bool :=
  match v with
  | VNone | VBool _ | VInt _ | VStr _ => true
  | VList l =>
      (fix all (l : list value) : bool :=
         match l with
         | [] => true
         | x :: l' => serializable x && all l'
         end) l
  | VDict d =>
      (fix all (d : list (string * value)) : bool :=
         match d with
         | [] => true
         | (_, x) :: d' => serializable x && all d'
         end) d
  | VObj _ _ | VSession _ => false
  end.

(** The message of that [TypeError]; Python's also names the type of the
    object, which a value of the model does not keep. *)
Definition msg_not_serializable : string :=
  "Object is not JSON serializable".

(** The [if cause:] and [if context:] lines of [_format_block_full]: the
    block is built before anything is logged, and [json.dumps] raises on a
    value it does not know. *)
Definition block_check (v : option value) : M lstate unit :=
  match v with
  | Some x =>
      if truthy x && negb (serializable x)
      then raise (TypeError msg_not_serializable)
      else ret tt
  | None => ret tt
  end.

(** A cause or a context the text block accepts *)
Definition accepted (v : option value) : Prop :=
  match v with
  | Some x => truthy x = true -> serializable x = true
  | None => True
  end.

Section Runtime.

Variable settings : Settings.
(** What the n-th reading of the clock gives: [time.time()] and
    [TimeProvider.get_kst_now_str()] *)
Variable time_at : nat -> float.
Variable kst_at : nat -> string.
(** The n-th draw of [os.urandom(16)], as an integer *)
Variable rand_at : nat -> N.
(** [self.router_domains] of the provider made for a request: the names of
    the directories [_load_router_domains] finds below [routers/v1], with
    [-] written [_] *)
Variable router_dirs : list string.

Definition time_time : M lstate float :=
  fun s =>
    (Ok (time_at (ticks s)),
     {| heap := heap s; next_ref := next_ref s; ctxs := ctxs s;
        sink := sink s; ticks := S (ticks s); draws := draws s |}).

Definition get_kst_now_str : M lstate string :=
  fun s =>
    (Ok (kst_at (ticks s)),
     {| heap := heap s; next_ref := next_ref s; ctxs := ctxs s;
        sink := sink s; ticks := S (ticks s); draws := draws s |}).

Definition urandom : M lstate N :=
  fun s =>
    (Ok (rand_at (draws s)),
     {| heap := heap s; next_ref := next_ref s; ctxs := ctxs s;
        sink := sink s; ticks := ticks s; draws := S (draws s) |}).

(** *** [StructuredLoggingAdapter]
        (src/logging/extensions/structured_logging_adapter.py) *)

(** [StructuredLoggingAdapter(logger, trace_id)] *)
Definition new_adapter (lg tid : string) : M lstate nat :=
  fun s =>
    let r := next_ref s in
    (Ok r,
     {| heap := <[r := {| logger := lg; trace_id := tid; _sql_logs := [];
                          _method := EmptyString; _path := EmptyString;
                          _handler := EmptyString;
                          _pending_tx_event := None |}]> (heap s);
        next_ref := S r; ctxs := ctxs s; sink := sink s;
        ticks := ticks s; draws := draws s |}).

Definition update (r : nat) (f : adapter -> adapter) : M lstate unit :=
  modify (fun s => with_heap (fun h => <[r := f (deref s r)]> h) s).

Definition clone_with_logger (r : nat) (new_logger : string) : M lstate nat :=
  let* self := gets (fun s => deref s r) in
  let* clone := new_adapter new_logger (trace_id self) in
  do* update clone (fun c =>
        {| logger := logger c; trace_id := trace_id c;
           _sql_logs := _sql_logs c;
           _method := _method self; _path := _path self;
           _handler := _handler self;
           _pending_tx_event := _pending_tx_event c |}) in
  ret clone.

Definition start_structured (r : nat) (method path handler : string)
  : M lstate unit :=
  update r (fun a =>
    {| logger := logger a; trace_id := trace_id a; _sql_logs := _sql_logs a;
       _method := method; _path := path;
       _handler := if handler =? EmptyString then "unnamed_handler" else handler;
       _pending_tx_event := _pending_tx_event a |}).

Definition sql_structured (r : nat) (query : string) (params : value)
  : M lstate unit :=
  update r (fun a =>
    {| logger := logger a; trace_id := trace_id a;
       _sql_logs := (_sql_logs a ++ [(query, params)])%list;
       _method := _method a; _path := _path a; _handler := _handler a;
       _pending_tx_event := _pending_tx_event a |}).

Definition set_pending (r : nat) (ev : option string) : M lstate unit :=
  update r (fun a =>
    {| logger := logger a; trace_id := trace_id a; _sql_logs := _sql_logs a;
       _method := _method a; _path := _path a; _handler := _handler a;
       _pending_tx_event := ev |}).

Definition log_commit (r : nat) : M lstate unit := set_pending r (Some "COMMIT").
Definition log_rollback (r : nat) : M lstate unit :=
  set_pending r (Some "ROLLBACK").

(** [build_extra] *)
Definition build_extra (r : nat) (self : adapter) (log_type : string)
    (message : option string) (context : option value)
    (status_code : option Z) (duration_ms : option float)
    (sql : option (list (string * value))) (time : string) : log_event :=
  {| ev_adapter := r;
     ev_logger := logger self;
     ev_level := EmptyString;
     ev_trace_id := trace_id self;
     ev_log_type := log_type;
     ev_method := _method self;
     ev_path := _path self;
     ev_handler := _handler self;
     ev_status_code := status_code;
     ev_duration_ms := duration_ms;
     ev_time := time;
     ev_log_message := message;
     ev_cause := None;
     ev_exception := None;
     ev_context := context;
     ev_sql := sql |}.

(** [process]: the four common fields are written over the [extra]. *)
Definition process (self : adapter) (ev : log_event) : log_event :=
  {| ev_adapter := ev_adapter ev;
     ev_logger := ev_logger ev;
     ev_level := ev_level ev;
     ev_trace_id := trace_id self;
     ev_log_type := ev_log_type ev;
     ev_method := _method self;
     ev_path := _path self;
     ev_handler := _handler self;
     ev_status_code := ev_status_code ev;
     ev_duration_ms := ev_duration_ms ev;
     ev_time := ev_time ev;
     ev_log_message := ev_log_message ev;
     ev_cause := ev_cause ev;
     ev_exception := ev_exception ev;
     ev_context := ev_context ev;
     ev_sql := ev_sql ev |}.

Definition at_level (level : string) (ev : log_event) : log_event :=
  {| ev_adapter := ev_adapter ev;
     ev_logger := ev_logger ev;
     ev_level := level;
     ev_trace_id := ev_trace_id ev;
     ev_log_type := ev_log_type ev;
     ev_method := ev_method ev;
     ev_path := ev_path ev;
     ev_handler := ev_handler ev;
     ev_status_code := ev_status_code ev;
     ev_duration_ms := ev_duration_ms ev;
     ev_time := ev_time ev;
     ev_log_message := ev_log_message ev;
     ev_cause := ev_cause ev;
     ev_exception := ev_exception ev;
     ev_context := ev_context ev;
     ev_sql := ev_sql ev |}.

(** [self.info(msg, extra=ev)] and [self.error(msg, extra=ev)] on a logger
    of [LoggingConfig]: the record passes the level of the logger, which is
    [LOG_LEVEL], [INFO] unless the deployment asks for less, and reaches its
    handlers.  A call at [DEBUG] passes only where the logger was set to
    that level; [debug_structured] takes this as an argument. *)
Definition emit (r : nat) (level : string) (ev : log_event) : M lstate unit :=
  modify (fun s =>
    with_sink (fun l => (l ++ [at_level level (process (deref s r) ev)])%list) s).

Definition slow_sql_structured (r : nat) (query : string) (params : value)
    (elapsed : float) : M lstate unit :=
  let* now := get_kst_now_str in
  let* self := gets (fun s => deref s r) in
  emit r "INFO"
    (build_extra r self "SLOW_QUERY" None None None (Some elapsed)
       (Some [(query, params)]) now).

Definition end_structured (r : nat) (status_code : Z) (duration_ms : float)
  : M lstate unit :=
  let* now := get_kst_now_str in
  let* self := gets (fun s => deref s r) in
  do* emit r "INFO"
        (build_extra r self "START" None None (Some status_code)
           (Some duration_ms) (Some (_sql_logs self)) now) in
  match _pending_tx_event self with
  | Some tx =>
      if tx =? EmptyString then ret tt
      else
        let message := if tx =? "COMMIT" then msg_commit else msg_rollback in
        (* the text block and [build_extra] read the clock in turn *)
        let* now_block := get_kst_now_str in
        let* now' := get_kst_now_str in
        do* emit r "INFO"
              (build_extra r self tx (Some message) None None None None now') in
        set_pending r None
  | None => ret tt
  end.

(** [build_extra(...) | {method, path, handler}] *)
Definition override (method path handler : string) (ev : log_event)
  : log_event :=
  {| ev_adapter := ev_adapter ev;
     ev_logger := ev_logger ev;
     ev_level := ev_level ev;
     ev_trace_id := ev_trace_id ev;
     ev_log_type := ev_log_type ev;
     ev_method := method;
     ev_path := path;
     ev_handler := handler;
     ev_status_code := ev_status_code ev;
     ev_duration_ms := ev_duration_ms ev;
     ev_time := ev_time ev;
     ev_log_message := ev_log_message ev;
     ev_cause := ev_cause ev;
     ev_exception := ev_exception ev;
     ev_context := ev_context ev;
     ev_sql := ev_sql ev |}.

(** [debug_structured]: the text block is built first, then
    [self.debug(...)] hands the record over if the logger under the adapter
    is enabled for [DEBUG] ([enabled], [isEnabledFor(DEBUG)]) and drops it
    otherwise. *)
Definition debug_structured (r : nat) (enabled : bool) (message : string)
    (context : option value) (method path handler : string) : M lstate unit :=
  let* now := get_kst_now_str in
  do* block_check context in
  let* self := gets (fun s => deref s r) in
  if enabled then
    emit r "DEBUG"
      (override method path handler
         (build_extra r self "DEBUG_STRUCTURED" (Some message) context None None
            None now))
  else ret tt.

(** *** [RequestLoggingContext]
        (src/logging/context/request_logging_context.py), for the
        execution unit [u] that makes the call *)

Definition uuid4_full : M lstate string :=
  let* r := urandom in ret (uuid_str r).

Definition ctx_set (u : nat) (lg : nat) (tid : option string) : M lstate unit :=
  let* tid := (match tid with
               | None => uuid4_full
               | Some t => ret t
               end) in
  do* modify (with_ctx u (fun c =>
        {| _logger_var := Some lg; _slow_logger_var := _slow_logger_var c;
           _trace_id_var := _trace_id_var c |})) in
  modify (with_ctx u (fun c =>
        {| _logger_var := _logger_var c; _slow_logger_var := _slow_logger_var c;
           _trace_id_var := Some tid |})).

Definition ctx_set_slow (u : nat) (lg : nat) (tid : option string)
  : M lstate unit :=
  let* tid := (match tid with
               | None => uuid4_full
               | Some t => ret t
               end) in
  do* modify (with_ctx u (fun c =>
        {| _logger_var := _logger_var c; _slow_logger_var := Some lg;
           _trace_id_var := _trace_id_var c |})) in
  modify (with_ctx u (fun c =>
        {| _logger_var := _logger_var c; _slow_logger_var := _slow_logger_var c;
           _trace_id_var := Some tid |})).

Definition ctx_get_slow (u : nat) : M lstate nat :=
  fun s =>
    match _slow_logger_var (ctx_of s u) with
    | Some r => (Ok r, s)
    | None => (Raise (LookupError "slow_logger"), s)
    end.

Definition ctx_get (u : nat) : M lstate nat :=
  fun s =>
    match _logger_var (ctx_of s u) with
    | Some r => (Ok r, s)
    | None => (Raise (LookupError "request_logger"), s)
    end.

Definition trace_id_var_get (u : nat) : M lstate string :=
  fun s =>
    match _trace_id_var (ctx_of s u) with
    | Some t => (Ok t, s)
    | None => (Raise (LookupError "trace_id"), s)
    end.

Definition ctx_get_trace_id (u : nat) : M lstate string :=
  try_except (trace_id_var_get u) is_LookupError (fun _ => ret "None").

Definition ctx_clear (u : nat) : M lstate unit :=
  let* r := urandom in
  let tid := short_id r in
  let* default_logger := new_adapter "default" tid in
  do* modify (with_ctx u (fun c =>
        {| _logger_var := Some default_logger;
           _slow_logger_var := _slow_logger_var c;
           _trace_id_var := _trace_id_var c |})) in
  modify (with_ctx u (fun c =>
        {| _logger_var := _logger_var c; _slow_logger_var := _slow_logger_var c;
           _trace_id_var := Some tid |})).

(** *** [SqlQueryLogging] (src/logging/extensions/sql_query_logging.py) *)

(** [self.slow_threshold] *)
Definition slow_threshold : float := SLOW_QUERY_THRESHOLD settings.

(** [for param_set in parameters] *)
Definition iterate (v : value) : res (list value) :=
  match v with
  | VList l => Ok l
  | VDict d => Ok (map (fun kv => VStr (fst kv)) d)
  | _ => Raise (TypeError "object is not iterable")
  end.

Fixpoint sql_structured_each (r : nat) (statement : string)
    (sets : list value) : M lstate unit :=
  match sets with
  | [] => ret tt
  | p :: rest =>
      do* sql_structured r statement p in sql_structured_each r statement rest
  end.

(** The hook returns the start time it left on the execution context. *)
Definition before_cursor_execute (u : nat) (statement : string)
    (parameters : value) (executemany : bool) : M lstate float :=
  let* start := time_time in
  do* try_except
        (let* lg := ctx_get u in
         if executemany then
           let* sets := lift_res (iterate parameters) in
           sql_structured_each lg statement sets
         else sql_structured lg statement parameters)
        is_LookupError
        (fun _ => ret tt) in
  ret start.

Definition _log_slow_query (u : nat) (statement : string) (parameters : value)
    (duration_ms : float) : M lstate unit :=
  try_except
    (let* slow_logger := ctx_get_slow u in
     slow_sql_structured slow_logger statement parameters duration_ms)
    is_LookupError
    (fun _ =>
       let trace_id := "unknown" in
       let* dummy_logger := new_adapter "slow_query" trace_id in
       slow_sql_structured dummy_logger statement parameters duration_ms).

(** [context_start] is the [_query_start_time] of the execution context, if
    the before hook left one.  Both operands of the subtraction read the
    clock: the default of [getattr] is evaluated whether it is used or
    not. *)
Definition after_cursor_execute (u : nat) (statement : string)
    (parameters : value) (context_start : option float) : M lstate unit :=
  let* t := time_time in
  let* t_default := time_time in
  let start := match context_start with Some t0 => t0 | None => t_default end in
  let duration := PrimFloat.sub t start in
  if PrimFloat.leb slow_threshold duration then
    _log_slow_query u statement parameters (round2 (PrimFloat.mul duration 1000))
  else ret tt.

Definition _log_tx_event (u : nat) (event_type : string) : M lstate unit :=
  try_except
    (let* lg := ctx_get u in
     if event_type =? "commit" then log_commit lg
     else if event_type =? "rollback" then log_rollback lg
     else ret tt)
    is_LookupError
    (fun _ => ret tt).

Definition after_commit (u : nat) : M lstate unit := _log_tx_event u "commit".
Definition after_rollback (u : nat) : M lstate unit := _log_tx_event u "rollback".

(** *** The interceptor
        (src/logging/logging_route_for_request_response.py) *)

Record request : Type := {
  req_method : string;
  req_path : string;
  req_endpoint : option string
}.

Record response : Type := {
  status_code : Z;
  headers : list (string * string)
}.

(** [response.headers[name] = v] *)
Fixpoint set_header (name v : string) (h : list (string * string))
  : list (string * string) :=
  match h with
  | [] => [(name, v)]
  | (k, x) :: h' =>
      if k =? name then (name, v) :: h' else (k, x) :: set_header name v h'
  end.

Fixpoint header (name : string) (h : list (string * string)) : option string :=
  match h with
  | [] => None
  | (k, x) :: h' => if k =? name then Some x else header name h'
  end.

(** The message of the [test_debug] endpoint *)
Definition msg_test_debug : string := "🐛 테스트 로그".

(** What the code between the interceptor's set-up and its END log does to
    the logging state: statements going through the two cursor hooks,
    session events, and an endpoint that installs an adapter of its own
    (the [test_debug] endpoint of src/routers/v1/test_router.py). *)
Inductive action : Type :=
| Execute (statement : string) (parameters : value) (executemany : bool)
| Commit
| Rollback
| TestDebug (req : request).

Definition run_action (u : nat) (a : action) : M lstate unit :=
  match a with
  | Execute statement parameters executemany =>
      let* start := before_cursor_execute u statement parameters executemany in
      after_cursor_execute u statement parameters (Some start)
  | Commit => after_commit u
  | Rollback => after_rollback u
  | TestDebug req =>
      let* trace_id := uuid4_full in
      let* lg := new_adapter "rank" trace_id in
      do* ctx_set u lg None in
      (* the endpoint has set the logger and its handlers to DEBUG *)
      debug_structured lg true msg_test_debug
        (Some (VDict [("active", VBool true)]))
        (req_method req) (req_path req) "test_debug"
  end.

Fixpoint run_actions (u : nat) (l : list action) : M lstate unit :=
  match l with
  | [] => ret tt
  | a :: l' => do* run_action u a in run_actions u l'
  end.

(** [original_handler(request)]: what it does to the logging state, then
    its response or its exception. *)
Definition original_handler (u : nat) (body : list action)
    (outcome : res response) : M lstate response :=
  do* run_actions u body in lift_res outcome.

(** The first part of [custom_handler], up to the START bookkeeping: the
    start time, the trace id and the two adapters. *)
Definition set_up (u : nat) (req : request)
  : M lstate (float * string * nat * nat) :=
  let* start_time := time_time in
  let* r := urandom in
  let trace_id := short_id r in
  let domain := extract_domain_from_path router_dirs (req_path req) in
  let handler_name := resolve_handler_name (req_endpoint req) in
  let* lg := new_adapter domain trace_id in
  let* slow_logger := clone_with_logger lg "slow_query" in
  do* ctx_set u lg None in
  do* ctx_set_slow u slow_logger None in
  do* start_structured lg (req_method req) (req_path req) handler_name in
  do* start_structured slow_logger (req_method req) (req_path req) handler_name in
  ret (start_time, trace_id, lg, slow_logger).

Definition custom_handler (u : nat) (req : request) (body : list action)
    (outcome : res response) : M lstate response :=
  let* '(start_time, trace_id, lg, slow_logger) := set_up u req in
  let* resp :=
    try_except
      (let* resp := original_handler u body outcome in
       ret {| status_code := status_code resp;
              headers := set_header "X-Trace-Id" trace_id (headers resp) |})
      is_Exception
      (fun exc => raise exc) in
  let* t := time_time in
  let duration := PrimFloat.mul (PrimFloat.sub t start_time) 1000 in
  do* end_structured lg (status_code resp) (round2 duration) in
  ret resp.

(** *** Execution units side by side *)

(** What a unit may do that reaches the request context: the context
    operations themselves, the set-up of a request, what a handler does,
    a whole request. *)
Inductive unit_op : Type :=
| OpSet (lg : nat) (tid : option string)
| OpSetSlow (lg : nat) (tid : option string)
| OpClear
| OpSetUp (req : request)
| OpAction (a : action)
| OpRequest (req : request) (body : list action) (outcome : res response).

Definition run_op (u : nat) (op : unit_op) : M lstate unit :=
  match op with
  | OpSet lg tid => ctx_set u lg tid
  | OpSetSlow lg tid => ctx_set_slow u lg tid
  | OpClear => ctx_clear u
  | OpSetUp req => do* set_up u req in ret tt
  | OpAction a => run_action u a
  | OpRequest req body outcome =>
      do* custom_handler u req body outcome in ret tt
  end.

(** An interleaving: the steps of all the units in the order they take
    place.  A step that raises ends where it raised; the other units go
    on. *)
Fixpoint run_schedule (tr : list (nat * unit_op)) (s : lstate) : lstate :=
  match tr with
  | [] => s
  | (v, op) :: tr' => run_schedule tr' (snd (run_op v op s))
  end.

(** What [get()], [get_slow()] and [get_trace_id()] answer to unit [u] *)
Definition observe (u : nat) (s : lstate)
  : res nat * res nat * res string :=
  (fst (ctx_get u s), fst (ctx_get_slow u s), fst (ctx_get_trace_id u s)).

End Runtime.

End Logging.

(* ===================================================================== *)
(** ** Following one request through the pipeline                         *)
(* ===================================================================== *)

Module RequestTrace.
Import Logging.

(** [preserves P m]: whatever [m] answers, the states before and after
    are related by [P]. *)
Definition preserves {A} (P : lstate -> lstate -> Prop) (m : M lstate A) : Prop :=
  forall s r s', m s = (r, s') -> P s s'.

(** The bindings unit [u] sees are the same before and after. *)
Definition same_context (u : nat) (s s' : lstate) : Prop :=
  ctx_of s' u = ctx_of s u.

(** States that differ in the heap only *)
Definition heap_only (s s' : lstate) : Prop :=
  next_ref s' = next_ref s /\ ctxs s' = ctxs s /\ sink s' = sink s /\
  ticks s' = ticks s /\ draws s' = draws s.

Definition add_logs (a : adapter) (l : list (string * value)) : adapter :=
  {| logger := logger a; trace_id := trace_id a;
     _sql_logs := (_sql_logs a ++ l)%list;
     _method := _method a; _path := _path a; _handler := _handler a;
     _pending_tx_event := _pending_tx_event a |}.

Definition mark_pending (a : adapter) (ev : option string) : adapter :=
  {| logger := logger a; trace_id := trace_id a; _sql_logs := _sql_logs a;
     _method := _method a; _path := _path a; _handler := _handler a;
     _pending_tx_event := ev |}.

(** The buffer entries one statement makes: one, or one for each parameter
    set of an [executemany]. *)
Definition entries_of (statement : string) (parameters : value)
    (executemany : bool) : list (string * value) :=
  if executemany then
    match iterate parameters with
    | Ok sets => map (pair statement) sets
    | Raise _ => []
    end
  else [(statement, parameters)].

(** What an action does to the adapter that is the logger of the context *)
Definition act (a : action) (ad : adapter) : adapter :=
  match a with
  | Execute statement parameters executemany =>
      add_logs ad (entries_of statement parameters executemany)
  | Commit => mark_pending ad (Some "COMMIT")
  | Rollback => mark_pending ad (Some "ROLLBACK")
  | TestDebug _ => ad
  end.

(** The adapter of the request through a handler body: it follows the
    actions as long as it is the logger of the context, that is, until the
    handler installs another one. *)
Fixpoint track (own : bool) (body : list action) (ad : adapter)
  : bool * adapter :=
  match body with
  | [] => (own, ad)
  | a :: rest =>
      if own then
        match a with
        | TestDebug _ => track false rest ad
        | _ => track true rest (act a ad)
        end
      else track false rest ad
  end.

(** The statements a handler body leaves in the buffer of the request, in
    order: those executed before the handler installs a logger of its own,
    if it does. *)
Fixpoint buffered (body : list action) : list (string * value) :=
  match body with
  | [] => []
  | Execute statement parameters executemany :: rest =>
      (entries_of statement parameters executemany ++ buffered rest)%list
  | TestDebug _ :: _ => []
  | _ :: rest => buffered rest
  end.

Section Invariant.

(** The unit of the request, its two adapters and its short trace id *)
Variables (u lg slow : nat) (tid : string).

(** What holds from the set-up of the request to its END log *)
Definition inv (s : lstate) : Prop :=
  lg < next_ref s /\ slow < next_ref s /\ lg <> slow /\
  trace_id (deref s lg) = tid /\ trace_id (deref s slow) = tid /\
  _slow_logger_var (ctx_of s u) = Some slow /\
  (exists full, _trace_id_var (ctx_of s u) = Some full /\
                String.length full = 36) /\
  (exists r, _logger_var (ctx_of s u) = Some r /\ r < next_ref s /\ r <> slow).

(** The records a handler body can add: slow queries through the slow
    adapter of the request, debug output through an adapter of the
    handler's own. *)
Definition from_body (e : log_event) : Prop :=
  (ev_log_type e = "SLOW_QUERY" /\ ev_adapter e = slow /\ ev_trace_id e = tid)
  \/ (ev_log_type e = "DEBUG_STRUCTURED" /\ ev_adapter e <> lg
       /\ ev_adapter e <> slow).

(** Whether the adapter of the request is the logger of the context *)
Definition is_own (s : lstate) : bool :=
  match _logger_var (ctx_of s u) with
  | Some r => (r =? lg)%nat
  | None => false
  end.

End Invariant.

End RequestTrace.

(* ===================================================================== *)
(** ** A small employee service to run the decorators on                  *)
(* ===================================================================== *)

Module Scenario.
Import Decorator.

(** The employee table: the rows, as the domain objects the repository
    returns for them. *)
Definition table : Type := list value.

Definition has_seq (k : value) (row : value) : bool :=
  match getattr row "seq", k with
  | Ok (VInt a), VInt b => (a =? b)%Z
  | _, _ => false
  end.

(** [EmployeeRepository.get_employee_by_seq]: the row or [None] *)
Definition get_employee_by_seq (_ : string) (_ k : value) (w : table)
  : res value * table :=
  (Ok (match List.find (has_seq k) w with Some row => row | None => VNone end), w).

(** [EmployeeService.delete_employee(self, db, employee_seq)] *)
Definition delete_employee (args : list value) (_ : pydict) (w : table)
  : res value * table :=
  match nth_error args 2 with
  | Some k =>
      match List.find (has_seq k) w with
      | Some _ => (Ok (VBool true), List.filter (fun row => negb (has_seq k row)) w)
      | None => (Raise (OtherException "EmployeeNotFoundException" EmptyString), w)
      end
  | None => (Raise (TypeError "missing employee_seq"), w)
  end.

Definition employee (seq : Z) (name : string) : value :=
  VObj "EmployeeDomain"
    [("status", VStr "ACTIVE"); ("name", VStr name); ("seq", VInt seq);
     ("hire_date", VObj "2024-03-01" [])].

(** [EmployeeService.create_employee(self, db, request)]: the stored row
    comes back with its identifier. *)
Definition create_employee (_ : list value) (_ : pydict) (w : table)
  : res value * table :=
  let row := employee 13 "Lee" in (Ok row, (w ++ [row])%list).

Definition commit_ok (_ : nat) (w : table) : res unit * table := (Ok tt, w).
Definition rollback_ok (_ : nat) (w : table) : res unit * table := (Ok tt, w).

(** A commit refused by the database *)
Definition commit_refused (_ : nat) (w : table) : res unit * table :=
  (Raise (OtherException "IntegrityError" "duplicate entry"), w).

(** A rollback on a lost connection *)
Definition rollback_lost (_ : nat) (w : table) : res unit * table :=
  (Raise (OtherException "OperationalError" "server has gone away"), w).

(** A unit of work interrupted from outside *)
Definition interrupted (_ : list value) (_ : pydict) (w : table)
  : res value * table :=
  (Raise (BaseOnly "KeyboardInterrupt"), w).

Definition save_ok (_ : string) (_ : value) (_ : history_entity) (w : table)
  : res unit * table := (Ok tt, w).

Definition clock (_ : table) : Z := 1700000000000000%Z.

Definition service : value := VObj "EmployeeService" [].

Definition create_request : value :=
  VObj "EmployeeCreateRequestDto" [("name", VStr "Lee"); ("status", VStr "ACTIVE")].

(** An update request that carries the identifier of its target *)
Definition update_request (seq : Z) : value :=
  VObj "EmployeeUpdateRequestDto" [("employee_seq", VInt seq); ("name", VStr "Choi")].

Definition delete_sig : signature := ["self"; "db"; "employee_seq"].
Definition create_sig : signature := ["self"; "db"; "employee_create_request"].
Definition update_sig : signature :=
  ["self"; "db"; "employee_seq"; "update_request"].

Definition start (w : table) : state table := {| env := w; calls := [] |}.

Definition two_rows : table := [employee 0 "Kim"; employee 12 "Park"].

(** The employee service under [History(entity="employee", action=...)] *)
Definition audited (action : string) (sig : signature)
    (f : list value -> pydict -> table -> res value * table) : pyfun table :=
  History table get_employee_by_seq save_ok clock "employee" action sig
    (wrapped table f).


Definition delete_run (seq : Z) : res value * state table :=
  audited "DELETE" delete_sig delete_employee
    [service; VSession 1; VInt seq] [] (start two_rows).

End Scenario.

(* ===================================================================== *)
(** ** A few requests to run the pipeline on                              *)
(* ===================================================================== *)

Module Traffic.
Import Logging RequestTrace.

(** The process before any request *)
Definition boot : lstate :=
  {| heap := ∅; next_ref := 0; ctxs := ∅; sink := []; ticks := 0; draws := 0 |}.

(** A clock on which the first statement of the first request takes three
    seconds *)
Definition clock (n : nat) : float :=
  match n with
  | 0 => 100
  | 1 => 100.25
  | 2 => 103.25
  | _ => 103.5
  end%float.

Definition kst (_ : nat) : string := "2025-03-01 09:00:00".

Definition random (n : nat) : N :=
  (0x123e4567e89b12d3a456426614174000 + 0x1000000010000000000000001 * N.of_nat n)%N.

Definition get_employee : request :=
  {| req_method := "GET"; req_path := "/v1/employee/12";
     req_endpoint := Some "get_employee" |}.

Definition select_employee : action :=
  Execute "SELECT * FROM employee WHERE seq = %s" (VList [VInt 12]) false.

Definition ok_response : response := {| status_code := 200; headers := [] |}.

Definition run_request (u : nat) (body : list action) (s : lstate)
  : res response * lstate :=
  custom_handler default_settings clock kst random routers_v1 u get_employee
    body
    (Ok ok_response) s.

Definition first_request : res response * lstate :=
  Eval vm_compute in run_request 0 [select_employee; Commit] boot.

(** The statement of the [/test/slow-sql] endpoint under a threshold of one
    second, on a clock that gives it a second and a half *)
Definition strict_settings : Settings :=
  {| SLOW_QUERY_THRESHOLD := 1%float |}.

Definition sleep_clock (n : nat) : float :=
  match n with 0 => 11.5 | _ => 12 end%float.

Definition sleep_after : res unit * lstate :=
  Eval vm_compute in
    after_cursor_execute strict_settings sleep_clock kst 0
      "SELECT SLEEP(1.5)" (VDict []) (Some 10%float) boot.

(** The request of the [test_debug] endpoint *)
Definition get_test_debug : request :=
  {| req_method := "GET"; req_path := "/v1/test/test-debug";
     req_endpoint := Some "test_debug" |}.

Definition debug_request : res response * lstate :=
  Eval vm_compute in
    custom_handler default_settings clock kst random routers_v1 0
      get_test_debug [TestDebug get_test_debug] (Ok ok_response) boot.

(** Unit 0 has set its request up; units 1 and 2 are at work. *)
Definition unit0_ready : lstate :=
  Eval vm_compute in snd (set_up clock random routers_v1 0 get_employee boot).

Definition others : list (nat * unit_op) :=
  [(1, OpSetUp get_employee);
   (2, OpRequest get_employee [select_employee] (Ok ok_response));
   (1, OpAction select_employee);
   (1, OpClear);
   (2, OpSet 7 (Some "deadbeef"))].

End Traffic.

(* ===================================================================== *)
(** ** The log of calls of a wrapper                                      *)
(* ===================================================================== *)

Module CallLog.
Import Decorator.

(** Calls that neither write a history row nor end the transaction: the
    container, the lookup and the wrapped function. *)
Definition quiet (c : call) : Prop :=
  match c with
  | CallProvider _ | CallGetBySeq _ _ _ | CallFunc _ _ => True
  | _ => False
  end.

Definition any_call (c : call) : Prop := True.

(** [grows P m]: whatever [m] answers, it has only added calls that
    satisfy [P] to the log. *)
Definition grows {W A} (P : call -> Prop) (m : M (state W) A) : Prop :=
  forall s r s', m s = (r, s') ->
    exists l, calls s' = (calls s ++ l)%list /\ Forall P l.

Section Phases.

Variable W : Type.
Variable func : list value -> pydict -> W -> res value * W.
Variable get_by_seq : string -> value -> value -> W -> res value * W.
Variable utc_now : W -> Z.

(** The wrapper of src/decorator/history.py, cut where it hands the row
    to the history repository: the lookup ... *)
Definition before_phase (action entity : string) (db entity_seq : value)
  : M (state W) (option pydict) :=
  if negb (action =? "INSERT") && truthy entity_seq then
    let* before_entity := repo_get_by_seq W get_by_seq entity db entity_seq in
    if truthy before_entity then
      let* d := lift_res (obj_dict before_entity) in
      ret (Some (clean_dict d))
    else ret None
  else ret None.

(** ... the snapshot of the result ... *)
Definition after_phase (action : string) (entity_seq result : value)
  : M (state W) (option pydict * value) :=
  if action =? "DELETE" then ret (None, entity_seq)
  else
    let* d := lift_res (obj_dict result) in
    let* s := lift_res (getattr result "seq") in
    ret (Some (clean_dict d), s).

(** ... and all that comes before [save_history]. *)
Definition prepare (entity action : string) (args : list value)
    (kwargs : pydict) (db entity_seq : value)
  : M (state W) (value * history_domain) :=
  do* provide W (entity +:+ "_repository") in
  let* before_dict := before_phase action entity db entity_seq in
  let* result := wrapped W func args kwargs in
  let* after := after_phase action entity_seq result in
  do* load_history_modules W entity in
  let* now := get_kst_now W utc_now in
  do* provide W (entity +:+ "_history_repository") in
  ret (result,
       {| d_entity_seq := snd after;
          d_action_type := action;
          d_username := dict_get kwargs "username";
          d_created_at := now;
          d_seq := VNone;
          d_before_value := dumps_or_none before_dict;
          d_after_value := dumps_or_none (fst after) |}).

End Phases.

End CallLog.

(* ===================================================================== *)
(** ** More runs of the employee service                                 *)
(* ===================================================================== *)

Module Cases.
Import Decorator Scenario.

(** The ORM bookkeeping attribute of an entity instance *)
Definition sa_state : string * value :=
  ("_sa_instance_state",
   VObj "<sqlalchemy.orm.state.InstanceState object at 0x7f3a5c1d2e50>" []).

(** The entity the repository answers after an update *)
Definition updated_entity (k : value) : value :=
  VObj "EmployeeEntity"
    [sa_state; ("seq", k); ("name", VStr "Choi");
     ("status", VStr "ACTIVE"); ("hire_date", VObj "2024-03-01" [])].

Definition updated (seq : Z) : value := updated_entity (VInt seq).

(** [EmployeeService.update_employee(self, db, employee_seq,
    update_request)]: the repository answers the refreshed entity. *)
Definition update_employee (args : list value) (_ : pydict) (w : table)
  : res value * table :=
  match nth_error args 2 with
  | Some k =>
      match List.find (has_seq k) w with
      | Some _ =>
          let row := updated_entity k in
          (Ok row,
           (List.filter (fun r => negb (has_seq k r)) w ++ [row])%list)
      | None => (Raise (OtherException "EmployeeNotFoundException" EmptyString), w)
      end
  | None => (Raise (TypeError "missing employee_seq"), w)
  end.

(** A history table that refuses the row *)
Definition save_refused (_ : string) (_ : value) (_ : history_entity)
    (w : table) : res unit * table :=
  (Raise (OtherException "DataError" "Data too long for column"), w).

Definition update_args : list value :=
  [service; VSession 1; VInt 12; update_request 12].

Definition update_run : res value * state table :=
  Eval vm_compute in
    audited "UPDATE" update_sig update_employee update_args [] (start two_rows).

(** The history row of that run *)
Definition updated_row : history_entity :=
  {| entity_seq := VInt 12;
     action_type := "UPDATE";
     before_value :=
       Some (Json.dumps_sorted
               [("status", VStr "ACTIVE"); ("name", VStr "Park");
                ("seq", VInt 12); ("hire_date", VObj "2024-03-01" [])]);
     after_value :=
       Some (Json.dumps_sorted
               [("seq", VInt 12); ("name", VStr "Choi");
                ("status", VStr "ACTIVE"); ("hire_date", VObj "2024-03-01" [])]);
     username := VNone;
     created_at := 1700032400000000 |}.

(** The service as it is declared: [@Transactional] over [@History] *)
Definition stacked (action : string) (sig : signature)
    (f : list value -> pydict -> table -> res value * table)
    (save : string -> value -> history_entity -> table -> res unit * table)
  : pyfun table :=
  Transactional table commit_ok rollback_ok sig
    (History table get_employee_by_seq save clock "employee" action sig
       (wrapped table f)).

End Cases.

(* ===================================================================== *)
(** ** Readings of the logging state                                     *)
(* ===================================================================== *)

Module Readings.
Import Logging.

(** The state after one reading of the clock *)
Definition tick (s : lstate) : lstate :=
  {| heap := heap s; next_ref := next_ref s; ctxs := ctxs s;
     sink := sink s; ticks := S (ticks s); draws := draws s |}.

(** [0-9a-f] *)
Definition is_lower_hex (c : ascii) : bool :=
  let n := N_of_ascii c in
  ((48 <=? n) && (n <=? 57) || (97 <=? n) && (n <=? 102))%N.

End Readings.

(* ===================================================================== *)
(** ** The organization tree
       (src/repository/organization/organization_repository.py)          *)
(* ===================================================================== *)

Module OrganizationTree.

(** [OrganizationEntity], a row of the table [organization]; the three
    dates are counted in microseconds. *)
Record organization_entity : Type := {
  e_seq : option Z;
  e_name : string;
  e_level : Z;
  e_parent_seq : option Z;
  e_is_visible : bool;
  e_created_at : option Z;
  e_updated_at : option Z;
  e_deleted_at : option Z
}.

(** [OrganizationDomain] (src/domain/organization_domain.py) *)
#[local] Unset Elimination Schemes.
Inductive organization : Type :=
  Organization {
    name : string;
    level : Z;
    is_visible : bool;
    seq : option Z;
    parent_seq : option Z;
    created_at : option Z;
    updated_at : option Z;
    deleted_at : option Z;
    children : list organization
  }.
#[local] Set Elimination Schemes.

(** [entity_to_domain] of src/mapper/organization_mapper.py: [children]
    takes its default, the empty list. *)
Definition entity_to_domain (e : organization_entity) : organization :=
  {| name := e_name e; level := e_level e; is_visible := e_is_visible e;
     seq := e_seq e; parent_seq := e_parent_seq e;
     created_at := e_created_at e; updated_at := e_updated_at e;
     deleted_at := e_deleted_at e; children := [] |}.

(** [domain_to_entity]: the identifier and the dates are left to the
    database. *)
Definition domain_to_entity (d : organization) : organization_entity :=
  {| e_seq := None; e_name := name d; e_level := level d;
     e_parent_seq := parent_seq d; e_is_visible := is_visible d;
     e_created_at := None; e_updated_at := None; e_deleted_at := None |}.

(** [dataclasses.replace(org, children=c)] *)
Definition replace_children (org : organization) (c : list organization)
  : organization :=
  {| name := name org; level := level org; is_visible := is_visible org;
     seq := seq org; parent_seq := parent_seq org;
     created_at := created_at org; updated_at := updated_at org;
     deleted_at := deleted_at org; children := c |}.

(** [a == b] on identifiers, [None] included *)
Definition same_seq (a b : option Z) : bool :=
  match a, b with
  | None, None => true
  | Some x, Some y => (x =? y)%Z
  | _, _ => false
  end.

(** The list comprehension of [build_tree], element by element; [None]
    when building one of the elements failed. *)
Fixpoint collect (f : organization -> option organization)
    (l : list organization) : option (list organization) :=
  match l with
  | [] => Some []
  | org :: rest =>
      match f org with
      | Some o =>
          match collect f rest with
          | Some t => Some (o :: t)
          | None => None
          end
      | None => None
      end
  end.

(** [build_tree(parent_seq)] over [all_organizations].  [depth] is the
    number of nested calls the interpreter allows; the answer is [None]
    when the recursion would go deeper ([RecursionError]). *)
Fixpoint build_tree (depth : nat) (all_organizations : list organization)
    (parent : option Z) : option (list organization) :=
  match depth with
  | O => None
  | S d =>
      collect
        (fun org =>
           match build_tree d all_organizations (seq org) with
           | Some c => Some (replace_children org c)
           | None => None
           end)
        (List.filter (fun org => same_seq (parent_seq org) parent)
           all_organizations)
  end.

(** [get_organization_tree]: the rows as the query returned them, mapped
    to domain objects, and the tree built from the roots. *)
Definition get_organization_tree (depth : nat)
    (rows : list organization_entity) : option (list organization) :=
  let all_organizations := map entity_to_domain rows in
  build_tree depth all_organizations None.

(** A node and all that hangs below it *)
Fixpoint nodes_of (o : organization) : list organization :=
  match o with
  | Organization _ _ _ _ _ _ _ _ c =>
      o :: (fix below (l : list organization) : list organization :=
              match l with
              | [] => []
              | x :: l' => (nodes_of x ++ below l')%list
              end) c
  end.

Definition nodes (t : list organization) : list organization :=
  flat_map nodes_of t.

(** A node as the row it was made from *)
Definition bare (o : organization) : organization := replace_children o [].

(** A path from an organization up to a root: the first is the one whose
    identifier is [p], each next one is the parent of the one before, and
    the last has no parent.  The empty path stands above the roots. *)
Fixpoint chain (all_organizations : list organization)
    (path : list organization) (p : option Z) : Prop :=
  match path with
  | [] => p = None
  | r :: rest =>
      In r all_organizations /\ seq r = p /\
      chain all_organizations rest (parent_seq r)
  end.

(** A table for the examples: two divisions, a headquarters, two teams,
    a team whose parent is gone, a pair that point at each other, and an
    organization moved below itself. *)
Definition row (k : Z) (n : string) (lv : Z) (p : option Z)
  : organization_entity :=
  {| e_seq := Some k; e_name := n; e_level := lv; e_parent_seq := p;
     e_is_visible := true; e_created_at := None; e_updated_at := None;
     e_deleted_at := None |}.

Definition sample : list organization_entity :=
  [row 1 "Sales" 1 None; row 2 "Domestic" 2 (Some 1); row 3 "Seoul" 3 (Some 2);
   row 4 "R&D" 1 None; row 5 "Busan" 3 (Some 2); row 6 "Lost" 3 (Some 99);
   row 7 "Ping" 2 (Some 8); row 8 "Pong" 2 (Some 7);
   row 9 "Self" 2 (Some 9)]%Z.

(** The tree of the sample table *)
Definition sample_tree : list organization :=
  Eval vm_compute in
    match get_organization_tree 10 sample with Some t => t | None => [] end.

End OrganizationTree.

(* ===================================================================== *)
(** ** The organization service
       (src/service/organization/organization_service.py)                *)
(* ===================================================================== *)

Module OrganizationService.
Import Decorator.

(** An [HTTPException] of src/exception/organization_exceptions.py: the
    class, the status code and the detail. *)
Record http_exception : Type := {
  exc_class : string;
  exc_status : Z;
  exc_detail : string
}.

(** ... when it is raised *)
Definition raised (x : http_exception) : exn :=
  OtherException (exc_class x) (exc_detail x).

(** ... and as the object it is: the attributes Starlette sets on it. *)
Definition instance (x : http_exception) : value :=
  VObj (Json.str_of_Z (exc_status x) +:+ ": " +:+ exc_detail x)
    [("status_code", VInt (exc_status x)); ("detail", VStr (exc_detail x));
     ("headers", VNone)].

Definition OrganizationNotFoundException : http_exception :=
  {| exc_class := "OrganizationNotFoundException"; exc_status := 404;
     exc_detail := "조직을 찾을 수 없습니다." |}.

Definition InvalidOrganizationLevelException : http_exception :=
  {| exc_class := "InvalidOrganizationLevelException"; exc_status := 400;
     exc_detail := "잘못된 조직 레벨입니다." |}.

Definition SubOrganizationsExistException : http_exception :=
  {| exc_class := "SubOrganizationsExistException"; exc_status := 400;
     exc_detail := "하위 조직이 존재하여 삭제할 수 없습니다." |}.

Definition InvalidDivisionParentException : http_exception :=
  {| exc_class := "InvalidDivisionParentException"; exc_status := 400;
     exc_detail := "부문(level=1)은 parent_seq 없이 생성해야 합니다." |}.

Definition MissingParentForHeadquarterException : http_exception :=
  {| exc_class := "MissingParentForHeadquarterException"; exc_status := 400;
     exc_detail := "본부(level=2)는 반드시 parent_seq(부문 ID)가 필요합니다." |}.

Definition InvalidDivisionIdException : http_exception :=
  {| exc_class := "InvalidDivisionIdException"; exc_status := 400;
     exc_detail := "유효한 부문 ID를 입력해야 합니다." |}.

Definition MissingParentForTeamException : http_exception :=
  {| exc_class := "MissingParentForTeamException"; exc_status := 400;
     exc_detail := "팀(level=3)은 반드시 parent_seq(본부 ID)가 필요합니다." |}.

Definition InvalidHeadquarterIdException : http_exception :=
  {| exc_class := "InvalidHeadquarterIdException"; exc_status := 400;
     exc_detail := "유효한 본부 ID를 입력해야 합니다." |}.

Definition EmployeesExistInOrganizationException : http_exception :=
  {| exc_class := "EmployeesExistInOrganizationException"; exc_status := 400;
     exc_detail := "해당 조직에 속한 직원이 존재하여 삭제할 수 없습니다." |}.

Definition OrganizationUpdateDataNotFoundException : http_exception :=
  {| exc_class := "OrganizationUpdateDataNotFoundException"; exc_status := 400;
     exc_detail := "수정할 데이터가 없습니다." |}.

(** [v != k] for an int [k]; [True] and [False] compare as 1 and 0. *)
Definition differs_from (v : value) (k : Z) : bool :=
  match v with
  | VInt z => negb (z =? k)%Z
  | VBool b => negb ((if b then 1 else 0) =? k)%Z
  | _ => true
  end.

(** The call of a plain function: every declared parameter must have
    received its argument. *)
Definition bind_call (sig : signature) (args : list value) (kwargs : pydict)
  : res pydict :=
  match bind_partial sig args kwargs with
  | Ok bound =>
      if forallb (dict_mem bound) sig then Ok bound
      else Raise (TypeError "missing a required argument")
  | Raise e => Raise e
  end.

(** The constructor of the dataclass [OrganizationDomain], called with the
    keywords [kw] *)
Definition domain_fields : list (string * option value) :=
  [("name", None); ("level", None); ("is_visible", None);
   ("seq", Some VNone); ("parent_seq", Some VNone);
   ("created_at", Some VNone); ("updated_at", Some VNone);
   ("deleted_at", Some VNone); ("children", Some (VList []))].

Fixpoint fill (fields : list (string * option value)) (kw : pydict)
  : res pydict :=
  match fields with
  | [] => Ok []
  | (f, default) :: rest =>
      match dict_find kw f, default with
      | Some v, _ | None, Some v =>
          match fill rest kw with
          | Ok d => Ok ((f, v) :: d)
          | Raise e => Raise e
          end
      | None, None => Raise (TypeError "missing a required argument")
      end
  end.

Definition OrganizationDomain (kw : pydict) : res value :=
  if forallb (fun kv => mem_string (fst kv) (map fst domain_fields)) kw then
    match fill domain_fields kw with
    | Ok d => Ok (VObj "OrganizationDomain" d)
    | Raise e => Raise e
    end
  else Raise (TypeError "got an unexpected keyword argument").

Section Service.

(** The database behind the session, as the two repositories and pydantic
    give access to it. *)
Variable W : Type.
Variable get_organization_by_seq : value -> value -> W -> res value * W.
Variable create_organization : value -> value -> W -> res value * W.
Variable repo_update_organization : value -> value -> pydict -> W -> res value * W.
Variable repo_delete_organization : value -> value -> W -> res value * W.
Variable repo_soft_delete_organization : value -> value -> W -> res value * W.
Variable has_child_organizations : value -> value -> W -> res bool * W.
Variable count_employees_by_organization_seq : value -> value -> W -> res Z * W.
(** [dto.model_dump()] and [dto.model_dump(exclude_unset=True)] *)
Variable model_dump : value -> pydict.
Variable model_dump_exclude_unset : value -> pydict.

Definition service_function : Type := list value -> pydict -> M W value.

Definition create_department : service_function :=
  fun args kwargs =>
    let* b := lift_res
      (bind_call ["self"; "db"; "department_create_request_dto"] args kwargs) in
    let db := dict_get b "db" in
    let dto := dict_get b "department_create_request_dto" in
    let* level := lift_res (getattr dto "level") in
    if differs_from level 1 then raise (raised InvalidOrganizationLevelException)
    else
      let* parent_seq := lift_res (getattr dto "parent_seq") in
      if negb (is_None parent_seq) then
        raise (raised InvalidDivisionParentException)
      else
        let* department_domain := lift_res (OrganizationDomain (model_dump dto)) in
        create_organization db department_domain.

Definition create_headquarters : service_function :=
  fun args kwargs =>
    let* b := lift_res
      (bind_call ["self"; "db"; "headquarters_create_request_dto"] args kwargs) in
    let db := dict_get b "db" in
    let dto := dict_get b "headquarters_create_request_dto" in
    let* level := lift_res (getattr dto "level") in
    if differs_from level 2 then raise (raised InvalidOrganizationLevelException)
    else
      let* parent_seq := lift_res (getattr dto "parent_seq") in
      if is_None parent_seq then
        raise (raised MissingParentForHeadquarterException)
      else
        let* existing_department := get_organization_by_seq db parent_seq in
        let* invalid :=
          (if negb (truthy existing_department) then ret true
           else
             let* lv := lift_res (getattr existing_department "level") in
             ret (differs_from lv 1)) in
        if invalid then raise (raised InvalidDivisionIdException)
        else
          let* headquarters_domain :=
            lift_res (OrganizationDomain (model_dump dto)) in
          create_organization db headquarters_domain.

Definition create_team : service_function :=
  fun args kwargs =>
    let* b := lift_res
      (bind_call ["self"; "db"; "team_create_request_dto"] args kwargs) in
    let db := dict_get b "db" in
    let dto := dict_get b "team_create_request_dto" in
    let* level := lift_res (getattr dto "level") in
    if differs_from level 3 then raise (raised InvalidOrganizationLevelException)
    else
      let* parent_seq := lift_res (getattr dto "parent_seq") in
      if is_None parent_seq then raise (raised MissingParentForTeamException)
      else
        let* existing_headquarters := get_organization_by_seq db parent_seq in
        let* invalid :=
          (if negb (truthy existing_headquarters) then ret true
           else
             let* lv := lift_res (getattr existing_headquarters "level") in
             ret (differs_from lv 2)) in
        if invalid then raise (raised InvalidHeadquarterIdException)
        else
          let* team_domain := lift_res (OrganizationDomain (model_dump dto)) in
          create_organization db team_domain.

Definition update_sig : signature :=
  ["self"; "db"; "organization_seq"; "update_request"].

(** The exception for an empty update is returned, not raised. *)
Definition update_organization : service_function :=
  fun args kwargs =>
    let* b := lift_res (bind_call update_sig args kwargs) in
    let db := dict_get b "db" in
    let organization_seq := dict_get b "organization_seq" in
    let update_request := dict_get b "update_request" in
    let* organization_domain := get_organization_by_seq db organization_seq in
    if is_None organization_domain then
      raise (raised OrganizationNotFoundException)
    else
      let update_data := model_dump_exclude_unset update_request in
      if negb (truthy (VDict update_data)) then
        ret (instance OrganizationUpdateDataNotFoundException)
      else repo_update_organization db organization_seq update_data.

Definition move_sig : signature := ["self"; "db"; "organization_move_request"].

Definition move_organization : service_function :=
  fun args kwargs =>
    let* b := lift_res (bind_call move_sig args kwargs) in
    let db := dict_get b "db" in
    let organization_move_request := dict_get b "organization_move_request" in
    let* organization_seq :=
      lift_res (getattr organization_move_request "organization_seq") in
    let* organization_domain := get_organization_by_seq db organization_seq in
    if is_None organization_domain then
      raise (raised OrganizationNotFoundException)
    else
      let* new_parent_seq :=
        lift_res (getattr organization_move_request "new_parent_seq") in
      let* organization_domain := get_organization_by_seq db new_parent_seq in
      if is_None organization_domain then
        raise (raised OrganizationNotFoundException)
      else
        repo_update_organization db organization_seq
          [("parent_seq", new_parent_seq)].

Definition delete_sig : signature := ["self"; "db"; "organization_seq"].

(** The three checks shared by [delete_organization] and
    [soft_delete_organization], in the order they are made *)
Definition delete_organization : service_function :=
  fun args kwargs =>
    let* b := lift_res (bind_call delete_sig args kwargs) in
    let db := dict_get b "db" in
    let organization_seq := dict_get b "organization_seq" in
    let* has_employees := count_employees_by_organization_seq db organization_seq in
    if (0 <? has_employees)%Z then
      raise (raised EmployeesExistInOrganizationException)
    else
      let* has_children := has_child_organizations db organization_seq in
      if has_children then raise (raised SubOrganizationsExistException)
      else
        let* organization_domain := get_organization_by_seq db organization_seq in
        if is_None organization_domain then
          raise (raised OrganizationNotFoundException)
        else repo_delete_organization db organization_seq.

Definition soft_delete_organization : service_function :=
  fun args kwargs =>
    let* b := lift_res (bind_call delete_sig args kwargs) in
    let db := dict_get b "db" in
    let organization_seq := dict_get b "organization_seq" in
    let* has_employees := count_employees_by_organization_seq db organization_seq in
    if (0 <? has_employees)%Z then
      raise (raised EmployeesExistInOrganizationException)
    else
      let* has_children := has_child_organizations db organization_seq in
      if has_children then raise (raised SubOrganizationsExistException)
      else
        let* organization_domain := get_organization_by_seq db organization_seq in
        if is_None organization_domain then
          raise (raised OrganizationNotFoundException)
        else repo_soft_delete_organization db organization_seq.

(** The service as declared: [@Transactional] over
    [@History(entity="organization", action=...)]; the lookup of the
    wrapper is the repository method the service uses. *)
Variable session_commit session_rollback : nat -> W -> res unit * W.
Variable save : string -> value -> history_entity -> W -> res unit * W.
Variable utc_now : W -> Z.

Definition declared (action : string) (sig : signature) (f : service_function)
  : pyfun W :=
  Transactional W session_commit session_rollback sig
    (History W (fun _ => get_organization_by_seq) save utc_now
       "organization" action sig (wrapped W f)).

End Service.

End OrganizationService.

(* ===================================================================== *)
(** ** Runs of the organization service over a table in memory           *)
(* ===================================================================== *)

Module OrganizationCases.
Import Decorator OrganizationService.

(** The organization table: the rows, as the domain objects the
    repository returns for them. *)
Definition table : Type := list value.

Definition organization (seq : Z) (name : string) (level : Z) (parent : value)
  : value :=
  VObj "OrganizationDomain"
    [("name", VStr name); ("level", VInt level); ("is_visible", VBool true);
     ("seq", VInt seq); ("parent_seq", parent)].

Definition find_by_id (_ k : value) (w : table) : res value * table :=
  (Ok (match List.find (Scenario.has_seq k) w with
       | Some row => row
       | None => VNone
       end), w).

(** The stored row comes back as it was handed in. *)
Definition store (_ row : value) (w : table) : res value * table :=
  (Ok row, (w ++ [row])%list).

Definition remove (_ k : value) (w : table) : res value * table :=
  (Ok (VBool (existsb (Scenario.has_seq k) w)),
   List.filter (fun row => negb (Scenario.has_seq k row)) w).

Definition has_parent (k : value) (row : value) : bool :=
  match getattr row "parent_seq", k with
  | Ok (VInt a), VInt b => (a =? b)%Z
  | _, _ => false
  end.

Definition has_child (_ k : value) (w : table) : res bool * table :=
  (Ok (existsb (has_parent k) w), w).

(** No employee belongs to any organization of the table. *)
Definition no_employee (_ _ : value) (w : table) : res Z * table := (Ok 0%Z, w).

(** The fields a request object carries *)
Definition fields (dto : value) : pydict :=
  match dto with
  | VObj _ d => d
  | _ => []
  end.

Definition service : value := VObj "OrganizationService" [].

Definition divisions : table :=
  [organization 1 "Sales" 1 VNone; organization 4 "R&D" 1 VNone].

(** A request for a headquarters below the division [parent] *)
Definition headquarters_request (parent : value) : value :=
  VObj "HeadquartersCreateRequestDto"
    [("name", VStr "Domestic"); ("level", VInt 2); ("is_visible", VBool true);
     ("parent_seq", parent)].

(** An update request that sets no field *)
Definition empty_request : value :=
  VObj "OrganizationNameAndVisibleUpdateRequestDto" [].

End OrganizationCases.

(* ===================================================================== *)
(** ** The exception handlers
       (src/exception/exception_handler_registry.py) and the two adapter
       methods they log with                                             *)
(* ===================================================================== *)

Module ExceptionHandlers.
Import Logging OrganizationService.

(** [d[k] = v] on a dict: a key that is there keeps its place. *)
Fixpoint dict_set (d : pydict) (k : string) (v : value) : pydict :=
  match d with
  | [] => [(k, v)]
  | (k', v') :: d' =>
      if k' =? k then (k', v) :: d' else (k', v') :: dict_set d' k v
  end.

(** [d.update(e)] *)
Definition dict_update (d e : pydict) : pydict :=
  fold_left (fun acc kv => dict_set acc (fst kv) (snd kv)) e d.

(** The value of the last item of [items] with the key [k]: what a dict
    made of the items binds [k] to *)
Fixpoint last_value (items : pydict) (k : string) : option value :=
  match items with
  | [] => None
  | (k', v) :: rest =>
      match last_value rest k with
      | Some x => Some x
      | None => if k' =? k then Some v else None
      end
  end.

(** [context.get("status_code") if context else None], as the handlers
    give it: an int or nothing. *)
Definition status_of (context : option value) : option Z :=
  match context with
  | Some (VDict c) =>
      match dict_find c "status_code" with
      | Some (VInt z) => Some z
      | _ => None
      end
  | _ => None
  end.

(** [build_extra] with its [cause] and [exception] keywords *)
Definition with_cause (cause : option value) (exception : option string)
    (ev : log_event) : log_event :=
  {| ev_adapter := ev_adapter ev;
     ev_logger := ev_logger ev;
     ev_level := ev_level ev;
     ev_trace_id := ev_trace_id ev;
     ev_log_type := ev_log_type ev;
     ev_method := ev_method ev;
     ev_path := ev_path ev;
     ev_handler := ev_handler ev;
     ev_status_code := ev_status_code ev;
     ev_duration_ms := ev_duration_ms ev;
     ev_time := ev_time ev;
     ev_log_message := ev_log_message ev;
     ev_cause := cause;
     ev_exception := exception;
     ev_context := ev_context ev;
     ev_sql := ev_sql ev |}.

(** What [await request.body()] and [json.loads] make of the body: no
    bytes, the value parsed (numbers are the ints of the model), or an
    exception on the way. *)
Inductive request_body : Type :=
| NoBody
| Parsed (body_data : value)
| Unreadable.

(** A [Request] as the handlers read it: the items of the query string in
    the order sent, repeated keys included, the path parameters, the body
    and the host of the client. *)
Record http_request : Type := {
  rq : request;
  query_params : list (string * value);
  path_params : pydict;
  body : request_body;
  client : option string
}.

(** [get_input_data] *)
Definition get_input_data (request : http_request) : pydict :=
  let input_data := [] in
  let input_data :=
    match query_params request with
    | [] => input_data
    | items => dict_update input_data (dict_update [] items)
    end in
  let input_data :=
    match path_params request with
    | [] => input_data
    | params => dict_update input_data (dict_update [] params)
    end in
  match body request with
  | NoBody => input_data
  | Parsed (VDict body_data) => dict_update input_data body_data
  | Parsed body_data => dict_set input_data "body" body_data
  | Unreadable =>
      dict_set input_data "body" (VStr "[Could not parse request body]")
  end.

(** [input_data or "[no input data]"] *)
Definition input_or_none (input_data : pydict) : value :=
  match input_data with
  | [] => VStr "[no input data]"
  | _ => VDict input_data
  end.

(** A [JSONResponse]: the status code and the content *)
Record json_response : Type := {
  js_status_code : Z;
  js_content : pydict
}.

(** [CommonResponseDto(status, data, message).model_dump()] *)
Definition CommonResponseDto (status : string) (data message : value)
  : pydict :=
  [("status", VStr status); ("data", data); ("message", message)].

(** One entry of [exc.errors()] of a [RequestValidationError] *)
Inductive loc_item : Type :=
| Field (name : string)
| Index (i : Z).

Record validation_error : Type := {
  loc : list loc_item;
  msg : string
}.

Definition loc_str (x : loc_item) : string :=
  match x with
  | Field name => name
  | Index i => Json.str_of_Z i
  end.

(** The dict comprehension over [exc.errors()] *)
Definition errors_of (errors : list validation_error) : pydict :=
  fold_left
    (fun acc err =>
       dict_set acc (Json.join "." (map loc_str (loc err))) (VStr (msg err)))
    errors [].

Section Runtime.

Variable kst_at : nat -> string.

(** [exception_structured]; [exception] is the class name of the
    exception object given. *)
Definition exception_structured (r : nat) (message : string)
    (cause : option value) (exception : option string)
    (context : option value) : M lstate unit :=
  let* now := get_kst_now_str kst_at in
  let status_code := status_of context in
  do* block_check cause in
  do* block_check context in
  let* self := gets (fun s => deref s r) in
  emit r "ERROR"
    (with_cause cause exception
       (build_extra r self "EXCEPTION_STRUCTURED" (Some message) context
          status_code None None now)).

(** [error_structured] *)
Definition error_structured (r : nat) (message : string)
    (context : option value) : M lstate unit :=
  let* now := get_kst_now_str kst_at in
  let status_code := status_of context in
  do* block_check context in
  let* self := gets (fun s => deref s r) in
  emit r "ERROR"
    (build_extra r self "ERROR_STRUCTURED" (Some message) context
       status_code None None now).

(** [with suppress(LookupError): block] *)
Definition suppress_LookupError (block : M lstate unit) : M lstate unit :=
  try_except block is_LookupError (fun _ => ret tt).

(** [http_exception_handler], called in the execution unit [u] *)
Definition http_exception_handler (u : nat) (request : http_request)
    (exc : http_exception) : M lstate json_response :=
  let method := req_method (rq request) in
  let path := req_path (rq request) in
  do* suppress_LookupError
        (let* logger := ctx_get u in
         do* start_structured logger method path "http_exception_handler" in
         let input_data := get_input_data request in
         exception_structured logger (exc_detail exc) None
           (Some (exc_class exc))
           (Some (VDict [("method", VStr method); ("path", VStr path);
                         ("status_code", VInt (exc_status exc));
                         ("input", input_or_none input_data)]))) in
  ret {| js_status_code := exc_status exc;
         js_content :=
           CommonResponseDto "error" VNone (VStr (exc_detail exc)) |}.

Definition msg_validation : string := "유효성 검사 오류가 발생하였습니다.".

(** [validation_exception_handler] *)
Definition validation_exception_handler (u : nat) (request : http_request)
    (exc : list validation_error) : M lstate json_response :=
  let method := req_method (rq request) in
  let path := req_path (rq request) in
  let errors := errors_of exc in
  let input_data := get_input_data request in
  do* suppress_LookupError
        (let* logger := ctx_get u in
         do* start_structured logger method path
               "validation_exception_handler" in
         exception_structured logger msg_validation (Some (VDict errors))
           (Some "RequestValidationError")
           (Some (VDict [("method", VStr method); ("path", VStr path);
                         ("input", input_or_none input_data)]))) in
  ret {| js_status_code := 422;
         js_content := CommonResponseDto "fail" (VDict errors) VNone |}.

(** [global_exception_handler]; [traceback_str] is
    [traceback.format_exc()].  Without a logger the handler prints to the
    standard output, which is no part of the state. *)
Definition global_exception_handler (u : nat) (request : http_request)
    (traceback_str : string) : M lstate json_response :=
  let method := req_method (rq request) in
  let path := req_path (rq request) in
  let* logger :=
    try_except (let* lg := ctx_get u in ret (Some lg)) is_LookupError
      (fun _ => ret None) in
  do* match logger with
      | Some lg =>
          do* start_structured lg method path "global_exception_handler" in
          error_structured lg "Unhandled server error"
            (Some (VDict [("method", VStr method); ("path", VStr path);
                          ("client",
                           match client request with
                           | Some host => VStr host
                           | None => VNone
                           end);
                          ("traceback", VStr traceback_str)]))
      | None => ret tt
      end in
  ret {| js_status_code := 500;
         js_content :=
           CommonResponseDto "error" VNone (VStr "Internal Server Error") |}.

End Runtime.

(** Whether the action installs a logger of its own in the context *)
Definition installs_logger (a : action) : bool :=
  match a with
  | TestDebug _ => true
  | _ => false
  end.

(** A failing request of the examples: the employee 12 asked for with a
    page number, answered with 404 *)
Definition lookup_request : http_request :=
  {| rq := Traffic.get_employee;
     query_params := [("page", VStr "1"); ("seq", VStr "7")];
     path_params := [("seq", VStr "12")];
     body := NoBody;
     client := Some "127.0.0.1" |}.

End ExceptionHandlers.


(* ===================================================================== *)
(** * Properties                                                          *)
(* ===================================================================== *)

Example dumps_example :
  Json.dumps_sorted
    [("seq", VInt 12); ("name", VStr "Kim"); ("hire_date", VObj "2024-03-01" []);
     ("rank_seq", VNone); ("is_visible", VBool true)]
  = String.concat Json.dq
      ["{"; "hire_date"; ": "; "2024-03-01"; ", "; "is_visible"; ": true, ";
       "name"; ": "; "Kim"; ", "; "rank_seq"; ": null, "; "seq"; ": 12}"].
Proof. reflexivity. Qed.

(** Text beyond ASCII is written by code point: a Korean name, and a
    character above the basic plane as a surrogate pair. *)
Example dumps_unicode :
  Json.dumps_sorted [("name", VStr "김"); ("note", VStr "🐛 ok")]
  = String.concat Json.dq
      ["{"; "name"; ": "; "\uae40"; ", "; "note"; ": "; "\ud83d\udc1b ok"; "}"].
Proof. reflexivity. Qed.


(* ===================================================================== *)
(** ** The order of the keys in the JSON text                             *)
(* ===================================================================== *)

Module JsonFacts.
Import Json.

(** The order of [sorted()] on the items of a dict: by key. *)
Definition key_le (a b : string * string) : Prop :=
  String.leb (fst a) (fst b) = true.

Lemma key_le_trans a b c : key_le a b -> key_le b c -> key_le a c.
Proof.
  unfold key_le. intros H1 H2.
  apply Is_true_true. apply Is_true_true in H1, H2.
  exact (transitivity (R := String.le) H1 H2).
Qed.

Lemma insert_item_perm kv l : Permutation (kv :: l) (insert_item kv l).
Proof.
  induction l as [|kv' l IH]; cbn [insert_item]; [reflexivity|].
  destruct (String.leb (fst kv) (fst kv')); [reflexivity|].
  rewrite <- IH. apply perm_swap.
Qed.

Lemma sort_items_perm l : Permutation l (sort_items l).
Proof.
  induction l as [|kv l IH]; cbn [sort_items]; [reflexivity|].
  rewrite <- insert_item_perm. now constructor.
Qed.

Lemma insert_item_sorted kv l :
  StronglySorted key_le l -> StronglySorted key_le (insert_item kv l).
Proof.
  induction 1 as [|kv' l Hl IH Hall]; cbn [insert_item].
  - repeat constructor.
  - destruct (String.leb (fst kv) (fst kv')) eqn:Hle.
    + constructor; [now constructor|]. constructor; [exact Hle|].
      eapply List.Forall_impl; [|exact Hall].
      intros c Hc. exact (key_le_trans kv kv' c Hle Hc).
    + constructor; [exact IH|].
      rewrite <- insert_item_perm. constructor; [|exact Hall].
      destruct (String.leb_total (fst kv) (fst kv')) as [H|H];
        [congruence|exact H].
Qed.

(** The items are rendered in the order of their keys. *)
Lemma sort_items_sorted l : StronglySorted key_le (sort_items l).
Proof.
  induction l as [|kv l IH]; cbn [sort_items];
    [constructor|now apply insert_item_sorted].
Qed.

Lemma sorted_items_unique l1 l2 :
  NoDup (map fst l1) -> Permutation l1 l2 ->
  StronglySorted key_le l1 -> StronglySorted key_le l2 -> l1 = l2.
Proof.
  revert l2. induction l1 as [|a l1 IH]; intros l2 Hnd Hp H1 H2.
  - now apply Permutation_nil in Hp.
  - destruct l2 as [|b l2]; [now apply Permutation_sym, Permutation_nil in Hp|].
    apply StronglySorted_inv in H1 as [H1 Ha], H2 as [H2 Hb].
    inversion Hnd as [|k ks Hnotin Hnd']; subst.
    assert (Hab : a = b).
    { assert (Hina : In a (b :: l2)) by (eapply Permutation_in; [exact Hp|now left]).
      assert (Hinb : In b (a :: l1))
        by (eapply Permutation_in; [symmetry; exact Hp|now left]).
      destruct Hina as [->|Hina]; [reflexivity|].
      destruct Hinb as [->|Hinb]; [reflexivity|].
      rewrite List.Forall_forall in Ha, Hb.
      assert (Hk : fst a = fst b)
        by (apply String.leb_antisym; [apply (Ha b Hinb)|apply (Hb a Hina)]).
      exfalso. apply Hnotin. rewrite list_elem_of_In, Hk. now apply in_map. }
    subst b. f_equal. apply IH; auto.
    eapply Permutation_cons_inv; exact Hp.
Qed.

(** [sort_keys=True]: the text does not depend on the order in which the
    keys were put into the dict. *)
Lemma dumps_sorted_order (d1 d2 : pydict) :
  NoDup (map fst d1) -> Permutation d1 d2 ->
  dumps_sorted d1 = dumps_sorted d2.
Proof.
  intros Hnd Hp. unfold dumps_sorted. cbn [dumps].
  set (render := fun kv : string * value =>
                   match kv with (k, x) => (k, dumps x) end).
  assert (Hkeys : forall d, map fst (map render d) = map fst d).
  { intros d. rewrite map_map. apply map_ext. now intros [k x]. }
  rewrite (sorted_items_unique (sort_items (map render d1))
             (sort_items (map render d2))); [reflexivity| | | |].
  - rewrite <- sort_items_perm, Hkeys. exact Hnd.
  - rewrite <- !sort_items_perm. now apply Permutation_map.
  - apply sort_items_sorted.
  - apply sort_items_sorted.
Qed.

End JsonFacts.


(* ===================================================================== *)
(** ** Running a computation to a normal result                           *)
(* ===================================================================== *)

Module MonadFacts.

Section Inversion.
Context {S A B : Type}.

Lemma bind_Ok (m : M S A) (k : A -> M S B) s b s' :
  bind m k s = (Ok b, s') ->
  exists a s1, m s = (Ok a, s1) /\ k a s1 = (Ok b, s').
Proof.
  unfold bind. destruct (m s) as [[a|e] s1]; [eauto|discriminate].
Qed.

Lemma ret_Ok (a b : A) (s s' : S) :
  ret a s = (Ok b, s') -> b = a /\ s' = s.
Proof. unfold ret. intros [= -> ->]. auto. Qed.

Lemma raise_Ok (e : exn) (b : A) (s s' : S) :
  raise e s = (Ok b, s') -> False.
Proof. discriminate. Qed.

Lemma lift_res_Ok (r : res A) (b : A) (s s' : S) :
  lift_res r s = (Ok b, s') -> r = Ok b /\ s' = s.
Proof. unfold lift_res. intros [= -> ->]. auto. Qed.

End Inversion.

End MonadFacts.

(* ===================================================================== *)
(** ** Transaction boundary                                               *)
(* ===================================================================== *)

Module TransactionalFacts.
Import Decorator.

Ltac unfold_wrappers :=
  cbv [Transactional History bind lift_res try_except wrapped db_commit
       db_rollback record modify ask raise ret gets provide repo_get_by_seq
       load_history_modules get_kst_now save_history].

Ltac unfold_wrappers_in H :=
  cbv [Transactional History bind lift_res try_except wrapped db_commit
       db_rollback record modify ask raise ret gets provide repo_get_by_seq
       load_history_modules get_kst_now save_history] in H.

Ltac step H := rewrite H; cbn.

Section Facts.

Variable W : Type.
Variable func : list value -> pydict -> W -> res value * W.
Variable session_commit session_rollback : nat -> W -> res unit * W.

Local Abbreviation transactional sig :=
  (Transactional W session_commit session_rollback sig (wrapped W func)).

(** Binding failed: the [TypeError] of [bind_partial] leaves the wrapper
    before anything is called. *)
Lemma transactional_bind_error sig args kwargs e (s : state W) :
  bind_partial sig args kwargs = Raise e ->
  transactional sig args kwargs s = (Raise e, s).
Proof. intros Hbind. unfold_wrappers. rewrite Hbind. reflexivity. Qed.

(** [commit()] itself raised: the [except] clause rolls back and the error
    of [commit()] is what the caller sees. *)
Lemma transactional_commit_raises sig args kwargs bound sid r w1 e w2 rr w3
    (s : state W) :
  bind_partial sig args kwargs = Ok bound ->
  dict_get bound "db" = VSession sid ->
  func args kwargs (env s) = (Ok r, w1) ->
  session_commit sid w1 = (Raise e, w2) ->
  is_Exception e = true ->
  session_rollback sid w2 = (rr, w3) ->
  transactional sig args kwargs s =
    (Raise (match rr with Ok _ => e | Raise e' => e' end),
     {| env := w3;
        calls := (calls s ++ [CallFunc args kwargs; CallCommit sid;
                              CallRollback sid])%list |}).
Proof.
  intros Hbind Hdb Hf Hc He Hr. unfold_wrappers. step Hbind. step Hdb. step Hf. step Hc. step He.
  rewrite Hr, <- !app_assoc.
  destruct rr; reflexivity.
Qed.

(** An exception that is not an [Exception] passes the [except Exception]
    clause: no rollback. *)
Lemma transactional_base_exception sig args kwargs bound sid e w1
    (s : state W) :
  bind_partial sig args kwargs = Ok bound ->
  dict_get bound "db" = VSession sid ->
  func args kwargs (env s) = (Raise e, w1) ->
  is_Exception e = false ->
  transactional sig args kwargs s =
    (Raise e, {| env := w1; calls := (calls s ++ [CallFunc args kwargs])%list |}).
Proof.
  intros Hbind Hdb Hf He. unfold_wrappers. step Hbind. step Hdb. step Hf. step He. reflexivity.
Qed.

(** [rollback()] itself raised while handling [e]: its error replaces [e]. *)
Lemma transactional_rollback_raises sig args kwargs bound sid e w1 e' w2
    (s : state W) :
  bind_partial sig args kwargs = Ok bound ->
  dict_get bound "db" = VSession sid ->
  func args kwargs (env s) = (Raise e, w1) ->
  is_Exception e = true ->
  session_rollback sid w1 = (Raise e', w2) ->
  transactional sig args kwargs s =
    (Raise e',
     {| env := w2;
        calls := (calls s ++ [CallFunc args kwargs; CallRollback sid])%list |}).
Proof.
  intros Hbind Hdb Hf He Hr. unfold_wrappers. step Hbind. step Hdb. step Hf. step He.
  rewrite Hr, <- !app_assoc. reflexivity.
Qed.

(** C3 (as amended).  For a call whose arguments bind to the signature:
    - no session bound to [db] (absent or [None]): [ValueError], and the
      state is untouched, so the wrapped function was not called;
    - a session is bound and the wrapped function returns [r]: [commit()]
      is the next call made, whatever it answers, and when [commit()]
      returns, [r] is returned unchanged;
    - the wrapped function raises an [Exception] [e]: [rollback()] is the
      next call made, and when [rollback()] returns, [e] is raised again
      unchanged. *)
Theorem transactional_contract sig args kwargs bound (s : state W) :
  bind_partial sig args kwargs = Ok bound ->
  (dict_get bound "db" = VNone ->
     transactional sig args kwargs s = (Raise (ValueError msg_transactional), s))
  /\ (forall sid r w1,
        dict_get bound "db" = VSession sid ->
        func args kwargs (env s) = (Ok r, w1) ->
        (exists rest,
           calls (snd (transactional sig args kwargs s))
           = (calls s ++ CallFunc args kwargs :: CallCommit sid :: rest)%list)
        /\ (forall w2,
              session_commit sid w1 = (Ok tt, w2) ->
              transactional sig args kwargs s =
                (Ok r,
                 {| env := w2;
                    calls := (calls s ++ [CallFunc args kwargs; CallCommit sid])%list |})))
  /\ (forall sid e w1,
        dict_get bound "db" = VSession sid ->
        func args kwargs (env s) = (Raise e, w1) ->
        is_Exception e = true ->
        (exists rest,
           calls (snd (transactional sig args kwargs s))
           = (calls s ++ CallFunc args kwargs :: CallRollback sid :: rest)%list)
        /\ (forall w2,
              session_rollback sid w1 = (Ok tt, w2) ->
              transactional sig args kwargs s =
                (Raise e,
                 {| env := w2;
                    calls := (calls s ++ [CallFunc args kwargs; CallRollback sid])%list |}))).
Proof.
  intros Hbind. split; [|split].
  - intros Hdb. unfold_wrappers. rewrite Hbind, Hdb. reflexivity.
  - intros sid r w1 Hdb Hf. split.
    + unfold_wrappers. step Hbind. step Hdb. step Hf.
      destruct (session_commit sid w1) as [[[]|e] w2]; cbn.
      * exists []. now rewrite <- app_assoc.
      * destruct (is_Exception e); cbn.
        -- destruct (session_rollback sid w2) as [[[]|e'] w3]; cbn;
             exists [CallRollback sid]; now rewrite <- !app_assoc.
        -- exists []. now rewrite <- app_assoc.
    + intros w2 Hc. unfold_wrappers. step Hbind. step Hdb. step Hf. step Hc. now rewrite <- app_assoc.
  - intros sid e w1 Hdb Hf He. split.
    + unfold_wrappers. step Hbind. step Hdb. step Hf. step He.
      destruct (session_rollback sid w1) as [[[]|e'] w2]; cbn;
        exists []; now rewrite <- app_assoc.
    + intros w2 Hr. unfold_wrappers. step Hbind. step Hdb. step Hf. step He. step Hr. now rewrite <- app_assoc.
Qed.

End Facts.

Import Scenario.

(** C3 as written does not hold.  With a session bound and a unit of work
    that returns normally, a [commit()] that raises makes the wrapper raise
    instead of returning the value; an exception outside [Exception] passes
    without [rollback()]; and a [rollback()] that raises replaces the
    original exception. *)
Lemma transactional_claim_fails :
  Transactional table commit_refused rollback_ok create_sig
    (wrapped table create_employee) [service; VSession 1; create_request] []
    (start [])
  = (Raise (OtherException "IntegrityError" "duplicate entry"),
     {| env := [employee 13 "Lee"];
        calls := [CallFunc [service; VSession 1; create_request] [];
                  CallCommit 1;
                  CallRollback 1] |})
  /\ Transactional table commit_ok rollback_ok delete_sig
       (wrapped table interrupted) [service; VSession 1; VInt 12] []
       (start two_rows)
     = (Raise (BaseOnly "KeyboardInterrupt"),
        {| env := two_rows;
           calls := [CallFunc [service; VSession 1; VInt 12] []] |})
  /\ Transactional table commit_ok rollback_lost delete_sig
       (wrapped table delete_employee) [service; VSession 1; VInt 99] []
       (start two_rows)
     = (Raise (OtherException "OperationalError" "server has gone away"),
        {| env := two_rows;
           calls := [CallFunc [service; VSession 1; VInt 99] [];
                     CallRollback 1] |}).
Proof. repeat split. Qed.

(** The contract at work: no session, a committed deletion, a deletion of
    a missing row rolled back. *)
Lemma transactional_contract_witness :
  Transactional table commit_ok rollback_ok delete_sig
    (wrapped table delete_employee) [service] [("employee_seq", VInt 12)]
    (start two_rows)
  = (Raise (ValueError msg_transactional), start two_rows)
  /\ Transactional table commit_ok rollback_ok delete_sig
       (wrapped table delete_employee) [service; VSession 1; VInt 12] []
       (start two_rows)
     = (Ok (VBool true),
        {| env := [employee 0 "Kim"];
           calls := [CallFunc [service; VSession 1; VInt 12] []; CallCommit 1] |})
  /\ Transactional table commit_ok rollback_ok delete_sig
       (wrapped table delete_employee) [service; VSession 1; VInt 99] []
       (start two_rows)
     = (Raise (OtherException "EmployeeNotFoundException" EmptyString),
        {| env := two_rows;
           calls := [CallFunc [service; VSession 1; VInt 99] [];
                     CallRollback 1] |}).
Proof.
  split; [|split].
  - exact (proj1 (transactional_contract table delete_employee commit_ok
                    rollback_ok delete_sig [service] [("employee_seq", VInt 12)]
                    [("self", service); ("employee_seq", VInt 12)]
                    (start two_rows) eq_refl) eq_refl).
  - exact (proj2 (proj1 (proj2 (transactional_contract table delete_employee
                    commit_ok rollback_ok delete_sig
                    [service; VSession 1; VInt 12] []
                    [("self", service); ("db", VSession 1);
                     ("employee_seq", VInt 12)]
                    (start two_rows) eq_refl))
                  1%nat (VBool true) [employee 0 "Kim"] eq_refl eq_refl)
             [employee 0 "Kim"] eq_refl).
  - exact (proj2 (proj2 (proj2 (transactional_contract table delete_employee
                    commit_ok rollback_ok delete_sig
                    [service; VSession 1; VInt 99] []
                    [("self", service); ("db", VSession 1);
                     ("employee_seq", VInt 99)]
                    (start two_rows) eq_refl))
                  1%nat (OtherException "EmployeeNotFoundException" EmptyString)
                  two_rows eq_refl eq_refl eq_refl)
             two_rows eq_refl).
Defined.

End TransactionalFacts.

(* ===================================================================== *)
(** ** Resolving the entity identifier                                    *)
(* ===================================================================== *)

Module ExtractFacts.

Lemma mem_string_index_of (name : string) (l : list string) :
  mem_string name l = true <-> exists i, index_of name l = Some i.
Proof.
  unfold mem_string. induction l as [|x l IH]; cbn.
  - split; [discriminate|intros [i [=]]].
  - rewrite (String.eqb_sym name x). destruct (x =? name); cbn.
    + split; eauto.
    + rewrite IH. split; intros [i Hi].
      * rewrite Hi. eauto.
      * destruct (index_of name l); [eauto|discriminate].
Qed.

(** The loop over the arguments returns what [first_exposing] finds. *)
Lemma scan_args_first (name : string) (args : list value) (v : value) :
  scan_args name args v =
    match first_exposing name args with Some x => x | None => v end.
Proof.
  induction args as [|a args IH]; cbn; [reflexivity|].
  destruct a as [| | | | | |r d|]; cbn; try exact IH.
  unfold dict_mem. destruct (dict_find d name); [reflexivity|exact IH].
Qed.

(** [first_exposing] is the attribute of the argument of least index that
    has it. *)
Lemma first_exposing_least (name : string) (args : list value) (x : value) :
  first_exposing name args = Some x <->
  exists i a, nth_error args i = Some a /\ getattr a name = Ok x /\
    forall j b, (j < i)%nat -> nth_error args j = Some b -> hasattr b name = false.
Proof.
  induction args as [|a args IH]; cbn.
  - split; [discriminate|]. intros (i & b & Hi & _). now destruct i.
  - assert (Hstep : hasattr a name = false ->
             (first_exposing name args = Some x <->
              exists i b, nth_error (a :: args) i = Some b /\
                getattr b name = Ok x /\
                forall j c, (j < i)%nat -> nth_error (a :: args) j = Some c ->
                            hasattr c name = false)).
    { intros Ha. rewrite IH. split.
      - intros (i & b & Hi & Hg & Hlt). exists (S i), b. repeat split; auto.
        intros [|j] c Hj Hc; cbn in Hc.
        + now injection Hc as <-.
        + apply (Hlt j); [lia|exact Hc].
      - intros (i & b & Hi & Hg & Hlt). destruct i as [|i]; cbn in Hi.
        + injection Hi as <-. destruct a; cbn in Ha, Hg; try discriminate.
          unfold dict_mem in Ha. destruct (dict_find d name); discriminate.
        + exists i, b. repeat split; auto.
          intros j c Hj Hc. apply (Hlt (S j)); [lia|exact Hc]. }
    destruct a as [| | | | | |r d|]; try (apply Hstep; reflexivity).
    destruct (dict_find d name) as [y|] eqn:Hy.
    + split.
      * intros [= ->]. exists 0%nat, (VObj r d). cbn. rewrite Hy.
        repeat split; auto. intros j b Hj. lia.
      * intros (i & b & Hi & Hg & Hlt). destruct i as [|i]; cbn in Hi.
        -- injection Hi as <-. cbn in Hg. rewrite Hy in Hg. congruence.
        -- specialize (Hlt 0%nat (VObj r d) ltac:(lia) eq_refl).
           cbn in Hlt. unfold dict_mem in Hlt. now rewrite Hy in Hlt.
    + apply Hstep. cbn. unfold dict_mem. now rewrite Hy.
Qed.

(** The value the code answers, by what it met on the way: the keyword
    value if truthy, else the positional argument or, without one, the
    keyword value again; that candidate if truthy, else what the scan of
    the arguments finds, else the candidate. *)
Lemma extract_entity_seq_candidates entity args kwargs params :
  let name := entity +:+ "_seq" in
  let kw := dict_get kwargs name in
  let pos := positional name args params in
  extract_entity_seq entity args kwargs params =
    let c := if truthy kw then kw
             else match pos with Some a => a | None => kw end in
    if truthy c then c
    else match first_exposing name args with Some x => x | None => c end.
Proof.
  intros name kw pos. unfold extract_entity_seq. fold name. fold kw.
  rewrite !scan_args_first. unfold pos, positional. clearbody kw.
  destruct (truthy kw) eqn:Hkw; cbn [negb andb].
  - rewrite Hkw. reflexivity.
  - destruct (mem_string name params) eqn:Hm.
    + destruct (index_of name params) as [i|]; [|now rewrite Hkw].
      destruct (nth_error args i) as [a|]; [|now rewrite Hkw].
      now destruct (truthy a).
    + destruct (index_of name params) as [i|] eqn:Hi; [|now rewrite Hkw].
      assert (mem_string name params = true)
        by (apply mem_string_index_of; eauto). congruence.
Qed.

(** C7 (as amended).  A value supplied by keyword, and failing that the
    argument at the declared position, is taken only when it is truthy;
    otherwise the attribute of the first argument exposing it is taken,
    whatever its value; when no argument exposes it the result is the
    falsy value met so far, which is [None] when nothing was supplied. *)
Theorem extract_entity_seq_order entity args kwargs params :
  let name := entity +:+ "_seq" in
  let kw := dict_get kwargs name in
  let pos := positional name args params in
  let found := extract_entity_seq entity args kwargs params in
  (truthy kw = true -> found = kw)
  /\ (forall a, truthy kw = false -> pos = Some a -> truthy a = true ->
        found = a)
  /\ (forall x, truthy kw = false ->
        (forall a, pos = Some a -> truthy a = false) ->
        first_exposing name args = Some x -> found = x)
  /\ (truthy kw = false ->
        (forall a, pos = Some a -> truthy a = false) ->
        first_exposing name args = None ->
        found = match pos with Some a => a | None => kw end)
  /\ (dict_find kwargs name = None -> pos = None ->
        first_exposing name args = None -> found = VNone).
Proof.
  intros name kw pos found.
  pose proof (extract_entity_seq_candidates entity args kwargs params) as Hfound.
  cbv zeta in Hfound. fold name in Hfound. fold kw in Hfound.
  fold pos in Hfound. fold found in Hfound.
  repeat split.
  - intros Hkw. rewrite Hfound, Hkw, Hkw. reflexivity.
  - intros a Hkw Hp Ha. rewrite Hfound, Hkw, Hp, Ha. reflexivity.
  - intros x Hkw Hp Hx. rewrite Hfound, Hkw, Hx.
    destruct pos as [a|]; [rewrite (Hp a eq_refl)|rewrite Hkw]; reflexivity.
  - intros Hkw Hp Hx. rewrite Hfound, Hkw, Hx.
    destruct pos as [a|]; [rewrite (Hp a eq_refl)|rewrite Hkw]; reflexivity.
  - intros Hk Hp Hx. rewrite Hfound, Hp, Hx. unfold kw, dict_get.
    rewrite Hk. reflexivity.
Qed.

(** Where the values supplied by keyword or position are truthy, the code
    resolves the identifier in the order the specification gives. *)
Lemma extract_entity_seq_first_match entity args kwargs params :
  let name := entity +:+ "_seq" in
  (forall v, dict_find kwargs name = Some v -> truthy v = true) ->
  (forall a, dict_find kwargs name = None ->
             positional name args params = Some a -> truthy a = true) ->
  extract_entity_seq entity args kwargs params
    = extract_first_match entity args kwargs params.
Proof.
  intros name Hkw Hpos.
  rewrite extract_entity_seq_candidates. fold name.
  unfold extract_first_match, dict_get. fold name.
  destruct (dict_find kwargs name) as [v|] eqn:Hk.
  - cbn zeta. rewrite (Hkw v eq_refl). cbn. now rewrite (Hkw v eq_refl).
  - cbn [truthy]. cbn zeta.
    destruct (positional name args params) as [a|] eqn:Hp.
    + now rewrite (Hpos a eq_refl eq_refl).
    + cbn. reflexivity.
Qed.

Import Scenario.

(** C7 as written does not hold: with the identifier 0 at the declared
    position and a request object exposing [employee_seq], the code answers
    the attribute of the object, where the first match is the positional
    argument. *)
Lemma extract_entity_seq_claim_fails :
  extract_entity_seq "employee"
    [service; VSession 1; VInt 0; update_request 7] [] update_sig = VInt 7
  /\ extract_first_match "employee"
       [service; VSession 1; VInt 0; update_request 7] [] update_sig = VInt 0.
Proof. split; reflexivity. Qed.

(** The order at work on calls of [update_employee]: by keyword, by
    position, by the attribute of the request, and nothing at all. *)
Lemma extract_entity_seq_order_witness :
  extract_entity_seq "employee" [service; VSession 1]
    [("employee_seq", VInt 12)] update_sig = VInt 12
  /\ extract_entity_seq "employee" [service; VSession 1; VInt 12] []
       update_sig = VInt 12
  /\ extract_entity_seq "employee" [service; VSession 1; update_request 7] []
       create_sig = VInt 7
  /\ extract_entity_seq "employee" [service; VSession 1; create_request] []
       create_sig = VNone.
Proof.
  split; [|split; [|split]].
  - exact (proj1 (extract_entity_seq_order "employee" [service; VSession 1]
                    [("employee_seq", VInt 12)] update_sig) eq_refl).
  - exact (proj1 (proj2 (extract_entity_seq_order "employee"
                    [service; VSession 1; VInt 12] [] update_sig))
             (VInt 12) eq_refl eq_refl eq_refl).
  - refine (proj1 (proj2 (proj2 (extract_entity_seq_order "employee"
                    [service; VSession 1; update_request 7] [] create_sig)))
             (VInt 7) eq_refl _ eq_refl).
    intros a [=].
  - exact (proj2 (proj2 (proj2 (proj2 (extract_entity_seq_order "employee"
                    [service; VSession 1; create_request] [] create_sig))))
             eq_refl eq_refl eq_refl).
Defined.

End ExtractFacts.

(* ===================================================================== *)
(** ** Audit history                                                      *)
(* ===================================================================== *)

Module HistoryFacts.
Import Decorator TransactionalFacts MonadFacts.

(** [clean_dict] drops exactly the two excluded fields. *)
Lemma clean_dict_find (d : pydict) (k : string) :
  dict_find (clean_dict d) k =
    if mem_string k exclude_fields then None else dict_find d k.
Proof.
  induction d as [|[k' v] d IH]; cbn.
  - now destruct (mem_string k exclude_fields).
  - change (List.filter _ d) with (clean_dict d).
    destruct (mem_string k' exclude_fields) eqn:Hk'; cbn;
      rewrite IH; destruct (String.eqb_spec k' k) as [->|Hne];
      rewrite ?Hk'; reflexivity.
Qed.

(** An object that answers [.seq] has a snapshot that is not empty, so the
    [if after_dict] test of the wrapper lets it through. *)
Lemma snapshot_with_seq (d : pydict) (x : value) :
  dict_find d "seq" = Some x ->
  dumps_or_none (Some (clean_dict d)) = Some (Json.dumps_sorted (clean_dict d)).
Proof.
  intros Hseq.
  assert (Hc : dict_find (clean_dict d) "seq" = Some x)
    by (rewrite clean_dict_find; exact Hseq).
  destruct (clean_dict d) as [|kv rest]; [discriminate|reflexivity].
Qed.




Section Steps.

Variable W : Type.

Lemma record_Ok (c : call) (s s' : state W) u :
  record W c s = (Ok u, s') ->
  s' = {| env := env s; calls := (calls s ++ [c])%list |}.
Proof. unfold record, modify. now intros [= <-]. Qed.

Lemma ask_Ok {A} (c : W -> res A * W) (s s' : state W) a :
  ask W c s = (Ok a, s') ->
  exists w, c (env s) = (Ok a, w) /\ s' = {| env := w; calls := calls s |}.
Proof.
  unfold ask. destruct (c (env s)) as [r w]. intros [= -> <-]. eauto.
Qed.

Lemma provide_Ok name (s s' : state W) u :
  provide W name s = (Ok u, s') ->
  s' = {| env := env s; calls := (calls s ++ [CallProvider name])%list |}.
Proof.
  unfold provide. destruct (mem_string name registry).
  - apply record_Ok.
  - discriminate.
Qed.

Lemma wrapped_Ok func args kwargs (s s' : state W) r :
  wrapped W func args kwargs s = (Ok r, s') ->
  exists w, func args kwargs (env s) = (Ok r, w) /\
            s' = {| env := w; calls := (calls s ++ [CallFunc args kwargs])%list |}.
Proof.
  unfold wrapped. intros H.
  apply MonadFacts.bind_Ok in H as (u & s1 & H1 & H2).
  apply record_Ok in H1. subst s1.
  apply ask_Ok in H2 as (w & Hf & ->). eauto.
Qed.

Lemma repo_get_by_seq_Ok get_by_seq entity db seq (s s' : state W) x :
  repo_get_by_seq W get_by_seq entity db seq s = (Ok x, s') ->
  exists w, get_by_seq entity db seq (env s) = (Ok x, w) /\
            s' = {| env := w;
                    calls := (calls s ++ [CallGetBySeq entity db seq])%list |}.
Proof.
  unfold repo_get_by_seq. intros H.
  apply MonadFacts.bind_Ok in H as (u & s1 & H1 & H2).
  apply record_Ok in H1. subst s1.
  apply ask_Ok in H2 as (w & Hf & ->). eauto.
Qed.

Lemma save_history_Ok save entity db domain (s s' : state W) u :
  save_history W save entity db domain s = (Ok u, s') ->
  exists w, save entity db (domain_to_entity domain) (env s) = (Ok u, w) /\
            s' = {| env := w;
                    calls := (calls s ++
                      [CallSaveHistory entity db (domain_to_entity domain)])%list |}.
Proof.
  unfold save_history. intros H.
  apply MonadFacts.bind_Ok in H as (u' & s1 & H1 & H2).
  apply record_Ok in H1. subst s1.
  apply ask_Ok in H2 as (w & Hf & ->). eauto.
Qed.

Lemma load_history_modules_Ok entity (s s' : state W) u :
  load_history_modules W entity s = (Ok u, s') ->
  mem_string entity history_modules = true /\ s' = s.
Proof.
  unfold load_history_modules. destruct (mem_string entity history_modules).
  - intros H. apply MonadFacts.ret_Ok in H as [_ ->]. auto.
  - discriminate.
Qed.

End Steps.

Section Facts.

Variable W : Type.
Variable func : list value -> pydict -> W -> res value * W.
Variable get_by_seq : string -> value -> value -> W -> res value * W.
Variable save : string -> value -> history_entity -> W -> res unit * W.
Variable utc_now : W -> Z.

Local Abbreviation history entity action sig f :=
  (History W get_by_seq save utc_now entity action sig f).

(** C4.  A call that binds no session to [db] raises the contract error
    and leaves the state as it was: the wrapped function, the container,
    the repository lookup, the history write and the session have not been
    called. *)
Theorem history_requires_session entity action sig (f : pyfun W) args kwargs
    bound (s : state W) :
  bind_partial sig args kwargs = Ok bound ->
  dict_get bound "db" = VNone ->
  history entity action sig f args kwargs s
    = (Raise (ValueError msg_history), s).
Proof.
  intros Hbind Hdb. unfold_wrappers. rewrite Hbind, Hdb. reflexivity.
Qed.


(** C6 (as amended).  A DELETE-audited call that completes, for which
    the resolved identifier is truthy, has looked the entity up by that
    identifier before the wrapped function ran and has stored one history
    row: its before value is the sorted-key JSON of the cleaned [__dict__]
    of what the lookup returned (and nothing when the lookup returned
    nothing or an empty snapshot), its after value is absent, and its
    entity id is the identifier resolved from the arguments, whatever the
    wrapped function returned. *)
Theorem history_delete_record entity sig args kwargs (s s' : state W) r :
  history entity "DELETE" sig (wrapped W func) args kwargs s = (Ok r, s') ->
  truthy (extract_entity_seq entity args kwargs sig) = true ->
  exists bound fetched w0 w1 row,
    let id := extract_entity_seq entity args kwargs sig in
    let db := dict_get bound "db" in
    bind_partial sig args kwargs = Ok bound /\
    get_by_seq entity db id (env s) = (Ok fetched, w0) /\
    func args kwargs w0 = (Ok r, w1) /\
    calls s' = (calls s ++
                  [CallProvider (entity +:+ "_repository");
                   CallGetBySeq entity db id;
                   CallFunc args kwargs;
                   CallProvider (entity +:+ "_history_repository");
                   CallSaveHistory entity db row])%list /\
    before_value row = match fetched with
                       | VObj _ d => dumps_or_none (Some (clean_dict d))
                       | _ => None
                       end /\
    after_value row = None /\
    entity_seq row = id /\
    action_type row = "DELETE".
Proof.
  intros H Hid. unfold History in H.
  apply bind_Ok in H as (bound & s0 & Hb & H).
  apply lift_res_Ok in Hb as [Hb ->].
  destruct (is_None (dict_get bound "db")) eqn:Hdb;
    [now apply raise_Ok in H|].
  apply bind_Ok in H as (u1 & s1 & Hp & H). apply provide_Ok in Hp.
  change ("DELETE" =? "INSERT") with false in H.
  change ("DELETE" =? "DELETE") with true in H.
  rewrite Hid in H. cbn [negb andb] in H.
  apply bind_Ok in H as (bd & s2 & Hbd & H).
  apply bind_Ok in Hbd as (fetched & s3 & Hg & Hbd).
  apply repo_get_by_seq_Ok in Hg as (w0 & Hg & ->).
  apply bind_Ok in H as (r' & s4 & Hf & H).
  apply bind_Ok in H as (after & s5 & Ha & H). apply ret_Ok in Ha as [-> ->].
  apply bind_Ok in H as (u2 & s6 & Hl & H).
  apply load_history_modules_Ok in Hl as [_ ->].
  apply bind_Ok in H as (now & s7 & Hn & H). apply ret_Ok in Hn as [-> ->].
  apply bind_Ok in H as (u3 & s8 & Hp2 & H). apply provide_Ok in Hp2.
  apply bind_Ok in H as (u4 & s9 & Hsv & H).
  apply save_history_Ok in Hsv as (w2 & Hsv & ->).
  apply ret_Ok in H as [-> ->]. subst s8 s1.
  assert (Hbefore : bd = match fetched with
                         | VObj _ d => Some (clean_dict d)
                         | _ => None
                         end /\ s2 = {| env := w0;
                              calls := ((calls s ++
                                [CallProvider (entity +:+ "_repository")]) ++
                                [CallGetBySeq entity (dict_get bound "db")
                                   (extract_entity_seq entity args kwargs sig)])%list |}).
  { destruct (truthy fetched) eqn:Ht.
    - apply bind_Ok in Hbd as (d & s10 & Hd & Hbd).
      apply lift_res_Ok in Hd as [Hd ->]. apply ret_Ok in Hbd as [-> ->].
      destruct fetched; try discriminate. injection Hd as ->. auto.
    - apply ret_Ok in Hbd as [-> ->]. destruct fetched; try discriminate; auto. }
  destruct Hbefore as [-> ->].
  apply wrapped_Ok in Hf as (w1 & Hf & ->). cbn [env calls fst snd] in *.
  eexists bound, fetched, w0, w1, _. cbn zeta.
  repeat split; try eassumption; cbn [env calls fst snd].
  - rewrite <- !app_assoc. reflexivity.
  - cbn. destruct fetched; reflexivity.
  - reflexivity.
  - reflexivity.
  - reflexivity.
Qed.

(** The identifier of a DELETE row never comes from the return value:
    whatever the wrapped function answers, the stored identifier is the
    one resolved from the arguments, also when that one is falsy and no
    lookup took place. *)
Lemma history_delete_target entity sig args kwargs (s s' : state W) r :
  history entity "DELETE" sig (wrapped W func) args kwargs s = (Ok r, s') ->
  exists row db,
    List.last (calls s') (CallFunc [] []) = CallSaveHistory entity db row /\
    entity_seq row = extract_entity_seq entity args kwargs sig /\
    after_value row = None.
Proof.
  intros H. unfold History in H.
  apply bind_Ok in H as (bound & s0 & Hb & H).
  apply lift_res_Ok in Hb as [Hb ->].
  destruct (is_None (dict_get bound "db")) eqn:Hdb;
    [now apply raise_Ok in H|].
  apply bind_Ok in H as (u1 & s1 & Hp & H).
  apply bind_Ok in H as (bd & s2 & Hbd & H).
  apply bind_Ok in H as (r' & s4 & Hf & H).
  change ("DELETE" =? "DELETE") with true in H.
  apply bind_Ok in H as (after & s5 & Ha & H). apply ret_Ok in Ha as [-> ->].
  apply bind_Ok in H as (u2 & s6 & Hl & H).
  apply bind_Ok in H as (now & s7 & Hn & H).
  apply bind_Ok in H as (u3 & s8 & Hp2 & H).
  apply bind_Ok in H as (u4 & s9 & Hsv & H).
  apply save_history_Ok in Hsv as (w2 & Hsv & ->).
  apply ret_Ok in H as [-> ->]. cbn [env calls fst snd].
  eexists _, _. rewrite List.last_last. repeat split.
Qed.

End Facts.

Import Scenario.


(** A call of [update_employee] without the session *)
Lemma history_requires_session_witness :
  audited "UPDATE" update_sig delete_employee [service]
    [("employee_seq", VInt 12)] (start two_rows)
  = (Raise (ValueError msg_history), start two_rows).
Proof.
  exact (history_requires_session table get_employee_by_seq save_ok clock
           "employee" "UPDATE" update_sig (wrapped table delete_employee)
           [service] [("employee_seq", VInt 12)]
           [("self", service); ("employee_seq", VInt 12)]
           (start two_rows) eq_refl eq_refl).
Defined.


(** C6 as written does not hold.  [delete_employee(self, db, 0)]: the
    identifier 0 is resolved from the arguments and the row with that
    identifier exists, so the lookup would return it; the call completes,
    yet no lookup is made and the stored row has no before value. *)
Lemma history_delete_claim_fails :
  extract_entity_seq "employee" [service; VSession 1; VInt 0] [] delete_sig
    = VInt 0
  /\ get_employee_by_seq "employee" (VSession 1) (VInt 0) two_rows
     = (Ok (employee 0 "Kim"), two_rows)
  /\ delete_run 0
     = (Ok (VBool true),
        {| env := [employee 12 "Park"];
           calls :=
             [CallProvider "employee_repository";
              CallFunc [service; VSession 1; VInt 0] [];
              CallProvider "employee_history_repository";
              CallSaveHistory "employee" (VSession 1)
                {| entity_seq := VInt 0;
                   action_type := "DELETE";
                   before_value := None;
                   after_value := None;
                   username := VNone;
                   created_at := 1700032400000000 |}] |}).
Proof. repeat split. Qed.

(** [delete_employee(self, db, 12)] audited: the run completes and the
    facts of C6 hold of its row. *)
Lemma history_delete_record_witness :
  exists bound fetched w0 w1 row,
    let id := extract_entity_seq "employee" [service; VSession 1; VInt 12] []
                delete_sig in
    let db := dict_get bound "db" in
    bind_partial delete_sig [service; VSession 1; VInt 12] [] = Ok bound /\
    get_employee_by_seq "employee" db id two_rows = (Ok fetched, w0) /\
    delete_employee [service; VSession 1; VInt 12] [] w0 = (Ok (VBool true), w1) /\
    calls (snd (delete_run 12)) = (calls (start two_rows) ++
                  [CallProvider ("employee" +:+ "_repository");
                   CallGetBySeq "employee" db id;
                   CallFunc [service; VSession 1; VInt 12] [];
                   CallProvider ("employee" +:+ "_history_repository");
                   CallSaveHistory "employee" db row])%list /\
    before_value row = match fetched with
                       | VObj _ d => dumps_or_none (Some (clean_dict d))
                       | _ => None
                       end /\
    after_value row = None /\
    entity_seq row = id /\
    action_type row = "DELETE".
Proof.
  exact (history_delete_record table delete_employee get_employee_by_seq
           save_ok clock "employee" delete_sig
           [service; VSession 1; VInt 12] [] (start two_rows)
           (snd (delete_run 12)) (VBool true) eq_refl eq_refl).
Defined.

(** What the row of that deletion holds *)
Example delete_run_row :
  List.last (calls (snd (delete_run 12))) (CallCommit 0)
  = CallSaveHistory "employee" (VSession 1)
      {| entity_seq := VInt 12;
         action_type := "DELETE";
         before_value :=
           Some (String.concat Json.dq
                   ["{"; "hire_date"; ": "; "2024-03-01"; ", "; "name"; ": ";
                    "Park"; ", "; "seq"; ": 12, "; "status"; ": "; "ACTIVE"; "}"]);
         after_value := None;
         username := VNone;
         created_at := 1700032400000000 |}.
Proof. reflexivity. Qed.

End HistoryFacts.

(* ===================================================================== *)
(** ** The logging pipeline                                               *)
(* ===================================================================== *)

Module LoggingFacts.
Import Logging RequestTrace MonadFacts.

(** *** Trace identifiers *)

Lemma append_length (s1 s2 : string) :
  String.length (s1 +:+ s2) = (String.length s1 + String.length s2)%nat.
Proof.
  induction s1 as [|c s1 IH]; [reflexivity|].
  change (String c s1 +:+ s2) with (String c (s1 +:+ s2)). cbn.
  now rewrite IH.
Qed.

Lemma hex_fixed_length (k : nat) (x : N) :
  String.length (Json.hex_fixed k x) = k.
Proof.
  revert x. induction k as [|k IH]; intros x; [reflexivity|].
  cbn [Json.hex_fixed]. rewrite append_length, IH. cbn. lia.
Qed.

Lemma substring_length (n m : nat) (s : string) :
  (n + m <= String.length s)%nat -> String.length (substring n m s) = m.
Proof.
  revert n m. induction s as [|c s IH]; intros n m H; cbn in H.
  - assert (n = 0 /\ m = 0)%nat as [-> ->] by lia. reflexivity.
  - destruct n as [|n]; cbn.
    + destruct m as [|m]; cbn; [reflexivity|]. rewrite IH; [reflexivity|lia].
    + apply IH. lia.
Qed.

(** A UUID prints as 36 characters, whatever was drawn. *)
Lemma uuid_str_length (r : N) : String.length (uuid_str r) = 36%nat.
Proof.
  unfold uuid_str. rewrite !append_length.
  rewrite !substring_length by (rewrite hex_fixed_length; lia).
  reflexivity.
Qed.

Lemma short_id_length (r : N) : String.length (short_id r) = 8%nat.
Proof.
  unfold short_id. apply substring_length. rewrite uuid_str_length. lia.
Qed.

Example uuid_str_example :
  uuid_str 0x123e4567e89b12d3a456426614174000
  = "123e4567-e89b-42d3-a456-426614174000".
Proof. reflexivity. Qed.

(** [round(x, 2)] on values Python prints as 0.12, 2.67 and 1500.12 *)
Example round2_examples :
  round2 0.125 = 0.12%float /\ round2 2.675 = 2.67%float
  /\ round2 1500.123456 = 1500.12%float
  /\ round2 (PrimFloat.mul 1.5 1000) = 1500%float.
Proof. repeat split; vm_compute; reflexivity. Qed.

(** The integer nearest to a quotient, the even one at a tie *)
Lemma round_half_even_spec (num den : Z) :
  (0 < den)%Z -> (0 <= num)%Z ->
  let n := round_half_even num den in
  (0 <= n)%Z /\
  (Z.abs (2 * (num - n * den)) <= den)%Z /\
  (Z.abs (2 * (num - n * den)) = den -> Z.even n = true)%Z.
Proof.
  intros Hden Hnum. unfold round_half_even.
  pose proof (Z.div_mod num den ltac:(lia)) as Hdm.
  pose proof (Z.mod_pos_bound num den Hden) as Hr.
  pose proof (Z.div_pos num den Hnum Hden) as Hq.
  set (q := (num / den)%Z) in *. set (r := (num mod den)%Z) in *.
  assert (Hqd : (num - q * den = r)%Z) by lia.
  assert (Hqd1 : (num - (q + 1) * den = r - den)%Z) by lia.
  clearbody q r. clear Hdm.
  destruct (2 * r ?= den)%Z eqn:Hc; cbv zeta.
  - apply Z.compare_eq in Hc. destruct (Z.even q) eqn:He.
    + rewrite Hqd. split; [lia|]. split; [lia|]. intros _. exact He.
    + rewrite Hqd1. split; [lia|]. split; [lia|].
      intros _. rewrite Z.even_add, He. reflexivity.
  - rewrite Z.compare_lt_iff in Hc. rewrite Hqd. clear Hqd Hqd1.
    split; [lia|]. split; [lia|]. intros Ht. exfalso. lia.
  - apply Z.compare_gt_iff in Hc. rewrite Hqd1. clear Hqd Hqd1.
    split; [lia|]. split; [lia|]. intros Ht. exfalso. lia.
Qed.

(** [round(x, 2)] rounds to two decimal places. *)
Lemma round2_spec (x : float) : rounded_to_two_places x (round2 x).
Proof.
  unfold rounded_to_two_places, round2.
  destruct (Prim2SF x) as [sz|si| |s m e]; try reflexivity.
  destruct (0 <=? e)%Z eqn:He; [reflexivity|].
  apply Z.leb_gt in He.
  assert (Hden : (0 < 2 ^ (- e))%Z) by (apply Z.pow_pos_nonneg; lia).
  destruct (round_half_even_spec (Zpos m * 100) (2 ^ (- e)) Hden ltac:(lia))
    as (Hn & Hclose & Htie).
  exists (round_half_even (Zpos m * 100) (2 ^ (- e))).
  split; [exact Hn|]. split; [exact Hclose|]. split; [exact Htie|].
  reflexivity.
Qed.

Ltac unfold_logging :=
  cbv [custom_handler set_up original_handler run_action
       before_cursor_execute after_cursor_execute _log_slow_query
       _log_tx_event after_commit after_rollback log_commit log_rollback
       slow_sql_structured end_structured debug_structured set_pending
       sql_structured start_structured clone_with_logger update emit
       ctx_set ctx_set_slow ctx_get ctx_get_slow ctx_get_trace_id
       trace_id_var_get ctx_clear uuid4_full new_adapter time_time
       get_kst_now_str urandom slow_threshold
       bind ret raise lift_res try_except modify gets].

Ltac unfold_logging_in H :=
  cbv [custom_handler set_up original_handler run_action
       before_cursor_execute after_cursor_execute _log_slow_query
       _log_tx_event after_commit after_rollback log_commit log_rollback
       slow_sql_structured end_structured debug_structured set_pending
       sql_structured start_structured clone_with_logger update emit
       ctx_set ctx_set_slow ctx_get ctx_get_slow ctx_get_trace_id
       trace_id_var_get ctx_clear uuid4_full new_adapter time_time
       get_kst_now_str urandom slow_threshold
       bind ret raise lift_res try_except modify gets] in H.

(** *** What an operation leaves alone *)

Section Preserves.

Variable P : lstate -> lstate -> Prop.
Hypothesis P_refl : forall s, P s s.
Hypothesis P_trans : forall s1 s2 s3, P s1 s2 -> P s2 s3 -> P s1 s3.

Lemma preserves_ret {A} (a : A) : preserves P (ret a).
Proof. intros s r s' [= <- <-]. apply P_refl. Qed.

Lemma preserves_raise {A} e : preserves P (@raise lstate A e).
Proof. intros s r s' [= <- <-]. apply P_refl. Qed.

Lemma preserves_lift_res {A} (x : res A) : preserves P (lift_res x).
Proof. intros s r s' [= <- <-]. apply P_refl. Qed.

Lemma preserves_gets {A} (f : lstate -> A) : preserves P (gets f).
Proof. intros s r s' [= <- <-]. apply P_refl. Qed.

Lemma preserves_modify (f : lstate -> lstate) :
  (forall s, P s (f s)) -> preserves P (modify f).
Proof. intros Hf s r s' [= <- <-]. apply Hf. Qed.

Lemma preserves_bind {A B} (m : M lstate A) (k : A -> M lstate B) :
  preserves P m -> (forall a, preserves P (k a)) -> preserves P (bind m k).
Proof.
  intros Hm Hk s r s'. unfold bind.
  destruct (m s) as [[a|e] s1] eqn:Hms.
  - intros H. eapply P_trans; [eapply Hm, Hms|eapply Hk, H].
  - intros [= <- <-]. eapply Hm, Hms.
Qed.

Lemma preserves_try_except {A} (m : M lstate A) c (h : exn -> M lstate A) :
  preserves P m -> (forall e, preserves P (h e)) ->
  preserves P (try_except m c h).
Proof.
  intros Hm Hh s r s'. unfold try_except.
  destruct (m s) as [[a|e] s1] eqn:Hms.
  - intros [= <- <-]. eapply Hm, Hms.
  - destruct (c e).
    + intros H. eapply P_trans; [eapply Hm, Hms|eapply Hh, H].
    + intros [= <- <-]. eapply Hm, Hms.
Qed.

End Preserves.

(** *** Isolation of the request context *)

Lemma ctx_of_with_ctx_ne u v f s : u <> v -> ctx_of (with_ctx v f s) u = ctx_of s u.
Proof.
  intros Hne. unfold ctx_of, with_ctx. cbn.
  rewrite lookup_insert_ne by congruence. reflexivity.
Qed.

Lemma ctx_of_with_ctx_eq u f s : ctx_of (with_ctx u f s) u = f (ctx_of s u).
Proof. unfold ctx_of at 1, with_ctx. cbn. now rewrite lookup_insert_eq. Qed.

Section Isolation.

Variable settings : Settings.
Variable time_at : nat -> float.
Variable kst_at : nat -> string.
Variable rand_at : nat -> N.
Variable router_dirs : list string.
Variable u : nat.

Local Abbreviation keeps m := (preserves (same_context u) m).

Lemma same_context_refl s : same_context u s s.
Proof. reflexivity. Qed.

Lemma same_context_trans s1 s2 s3 :
  same_context u s1 s2 -> same_context u s2 s3 -> same_context u s1 s3.
Proof. unfold same_context. congruence. Qed.

Lemma keeps_bind {A B} (m : M lstate A) (k : A -> M lstate B) :
  keeps m -> (forall a, keeps (k a)) -> keeps (bind m k).
Proof. apply preserves_bind. exact same_context_trans. Qed.

Lemma keeps_try_except {A} (m : M lstate A) c (h : exn -> M lstate A) :
  keeps m -> (forall e, keeps (h e)) -> keeps (try_except m c h).
Proof. apply preserves_try_except. exact same_context_trans. Qed.

Lemma keeps_time_time : keeps (time_time time_at).
Proof. intros s r s' [= <- <-]. reflexivity. Qed.

Lemma keeps_get_kst_now_str : keeps (get_kst_now_str kst_at).
Proof. intros s r s' [= <- <-]. reflexivity. Qed.

Lemma keeps_urandom : keeps (urandom rand_at).
Proof. intros s r s' [= <- <-]. reflexivity. Qed.

Lemma keeps_new_adapter lg tid : keeps (new_adapter lg tid).
Proof. intros s r s' [= <- <-]. reflexivity. Qed.

Lemma keeps_update r f : keeps (update r f).
Proof. apply preserves_modify. reflexivity. Qed.

Lemma keeps_emit r level ev : keeps (emit r level ev).
Proof. apply preserves_modify. reflexivity. Qed.

Lemma keeps_with_ctx v f : v <> u -> keeps (modify (with_ctx v f)).
Proof.
  intros Hne. apply preserves_modify. intros s.
  apply ctx_of_with_ctx_ne. congruence.
Qed.

Lemma keeps_ctx_get v : keeps (ctx_get v).
Proof.
  intros s r s'. unfold ctx_get.
  destruct (_logger_var (ctx_of s v)); intros [= <- <-]; reflexivity.
Qed.

Lemma keeps_ctx_get_slow v : keeps (ctx_get_slow v).
Proof.
  intros s r s'. unfold ctx_get_slow.
  destruct (_slow_logger_var (ctx_of s v)); intros [= <- <-]; reflexivity.
Qed.

Ltac keeps_step :=
  lazymatch goal with
  | |- preserves _ (bind _ _) => apply keeps_bind; [|intros ?]
  | |- preserves _ (try_except _ _ _) => apply keeps_try_except; [|intros ?]
  | |- preserves _ (ret _) => apply preserves_ret; apply same_context_refl
  | |- preserves _ (raise _) => apply preserves_raise; apply same_context_refl
  | |- preserves _ (lift_res _) =>
      apply preserves_lift_res; apply same_context_refl
  | |- preserves _ (gets _) => apply preserves_gets; apply same_context_refl
  | |- preserves _ (time_time _) => apply keeps_time_time
  | |- preserves _ (get_kst_now_str _) => apply keeps_get_kst_now_str
  | |- preserves _ (urandom _) => apply keeps_urandom
  | |- preserves _ (new_adapter _ _) => apply keeps_new_adapter
  | |- preserves _ (update _ _) => apply keeps_update
  | |- preserves _ (emit _ _ _) => apply keeps_emit
  | |- preserves _ (ctx_get _) => apply keeps_ctx_get
  | |- preserves _ (ctx_get_slow _) => apply keeps_ctx_get_slow
  | |- preserves _ (modify (with_ctx _ _)) => apply keeps_with_ctx; assumption
  | |- preserves _ (match ?x with _ => _ end) => destruct x
  end.

Ltac keeps_auto := repeat keeps_step.

Lemma keeps_sql_structured r statement p :
  keeps (sql_structured r statement p).
Proof. unfold sql_structured. keeps_auto. Qed.

Lemma keeps_sql_structured_each r statement sets :
  keeps (sql_structured_each r statement sets).
Proof.
  induction sets as [|p sets IH]; cbn [sql_structured_each].
  - keeps_auto.
  - apply keeps_bind; [apply keeps_sql_structured|intros _; exact IH].
Qed.

Lemma keeps_uuid4_full : keeps (uuid4_full rand_at).
Proof. unfold uuid4_full. keeps_auto. Qed.

Lemma keeps_ctx_set v lg tid : v <> u -> keeps (ctx_set rand_at v lg tid).
Proof.
  intros Hne. unfold ctx_set.
  apply keeps_bind; [destruct tid; [keeps_auto|apply keeps_uuid4_full]|intros ?].
  keeps_auto.
Qed.

Lemma keeps_ctx_set_slow v lg tid :
  v <> u -> keeps (ctx_set_slow rand_at v lg tid).
Proof.
  intros Hne. unfold ctx_set_slow.
  apply keeps_bind; [destruct tid; [keeps_auto|apply keeps_uuid4_full]|intros ?].
  keeps_auto.
Qed.

Lemma keeps_ctx_clear v : v <> u -> keeps (ctx_clear rand_at v).
Proof. intros Hne. unfold ctx_clear. keeps_auto. Qed.

Lemma keeps_slow_sql_structured r q p ms :
  keeps (slow_sql_structured kst_at r q p ms).
Proof. unfold slow_sql_structured. keeps_auto. Qed.

Lemma keeps_set_pending r ev : keeps (set_pending r ev).
Proof. unfold set_pending. keeps_auto. Qed.

Lemma keeps_start_structured r m p h : keeps (start_structured r m p h).
Proof. unfold start_structured. keeps_auto. Qed.

Lemma keeps_clone_with_logger r lg : keeps (clone_with_logger r lg).
Proof. unfold clone_with_logger. keeps_auto. Qed.

Lemma keeps_block_check v : keeps (block_check v).
Proof. unfold block_check. keeps_auto. Qed.

Lemma keeps_debug_structured r enabled message context method path handler :
  keeps (debug_structured kst_at r enabled message context method path handler).
Proof.
  unfold debug_structured.
  apply keeps_bind; [keeps_auto|intros ?].
  apply keeps_bind; [apply keeps_block_check|intros ?].
  keeps_auto.
Qed.

Lemma keeps_before_cursor_execute v statement parameters executemany :
  keeps (before_cursor_execute time_at v statement parameters executemany).
Proof.
  unfold before_cursor_execute.
  apply keeps_bind; [apply keeps_time_time|intros start].
  apply keeps_bind; [|intros ?; keeps_auto].
  apply keeps_try_except; [|intros ?; keeps_auto].
  apply keeps_bind; [apply keeps_ctx_get|intros lg].
  destruct executemany; [|apply keeps_sql_structured].
  apply keeps_bind; [keeps_auto|intros sets].
  apply keeps_sql_structured_each.
Qed.

Lemma keeps_log_slow_query v statement parameters ms :
  keeps (_log_slow_query kst_at v statement parameters ms).
Proof.
  unfold _log_slow_query. apply keeps_try_except.
  - apply keeps_bind; [apply keeps_ctx_get_slow|intros ?].
    apply keeps_slow_sql_structured.
  - intros _. apply keeps_bind; [apply keeps_new_adapter|intros ?].
    apply keeps_slow_sql_structured.
Qed.

Lemma keeps_after_cursor_execute v statement parameters context_start :
  keeps (after_cursor_execute settings time_at kst_at v statement parameters
           context_start).
Proof.
  unfold after_cursor_execute.
  apply keeps_bind; [apply keeps_time_time|intros t].
  apply keeps_bind; [apply keeps_time_time|intros t'].
  destruct (PrimFloat.leb _ _); [apply keeps_log_slow_query|keeps_auto].
Qed.

Lemma keeps_log_tx_event v event_type : keeps (_log_tx_event v event_type).
Proof.
  unfold _log_tx_event, log_commit, log_rollback.
  apply keeps_try_except; [|intros ?; keeps_auto].
  apply keeps_bind; [apply keeps_ctx_get|intros lg].
  destruct (event_type =? "commit"); [apply keeps_set_pending|].
  destruct (event_type =? "rollback"); [apply keeps_set_pending|keeps_auto].
Qed.

Lemma keeps_run_action v a :
  v <> u -> keeps (run_action settings time_at kst_at rand_at v a).
Proof.
  intros Hne. destruct a; cbn [run_action].
  - apply keeps_bind; [apply keeps_before_cursor_execute|intros start].
    apply keeps_after_cursor_execute.
  - apply keeps_log_tx_event.
  - apply keeps_log_tx_event.
  - apply keeps_bind; [apply keeps_uuid4_full|intros tid].
    apply keeps_bind; [apply keeps_new_adapter|intros lg].
    apply keeps_bind; [apply keeps_ctx_set; exact Hne|intros _].
    apply keeps_debug_structured.
Qed.

Lemma keeps_run_actions v body :
  v <> u -> keeps (run_actions settings time_at kst_at rand_at v body).
Proof.
  intros Hne. induction body as [|a body IH]; cbn [run_actions].
  - keeps_auto.
  - apply keeps_bind;
      [apply keeps_run_action; assumption|intros _; exact IH].
Qed.

Lemma keeps_set_up v req :
  v <> u -> keeps (set_up time_at rand_at router_dirs v req).
Proof.
  intros Hne. unfold set_up.
  apply keeps_bind; [apply keeps_time_time|intros start].
  apply keeps_bind; [apply keeps_urandom|intros r]. cbv zeta.
  apply keeps_bind; [apply keeps_new_adapter|intros lg].
  apply keeps_bind; [apply keeps_clone_with_logger|intros slow].
  apply keeps_bind; [apply keeps_ctx_set; exact Hne|intros _].
  apply keeps_bind; [apply keeps_ctx_set_slow; exact Hne|intros _].
  apply keeps_bind; [apply keeps_start_structured|intros _].
  apply keeps_bind; [apply keeps_start_structured|intros _].
  keeps_auto.
Qed.

Lemma keeps_end_structured r status duration :
  keeps (end_structured kst_at r status duration).
Proof.
  unfold end_structured.
  apply keeps_bind; [apply keeps_get_kst_now_str|intros now].
  apply keeps_bind; [keeps_auto|intros self].
  apply keeps_bind; [apply keeps_emit|intros _].
  destruct (_pending_tx_event self) as [tx|]; [|keeps_auto].
  destruct (tx =? EmptyString); [keeps_auto|].
  apply keeps_bind; [apply keeps_get_kst_now_str|intros now_block].
  apply keeps_bind; [apply keeps_get_kst_now_str|intros now'].
  apply keeps_bind; [apply keeps_emit|intros _].
  apply keeps_set_pending.
Qed.

Lemma keeps_custom_handler v req body outcome :
  v <> u ->
  keeps (custom_handler settings time_at kst_at rand_at router_dirs v req body outcome).
Proof.
  intros Hne. unfold custom_handler, original_handler.
  apply keeps_bind;
    [apply keeps_set_up; assumption|intros [[[start tid] lg] slow]].
  apply keeps_bind.
  - apply keeps_try_except; [|intros ?; keeps_auto].
    apply keeps_bind; [|intros ?; keeps_auto].
    apply keeps_bind; [apply keeps_run_actions; exact Hne|intros _; keeps_auto].
  - intros resp. apply keeps_bind; [apply keeps_time_time|intros t]. cbv zeta.
    apply keeps_bind; [apply keeps_end_structured|intros _; keeps_auto].
Qed.

Lemma keeps_run_op v op :
  v <> u -> keeps (run_op settings time_at kst_at rand_at router_dirs v op).
Proof.
  intros Hne. destruct op; cbn [run_op].
  - apply keeps_ctx_set; assumption.
  - apply keeps_ctx_set_slow; assumption.
  - apply keeps_ctx_clear; assumption.
  - apply keeps_bind;
      [apply keeps_set_up; assumption|intros ?; keeps_auto].
  - apply keeps_run_action; assumption.
  - apply keeps_bind;
      [apply keeps_custom_handler; assumption|intros ?; keeps_auto].
Qed.

Lemma observe_same_context s s' :
  ctx_of s' u = ctx_of s u -> observe u s' = observe u s.
Proof.
  intros H. unfold observe, ctx_get, ctx_get_slow, ctx_get_trace_id,
    trace_id_var_get, try_except, ret. rewrite H.
  destruct (_logger_var (ctx_of s u)), (_slow_logger_var (ctx_of s u)),
    (_trace_id_var (ctx_of s u)); reflexivity.
Qed.

(** C2.  Whatever the other execution units do, in whatever order (set,
    set_slow, clear, whole requests or parts of them), the bindings of unit
    [u] stay what they were, and so do the answers of [get()],
    [get_slow()] and [get_trace_id()] to [u]. *)
Theorem context_isolation (tr : list (nat * unit_op)) (s : lstate) :
  (forall v op, In (v, op) tr -> v <> u) ->
  ctx_of (run_schedule settings time_at kst_at rand_at router_dirs tr s) u = ctx_of s u
  /\ observe u (run_schedule settings time_at kst_at rand_at router_dirs tr s)
     = observe u s.
Proof.
  intros Hothers.
  assert (H : ctx_of (run_schedule settings time_at kst_at rand_at router_dirs tr s) u
              = ctx_of s u).
  { revert s. induction tr as [|[v op] tr IH]; intros s; cbn [run_schedule].
    - reflexivity.
    - rewrite IH by (intros v' op' Hin; apply (Hothers v' op'); now right).
      destruct (run_op settings time_at kst_at rand_at router_dirs v op s) as [r s1] eqn:Hop.
      eapply keeps_run_op; [|exact Hop]. apply (Hothers v op). now left. }
  split; [exact H|]. apply observe_same_context, H.
Qed.

End Isolation.

(** *** The cursor hooks *)

Section Hooks.

Variable settings : Settings.
Variable time_at : nat -> float.
Variable kst_at : nat -> string.

Local Abbreviation before_hook := (before_cursor_execute time_at).
Local Abbreviation after_hook := (after_cursor_execute settings time_at kst_at).
Local Abbreviation log_slow := (_log_slow_query kst_at).

(** What [_log_slow_query] does, with and without a slow logger in the
    context of the unit. *)
Lemma log_slow_query_effect u statement parameters ms (s : lstate) :
  exists e s',
    log_slow u statement parameters ms s = (Ok tt, s') /\
    sink s' = (sink s ++ [e])%list /\
    ev_level e = "INFO" /\
    ev_log_type e = "SLOW_QUERY" /\
    ev_duration_ms e = Some ms /\
    ev_sql e = Some [(statement, parameters)] /\
    ev_time e = kst_at (ticks s) /\
    ticks s' = S (ticks s) /\
    ctxs s' = ctxs s /\
    match _slow_logger_var (ctx_of s u) with
    | Some r =>
        ev_adapter e = r /\ ev_logger e = logger (deref s r) /\
        ev_trace_id e = trace_id (deref s r) /\
        heap s' = heap s /\ next_ref s' = next_ref s
    | None =>
        ev_adapter e = next_ref s /\ ev_logger e = "slow_query" /\
        ev_trace_id e = "unknown" /\ next_ref s' = S (next_ref s) /\
        forall r, r <> next_ref s -> deref s' r = deref s r
    end.
Proof.
  unfold_logging.
  destruct (_slow_logger_var (ctx_of s u)) as [r|] eqn:Hslow; cbn.
  - eexists _, _. split; [reflexivity|]. cbn. repeat split.
  - eexists _, _. split; [reflexivity|]. cbn. unfold deref at 1 2. cbn.
    rewrite lookup_insert_eq. cbn. repeat split.
    intros r Hne. unfold deref. cbn. now rewrite lookup_insert_ne.
Qed.

(** What the after hook does: two readings of the clock, and the slow
    query log exactly when the threshold is reached. *)
Lemma after_hook_unfold u statement parameters context_start (s : lstate) :
  let s2 := {| heap := heap s; next_ref := next_ref s; ctxs := ctxs s;
               sink := sink s; ticks := S (S (ticks s)); draws := draws s |} in
  let start := match context_start with
               | Some t0 => t0
               | None => time_at (S (ticks s))
               end in
  let duration := PrimFloat.sub (time_at (ticks s)) start in
  after_hook u statement parameters context_start s =
    if PrimFloat.leb (SLOW_QUERY_THRESHOLD settings) duration
    then log_slow u statement parameters
           (round2 (PrimFloat.mul duration 1000)) s2
    else (Ok tt, s2).
Proof.
  cbv [after_cursor_execute time_time bind ret slow_threshold]. cbn.
  destruct context_start; cbn; destruct (PrimFloat.leb _ _); reflexivity.
Qed.

(** C8.  The after hook always returns; it hands exactly one record to
    the slow-query log when the elapsed time reaches the configured
    threshold and none when it does not; the record carries the elapsed
    time in milliseconds rounded to two decimal places (the float nearest
    to a whole number of hundredths that is at most half a hundredth away
    from the elapsed milliseconds), the statement and its parameters.  No buffer of statements is read or changed on the way, so
    this holds of every state, the statement buffered or not.  The
    threshold of the default settings is 2.0 seconds. *)
Theorem slow_query_threshold u statement parameters context_start (s : lstate) :
  let start := match context_start with
               | Some t0 => t0
               | None => time_at (S (ticks s))
               end in
  let duration := PrimFloat.sub (time_at (ticks s)) start in
  SLOW_QUERY_THRESHOLD default_settings = 2%float /\
  exists s',
    after_hook u statement parameters context_start s = (Ok tt, s') /\
    (PrimFloat.leb (SLOW_QUERY_THRESHOLD settings) duration = true ->
       exists e,
         sink s' = (sink s ++ [e])%list /\
         ev_log_type e = "SLOW_QUERY" /\
         (exists ms,
            ev_duration_ms e = Some ms /\
            rounded_to_two_places (PrimFloat.mul duration 1000) ms) /\
         ev_sql e = Some [(statement, parameters)]) /\
    (PrimFloat.leb (SLOW_QUERY_THRESHOLD settings) duration = false ->
       sink s' = sink s) /\
    (forall r, r <> next_ref s -> _sql_logs (deref s' r) = _sql_logs (deref s r)).
Proof.
  intros start duration. split; [reflexivity|].
  rewrite after_hook_unfold. fold start. fold duration.
  destruct (PrimFloat.leb (SLOW_QUERY_THRESHOLD settings) duration) eqn:Hslow.
  - destruct (log_slow_query_effect u statement parameters
                (round2 (PrimFloat.mul duration 1000))
                {| heap := heap s; next_ref := next_ref s; ctxs := ctxs s;
                   sink := sink s; ticks := S (S (ticks s)); draws := draws s |})
      as (e & s' & Hrun & Hsink & _ & Htype & Hms & Hsql & _ & _ & _ & Hctx).
    exists s'. split; [exact Hrun|]. split; [|split].
    + intros _. exists e. cbn in Hsink.
      split; [exact Hsink|]. split; [exact Htype|].
      split; [|exact Hsql].
      exists (round2 (PrimFloat.mul duration 1000)).
      split; [exact Hms|apply round2_spec].
    + discriminate.
    + intros r Hr. cbn in Hctx.
      change (ctx_of _ u) with (ctx_of s u) in Hctx.
      destruct (_slow_logger_var (ctx_of s u)).
      * destruct Hctx as (_ & _ & _ & Hheap & _). unfold deref.
        now rewrite Hheap.
      * destruct Hctx as (_ & _ & _ & _ & Hrest). now rewrite (Hrest r Hr).
  - eexists. split; [reflexivity|]. split; [discriminate|]. split; reflexivity.
Qed.

(** C9.  A unit with no logger and no slow logger in its context: the
    before hook returns its start time and changes nothing but the clock
    (nothing is buffered anywhere), and a slow query returns normally after
    handing one record to the logger [slow_query] through a new adapter
    whose trace id is [unknown]. *)
Theorem hooks_without_context u statement parameters executemany (s : lstate) :
  _logger_var (ctx_of s u) = None ->
  _slow_logger_var (ctx_of s u) = None ->
  before_hook u statement parameters executemany s
    = (Ok (time_at (ticks s)),
       {| heap := heap s; next_ref := next_ref s; ctxs := ctxs s;
          sink := sink s; ticks := S (ticks s); draws := draws s |})
  /\ (forall ms, exists e s',
        log_slow u statement parameters ms s = (Ok tt, s') /\
        sink s' = (sink s ++ [e])%list /\
        ev_logger e = "slow_query" /\ ev_trace_id e = "unknown" /\
        ev_log_type e = "SLOW_QUERY" /\ ev_duration_ms e = Some ms /\
        ev_sql e = Some [(statement, parameters)])
  /\ (forall context_start,
        let start := match context_start with
                     | Some t0 => t0
                     | None => time_at (S (ticks s))
                     end in
        let duration := PrimFloat.sub (time_at (ticks s)) start in
        PrimFloat.leb (SLOW_QUERY_THRESHOLD settings) duration = true ->
        exists e s',
          after_hook u statement parameters context_start s = (Ok tt, s') /\
          sink s' = (sink s ++ [e])%list /\
          ev_logger e = "slow_query" /\ ev_trace_id e = "unknown" /\
          ev_log_type e = "SLOW_QUERY" /\
          ev_duration_ms e = Some (round2 (PrimFloat.mul duration 1000))).
Proof.
  intros Hlogger Hslow. split; [|split].
  - cbv [before_cursor_execute time_time bind ret try_except ctx_get]. cbn.
    change (ctx_of _ u) with (ctx_of s u). rewrite Hlogger. reflexivity.
  - intros ms.
    destruct (log_slow_query_effect u statement parameters ms s)
      as (e & s' & Hrun & Hsink & _ & Htype & Hms & Hsql & _ & _ & _ & Hctx).
    rewrite Hslow in Hctx. destruct Hctx as (_ & Hlg & Htid & _).
    exists e, s'. auto 10.
  - intros context_start start duration Hd.
    rewrite after_hook_unfold. fold start. fold duration. rewrite Hd.
    destruct (log_slow_query_effect u statement parameters
                (round2 (PrimFloat.mul duration 1000))
                {| heap := heap s; next_ref := next_ref s; ctxs := ctxs s;
                   sink := sink s; ticks := S (S (ticks s)); draws := draws s |})
      as (e & s' & Hrun & Hsink & _ & Htype & Hms & Hsql & _ & _ & _ & Hctx).
    cbn in Hctx. change (ctx_of _ u) with (ctx_of s u) in Hctx.
    rewrite Hslow in Hctx. destruct Hctx as (_ & Hlg & Htid & _).
    exists e, s'. cbn in Hsink. auto 10.
Qed.

End Hooks.

(** *** One request, from set-up to END *)

Lemma deref_insert_eq (s : lstate) h r a :
  heap s = <[r := a]> h -> deref s r = a.
Proof. intros H. unfold deref. now rewrite H, lookup_insert_eq. Qed.

Lemma try_except_reraise_Ok {S A} (m : M S A) c (s s' : S) (a : A) :
  try_except m c (fun e => raise e) s = (Ok a, s') -> m s = (Ok a, s').
Proof.
  unfold try_except, raise. destruct (m s) as [[x|e] s1]; [easy|].
  destruct (c e); discriminate.
Qed.

Lemma update_effect r f (s : lstate) :
  exists s', update r f s = (Ok tt, s') /\ heap_only s s' /\
    deref s' r = f (deref s r) /\
    forall r', r' <> r -> deref s' r' = deref s r'.
Proof.
  eexists. split; [reflexivity|]. cbn. split; [repeat split|]. split.
  - unfold deref at 1. cbn. now rewrite lookup_insert_eq.
  - intros r' Hne. unfold deref. cbn. now rewrite lookup_insert_ne.
Qed.

Lemma sql_structured_each_effect r statement sets (s : lstate) :
  exists s', sql_structured_each r statement sets s = (Ok tt, s') /\
    heap_only s s' /\
    deref s' r = add_logs (deref s r) (map (pair statement) sets) /\
    forall r', r' <> r -> deref s' r' = deref s r'.
Proof.
  revert s. induction sets as [|p sets IH]; intros s.
  - exists s. cbn. repeat split.
    unfold add_logs. cbn. rewrite app_nil_r. now destruct (deref s r).
  - cbn [sql_structured_each]. unfold bind, sql_structured.
    destruct (update_effect r
                (fun a => {| logger := logger a; trace_id := trace_id a;
                             _sql_logs := (_sql_logs a ++ [(statement, p)])%list;
                             _method := _method a; _path := _path a;
                             _handler := _handler a;
                             _pending_tx_event := _pending_tx_event a |}) s)
      as (s1 & -> & H1 & Hr1 & Ho1).
    destruct (IH s1) as (s2 & -> & H2 & Hr2 & Ho2).
    exists s2. split; [reflexivity|]. split; [|split].
    + unfold heap_only in *. intuition congruence.
    + rewrite Hr2, Hr1. unfold add_logs. cbn. now rewrite <- app_assoc.
    + intros r' Hne. now rewrite Ho2, Ho1.
Qed.

Section Request.

Variable settings : Settings.
Variable time_at : nat -> float.
Variable kst_at : nat -> string.
Variable rand_at : nat -> N.
Variable router_dirs : list string.

Local Abbreviation before_hook := (before_cursor_execute time_at).
Local Abbreviation after_hook := (after_cursor_execute settings time_at kst_at).
Local Abbreviation action_of u a := (run_action settings time_at kst_at rand_at u a).
Local Abbreviation actions_of u l := (run_actions settings time_at kst_at rand_at u l).

(** The before hook with a logger [r] in the context: the entries go to
    the buffer of [r] and nowhere else. *)
Lemma before_hook_effect u statement parameters executemany r (s s' : lstate) x :
  _logger_var (ctx_of s u) = Some r ->
  before_hook u statement parameters executemany s = (Ok x, s') ->
  deref s' r = add_logs (deref s r)
                 (entries_of statement parameters executemany) /\
  (forall r', r' <> r -> deref s' r' = deref s r') /\
  next_ref s' = next_ref s /\ ctxs s' = ctxs s /\ sink s' = sink s /\
  draws s' = draws s.
Proof.
  intros Hctx. unfold before_cursor_execute, entries_of.
  cbv [bind time_time try_except ctx_get ret lift_res]. cbn.
  change (ctx_of _ u) with (ctx_of s u). rewrite Hctx.
  set (s0 := {| heap := heap s; next_ref := next_ref s; ctxs := ctxs s;
                sink := sink s; ticks := S (ticks s); draws := draws s |}).
  destruct executemany.
  - assert (Hiter : (exists sets, iterate parameters = Ok sets) \/
                     (exists m, iterate parameters = Raise (TypeError m)))
      by (destruct parameters; cbn; eauto).
    destruct Hiter as [[sets ->]|[m ->]]; cbn; [|discriminate].
    destruct (sql_structured_each_effect r statement sets s0)
      as (s1 & -> & H1 & Hr1 & Ho1).
    intros [= _ <-]. unfold heap_only in H1. cbn in H1.
    repeat split; try tauto; auto.
  - unfold sql_structured.
    destruct (update_effect r
                (fun a => {| logger := logger a; trace_id := trace_id a;
                             _sql_logs := (_sql_logs a ++ [(statement, parameters)])%list;
                             _method := _method a; _path := _path a;
                             _handler := _handler a;
                             _pending_tx_event := _pending_tx_event a |}) s0)
      as (s1 & -> & H1 & Hr1 & Ho1).
    intros [= _ <-]. unfold heap_only in H1. cbn in H1.
    repeat split; try tauto; auto.
Qed.

(** A session event with a logger [r] in the context *)
Lemma log_tx_event_effect u event_type r (s : lstate) :
  _logger_var (ctx_of s u) = Some r ->
  event_type = "commit" \/ event_type = "rollback" ->
  exists s', _log_tx_event u event_type s = (Ok tt, s') /\
    heap_only s s' /\
    deref s' r = mark_pending (deref s r)
                   (Some (if event_type =? "commit" then "COMMIT"
                          else "ROLLBACK")) /\
    forall r', r' <> r -> deref s' r' = deref s r'.
Proof.
  intros Hctx Hev. unfold _log_tx_event, try_except, bind, ctx_get.
  rewrite Hctx.
  destruct Hev as [-> | ->];
    (eexists; split; [reflexivity|]; cbn; split; [repeat split|]; split;
     [unfold deref at 1; cbn; now rewrite lookup_insert_eq
     |intros r' Hne; unfold deref; cbn; now rewrite lookup_insert_ne]).
Qed.

Lemma ctx_of_ctxs (s s' : lstate) u : ctxs s' = ctxs s -> ctx_of s' u = ctx_of s u.
Proof. intros H. unfold ctx_of. now rewrite H. Qed.

Lemma deref_heap (s s' : lstate) r : heap s' = heap s -> deref s' r = deref s r.
Proof. intros H. unfold deref. now rewrite H. Qed.

Section Tracked.

Variables (u lg slow : nat) (tid : string).

Local Abbreviation Inv := (inv u lg slow tid).
Local Abbreviation own := (is_own u lg).

Lemma is_own_ctxs (s s' : lstate) : ctxs s' = ctxs s -> own s' = own s.
Proof. intros H. unfold is_own. now rewrite (ctx_of_ctxs s s' u H). Qed.

(** A statement through both hooks *)
Lemma execute_inv statement parameters executemany (s s' : lstate) :
  Inv s ->
  action_of u (Execute statement parameters executemany) s = (Ok tt, s') ->
  Inv s' /\
  (exists evs, sink s' = (sink s ++ evs)%list /\ Forall (from_body lg slow tid) evs) /\
  own s' = own s /\
  deref s' lg = if own s
                then add_logs (deref s lg)
                       (entries_of statement parameters executemany)
                else deref s lg.
Proof.
  intros (Hlg & Hslow & Hne & Htlg & Htslow & Hcslow & Hctid & r & Hcr & Hr & Hrs) H.
  cbn [run_action] in H. apply bind_Ok in H as (start & s1 & Hb & Ha).
  destruct (before_hook_effect u statement parameters executemany r s s1 start
              Hcr Hb) as (Hr1 & Ho1 & Hn1 & Hc1 & Hs1 & Hd1).
  rewrite after_hook_unfold in Ha.
  set (s2 := {| heap := heap s1; next_ref := next_ref s1; ctxs := ctxs s1;
                sink := sink s1; ticks := S (S (ticks s1));
                draws := draws s1 |}) in Ha.
  assert (Hctx2 : forall v, ctx_of s2 v = ctx_of s v)
    by (intros v; apply ctx_of_ctxs; exact Hc1).
  assert (Hd2 : forall x, deref s2 x = deref s1 x) by reflexivity.
  assert (Hown : forall st, ctxs st = ctxs s -> own st = own s)
    by (intros st; apply is_own_ctxs).
  assert (Hlgv : deref s1 lg = if own s
                 then add_logs (deref s lg)
                        (entries_of statement parameters executemany)
                 else deref s lg).
  { unfold is_own. rewrite Hcr. destruct (Nat.eqb_spec r lg) as [->|Hrl].
    - exact Hr1.
    - apply Ho1. congruence. }
  assert (Htl : trace_id (deref s1 lg) = tid)
    by (rewrite Hlgv; destruct (own s); cbn; exact Htlg).
  assert (Hts : trace_id (deref s1 slow) = tid)
    by (rewrite Ho1 by congruence; exact Htslow).
  assert (Hinv : forall st, heap st = heap s1 -> next_ref st = next_ref s ->
                            ctxs st = ctxs s -> Inv st).
  { intros st Hh Hn Hc. unfold inv.
    rewrite !(deref_heap s1 st) by exact Hh.
    rewrite !(ctx_of_ctxs s st u Hc), Hn. eauto 12. }
  destruct (PrimFloat.leb _ _).
  - destruct (log_slow_query_effect kst_at u statement parameters
                (round2
                   (PrimFloat.mul
                      (PrimFloat.sub (time_at (ticks s1)) start) 1000)) s2)
      as (e & s3 & Hrun & Hsink & _ & Htype & _ & _ & _ & _ & Hc3 & Hcase).
    rewrite Hrun in Ha. injection Ha as <-.
    rewrite Hctx2, Hcslow in Hcase.
    destruct Hcase as (Hea & _ & Het & Hh3 & Hn3).
    split; [apply Hinv; [exact Hh3|cbn in Hn3; congruence|cbn in Hc3; congruence]|].
    split; [|split].
    + exists [e]. split; [cbn in Hsink; congruence|].
      constructor; [|constructor]. left. rewrite Het, Hd2, Hts. auto.
    + apply Hown. cbn in Hc3. congruence.
    + rewrite (deref_heap s2 s3) by exact Hh3. rewrite Hd2. exact Hlgv.
  - injection Ha as <-.
    split; [apply Hinv; [reflexivity|exact Hn1|exact Hc1]|].
    split; [|split].
    + exists []. split; [cbn; rewrite app_nil_r; exact Hs1|constructor].
    + apply Hown. exact Hc1.
    + rewrite Hd2. exact Hlgv.
Qed.

(** A session event *)
Lemma tx_inv (a : action) event_type (s s' : lstate) :
  (a = Commit /\ event_type = "commit") \/ (a = Rollback /\ event_type = "rollback") ->
  Inv s ->
  _log_tx_event u event_type s = (Ok tt, s') ->
  Inv s' /\ sink s' = sink s /\ own s' = own s /\
  deref s' lg = if own s then act a (deref s lg) else deref s lg.
Proof.
  intros Ha (Hlg & Hslow & Hne & Htlg & Htslow & Hcslow & Hctid & r & Hcr & Hr & Hrs) H.
  destruct (log_tx_event_effect u event_type r s Hcr)
    as (s1 & Hrun & (Hn1 & Hc1 & Hs1 & _) & Hr1 & Ho1).
  { destruct Ha as [[_ ->]|[_ ->]]; auto. }
  rewrite Hrun in H. injection H as <-.
  assert (Hlgv : deref s1 lg = if own s then act a (deref s lg) else deref s lg).
  { unfold is_own. rewrite Hcr. destruct (Nat.eqb_spec r lg) as [->|Hrl].
    - rewrite Hr1. destruct Ha as [[-> ->]|[-> ->]]; reflexivity.
    - apply Ho1. congruence. }
  split; [|split; [exact Hs1|split; [apply is_own_ctxs; exact Hc1|exact Hlgv]]].
  unfold inv. rewrite !(ctx_of_ctxs s s1 u Hc1), Hn1.
  rewrite Hlgv, (Ho1 slow) by congruence.
  repeat split; eauto.
  all: destruct (own s); [destruct Ha as [[-> _]|[-> _]]|]; exact Htlg.
Qed.

(** The endpoint that installs an adapter of its own *)
Lemma test_debug_inv req (s s' : lstate) :
  Inv s ->
  action_of u (TestDebug req) s = (Ok tt, s') ->
  Inv s' /\
  (exists evs, sink s' = (sink s ++ evs)%list /\ Forall (from_body lg slow tid) evs) /\
  own s' = false /\ deref s' lg = deref s lg.
Proof.
  intros (Hlg & Hslow & Hne & Htlg & Htslow & Hcslow & Hctid & r & Hcr & Hr & Hrs) H.
  cbn [run_action] in H. unfold_logging_in H. cbn in H. injection H as <-.
  assert (Hd : forall x, x < next_ref s ->
            deref {| heap := <[next_ref s :=
                       {| logger := "rank";
                          trace_id := uuid_str (rand_at (draws s));
                          _sql_logs := []; _method := EmptyString;
                          _path := EmptyString; _handler := EmptyString;
                          _pending_tx_event := None |}]> (heap s);
                     next_ref := S (next_ref s); ctxs := ctxs s; sink := sink s;
                     ticks := ticks s; draws := draws s |} x = deref s x).
  { intros x Hx. unfold deref. cbn. rewrite lookup_insert_ne by lia. reflexivity. }
  unfold inv, is_own, ctx_of, deref in *. cbn.
  rewrite !lookup_insert_eq. cbn.
  rewrite !lookup_insert_ne by lia.
  split; [|split; [|split]].
  - repeat split; try lia; auto.
    + exists (uuid_str (rand_at (S (draws s)))). split; [reflexivity|].
      apply uuid_str_length.
    + exists (next_ref s). repeat split; lia.
  - eexists [_]. split; [reflexivity|]. constructor; [|constructor].
    right. cbn. repeat split; lia.
  - apply Nat.eqb_neq. lia.
  - reflexivity.
Qed.

(** Every action of a handler keeps the invariant, adds records of the
    body only, and moves the adapter of the request as [track] says. *)
Lemma run_action_inv (a : action) (s s' : lstate) :
  Inv s ->
  action_of u a s = (Ok tt, s') ->
  Inv s' /\
  (exists evs, sink s' = (sink s ++ evs)%list /\ Forall (from_body lg slow tid) evs) /\
  (own s', deref s' lg) = track (own s) [a] (deref s lg).
Proof.
  intros Hinv H. destruct a as [statement parameters executemany| | |req].
  - destruct (execute_inv statement parameters executemany s s' Hinv H)
      as (Hi & Hev & Ho & Hd).
    split; [exact Hi|split; [exact Hev|]]. rewrite Ho, Hd. cbn.
    destruct (own s); reflexivity.
  - destruct (tx_inv Commit "commit" s s') as (Hi & Hs & Ho & Hd); auto.
    split; [exact Hi|split]. { exists []. now rewrite app_nil_r. }
    rewrite Ho, Hd. cbn. destruct (own s); reflexivity.
  - destruct (tx_inv Rollback "rollback" s s') as (Hi & Hs & Ho & Hd); auto.
    split; [exact Hi|split]. { exists []. now rewrite app_nil_r. }
    rewrite Ho, Hd. cbn. destruct (own s); reflexivity.
  - destruct (test_debug_inv req s s' Hinv H) as (Hi & Hev & Ho & Hd).
    split; [exact Hi|split; [exact Hev|]]. rewrite Ho, Hd. cbn.
    destruct (own s); reflexivity.
Qed.

Lemma track_app (b : bool) (l1 l2 : list action) (ad : adapter) :
  track b (l1 ++ l2) ad = track (fst (track b l1 ad)) l2 (snd (track b l1 ad)).
Proof.
  revert b ad. induction l1 as [|a l1 IH]; intros b ad; cbn; [reflexivity|].
  destruct b; [destruct a|]; apply IH.
Qed.

Lemma run_actions_inv (body : list action) (s s' : lstate) :
  Inv s ->
  actions_of u body s = (Ok tt, s') ->
  Inv s' /\
  (exists evs, sink s' = (sink s ++ evs)%list /\ Forall (from_body lg slow tid) evs) /\
  (own s', deref s' lg) = track (own s) body (deref s lg).
Proof.
  revert s. induction body as [|a body IH]; intros s Hinv H.
  - cbn in H. injection H as <-. split; [exact Hinv|split; [|reflexivity]].
    exists []. now rewrite app_nil_r.
  - cbn [run_actions] in H. apply bind_Ok in H as ([] & s1 & Ha & Hrest).
    destruct (run_action_inv a s s1 Hinv Ha) as (Hi1 & (evs1 & Hs1 & Hf1) & Ht1).
    destruct (IH s1 Hi1 Hrest) as (Hi2 & (evs2 & Hs2 & Hf2) & Ht2).
    split; [exact Hi2|split].
    + exists (evs1 ++ evs2)%list. split.
      * rewrite Hs2, Hs1. now rewrite app_assoc.
      * apply Forall_app. auto.
    + rewrite Ht2. change (a :: body) with ([a] ++ body)%list.
      rewrite track_app. rewrite <- Ht1. reflexivity.
Qed.

End Tracked.

(** *** What [track] keeps and what it collects *)

Lemma track_false (body : list action) (ad : adapter) :
  track false body ad = (false, ad).
Proof. induction body as [|a body IH]; cbn; [reflexivity|exact IH]. Qed.

Lemma track_trace_id (b : bool) (body : list action) (ad : adapter) :
  trace_id (snd (track b body ad)) = trace_id ad.
Proof.
  revert b ad. induction body as [|a body IH]; intros b ad; cbn; [reflexivity|].
  destruct b; [destruct a|]; rewrite IH; reflexivity.
Qed.

Lemma track_sql_logs (body : list action) (ad : adapter) :
  _sql_logs (snd (track true body ad)) = (_sql_logs ad ++ buffered body)%list.
Proof.
  revert ad. induction body as [|a body IH]; intros ad; cbn.
  - now rewrite app_nil_r.
  - destruct a; cbn; rewrite ?IH; cbn.
    + now rewrite app_assoc.
    + reflexivity.
    + reflexivity.
    + rewrite track_false. cbn. now rewrite app_nil_r.
Qed.

Lemma track_pending (b : bool) (body : list action) (ad : adapter) :
  _pending_tx_event (snd (track b body ad)) = _pending_tx_event ad
  \/ _pending_tx_event (snd (track b body ad)) = Some "COMMIT"
  \/ _pending_tx_event (snd (track b body ad)) = Some "ROLLBACK".
Proof.
  revert b ad. induction body as [|a body IH]; intros b ad; cbn [track];
    [auto|].
  destruct b; [destruct a|]; try apply IH;
    match goal with
    | |- context [track true body ?x] =>
        destruct (IH true x) as [H|H]; [rewrite H; cbn|]; auto
    end.
Qed.

Lemma header_set_header name v h : header name (set_header name v h) = Some v.
Proof.
  induction h as [|[k x] h IH]; cbn.
  - now rewrite String.eqb_refl.
  - destruct (k =? name) eqn:Hk; cbn.
    + now rewrite String.eqb_refl.
    + now rewrite Hk.
Qed.

(** *** Set-up and END *)

Lemma bind_run {S A B} (m : M S A) (k : A -> M S B) (s s1 : S) (a : A) :
  m s = (Ok a, s1) -> bind m k s = k a s1.
Proof. intros H. unfold bind. now rewrite H. Qed.

Lemma new_adapter_effect lg tid (s : lstate) :
  exists s', new_adapter lg tid s = (Ok (next_ref s), s') /\
    next_ref s' = S (next_ref s) /\ ctxs s' = ctxs s /\ sink s' = sink s /\
    ticks s' = ticks s /\ draws s' = draws s /\
    deref s' (next_ref s)
      = {| logger := lg; trace_id := tid; _sql_logs := [];
           _method := EmptyString; _path := EmptyString;
           _handler := EmptyString; _pending_tx_event := None |} /\
    forall r, r <> next_ref s -> deref s' r = deref s r.
Proof.
  eexists. split; [reflexivity|]. cbn [next_ref ctxs sink ticks draws].
  repeat split.
  - unfold deref. cbn [heap]. now rewrite lookup_insert_eq.
  - intros r Hr. unfold deref. cbn [heap]. now rewrite lookup_insert_ne.
Qed.

Lemma ctx_set_effect u lg (s : lstate) :
  exists s', ctx_set rand_at u lg None s = (Ok tt, s') /\
    heap s' = heap s /\ next_ref s' = next_ref s /\ sink s' = sink s /\
    ticks s' = ticks s /\ draws s' = S (draws s) /\
    ctx_of s' u
      = {| _logger_var := Some lg;
           _slow_logger_var := _slow_logger_var (ctx_of s u);
           _trace_id_var := Some (uuid_str (rand_at (draws s))) |}.
Proof.
  eexists. split; [reflexivity|]. repeat split.
  rewrite !ctx_of_with_ctx_eq. reflexivity.
Qed.

Lemma ctx_set_slow_effect u lg (s : lstate) :
  exists s', ctx_set_slow rand_at u lg None s = (Ok tt, s') /\
    heap s' = heap s /\ next_ref s' = next_ref s /\ sink s' = sink s /\
    ticks s' = ticks s /\ draws s' = S (draws s) /\
    ctx_of s' u
      = {| _logger_var := _logger_var (ctx_of s u);
           _slow_logger_var := Some lg;
           _trace_id_var := Some (uuid_str (rand_at (draws s))) |}.
Proof.
  eexists. split; [reflexivity|]. repeat split.
  rewrite !ctx_of_with_ctx_eq. reflexivity.
Qed.

Lemma clone_with_logger_effect r new_logger (s : lstate) :
  r < next_ref s ->
  exists s', clone_with_logger r new_logger s = (Ok (next_ref s), s') /\
    next_ref s' = S (next_ref s) /\ ctxs s' = ctxs s /\ sink s' = sink s /\
    ticks s' = ticks s /\ draws s' = draws s /\
    deref s' (next_ref s)
      = {| logger := new_logger; trace_id := trace_id (deref s r);
           _sql_logs := [];
           _method := _method (deref s r); _path := _path (deref s r);
           _handler := _handler (deref s r); _pending_tx_event := None |} /\
    forall r', r' <> next_ref s -> deref s' r' = deref s r'.
Proof.
  intros Hr. unfold clone_with_logger.
  rewrite (bind_run (gets (fun s0 => deref s0 r)) _ s s (deref s r) eq_refl).
  destruct (new_adapter_effect new_logger (trace_id (deref s r)) s)
    as (s1 & Hnew & Hn1 & Hc1 & Hk1 & Ht1 & Hd1 & Hr1 & Ho1).
  rewrite (bind_run _ _ _ _ _ Hnew).
  match goal with
  | |- context [update ?x ?f] =>
      destruct (update_effect x f s1) as (s2 & Hup & (Hn2 & Hc2 & Hk2 & Ht2 & Hd2) & Hr2 & Ho2)
  end.
  rewrite (bind_run _ _ _ _ _ Hup). exists s2.
  split; [reflexivity|]. rewrite Hn2, Hc2, Hk2, Ht2, Hd2.
  repeat split; auto.
  - rewrite Hr2, Hr1. reflexivity.
  - intros r' Hne. rewrite Ho2, Ho1; auto.
Qed.

Lemma set_up_effect u req (s : lstate) :
  let lg := next_ref s in
  let slow := S (next_ref s) in
  let tid := short_id (rand_at (draws s)) in
  exists s1,
    set_up time_at rand_at router_dirs u req s = (Ok (time_at (ticks s), tid, lg, slow), s1) /\
    inv u lg slow tid s1 /\
    is_own u lg s1 = true /\
    _trace_id_var (ctx_of s1 u) = Some (uuid_str (rand_at (S (S (draws s))))) /\
    _sql_logs (deref s1 lg) = [] /\
    _pending_tx_event (deref s1 lg) = None /\
    logger (deref s1 lg) = extract_domain_from_path router_dirs (req_path req) /\
    logger (deref s1 slow) = "slow_query" /\
    sink s1 = sink s.
Proof.
  intros lg slow tid. unfold set_up.
  rewrite (bind_run (time_time time_at) _ s _ _ eq_refl).
  set (sa := {| heap := heap s; next_ref := next_ref s; ctxs := ctxs s;
                sink := sink s; ticks := S (ticks s); draws := draws s |}).
  rewrite (bind_run (urandom rand_at) _ sa _ _ eq_refl).
  set (sb := {| heap := heap sa; next_ref := next_ref sa; ctxs := ctxs sa;
                sink := sink sa; ticks := ticks sa; draws := S (draws sa) |}).
  cbv zeta.
  destruct (new_adapter_effect (extract_domain_from_path router_dirs (req_path req))
              (short_id (rand_at (draws sa))) sb)
    as (sc & Hc & Hnc & Hcc & Hkc & _ & Hdc & Hlgc & Hoc).
  rewrite (bind_run _ _ _ _ _ Hc).
  destruct (clone_with_logger_effect (next_ref sb) "slow_query" sc)
    as (sd & Hd & Hnd & Hcd & Hkd & _ & Hdd & Hslowd & Hod);
    [rewrite Hnc; lia|].
  rewrite Hnc in Hd, Hslowd, Hod, Hnd. rewrite (bind_run _ _ _ _ _ Hd).
  destruct (ctx_set_effect u (next_ref sb) sd)
    as (se & He & Hhe & Hne & Hke & _ & Hde & Hce).
  rewrite (bind_run _ _ _ _ _ He).
  destruct (ctx_set_slow_effect u (S (next_ref sb)) se)
    as (sf & Hf & Hhf & Hnf & Hkf & _ & Hdf & Hcf).
  rewrite (bind_run _ _ _ _ _ Hf).
  unfold start_structured.
  match goal with
  | |- context [update (next_ref sb) ?f] =>
      destruct (update_effect (next_ref sb) f sf)
        as (sg & Hg & (Hng & Hcg & Hkg & _ & _) & Hrg & Hog)
  end.
  rewrite (bind_run _ _ _ _ _ Hg).
  match goal with
  | |- context [update (S (next_ref sb)) ?f] =>
      destruct (update_effect (S (next_ref sb)) f sg)
        as (sh & Hh & (Hnh & Hch & Hkh & _ & _) & Hrh & Hoh)
  end.
  rewrite (bind_run _ _ _ _ _ Hh).
  exists sh. split; [reflexivity|].
  change (next_ref sb) with lg in *. change (S lg) with slow in *.
  change (short_id (rand_at (draws sa))) with tid in *.
  assert (Hlgh : deref sh lg = _ ) by (rewrite Hoh by (subst lg slow; lia); exact Hrg).
  assert (Hlgf : deref sf lg = deref sc lg).
  { rewrite (deref_heap se sf lg Hhf), (deref_heap sd se lg Hhe).
    apply Hod. subst lg slow. lia. }
  assert (Hslowf : deref sf slow = deref sd slow).
  { rewrite (deref_heap se sf slow Hhf), (deref_heap sd se slow Hhe). reflexivity. }
  assert (Hslowg : deref sg slow = deref sf slow)
    by (apply Hog; subst lg slow; lia).
  assert (Hctx : ctx_of sh u
                 = {| _logger_var := Some lg; _slow_logger_var := Some slow;
                      _trace_id_var := Some (uuid_str (rand_at (S (S (draws s))))) |}).
  { rewrite (ctx_of_ctxs sg sh u Hch), (ctx_of_ctxs sf sg u Hcg), Hcf, Hce.
    cbn [_logger_var]. rewrite Hde, Hdd, Hdc. reflexivity. }
  assert (Hnext : next_ref sh = S (S (next_ref s)))
    by (rewrite Hnh, Hng, Hnf, Hne, Hnd; reflexivity).
  unfold inv, is_own. rewrite Hctx, Hnext. cbn [_logger_var _slow_logger_var _trace_id_var].
  rewrite Hrh, Hlgh, Hslowg, Hslowf, Hslowd, Hlgf, Hlgc.
  cbn [trace_id _sql_logs _pending_tx_event logger].
  subst lg slow. rewrite Nat.eqb_refl.
  repeat split; try lia.
  - eexists. split; [reflexivity|]. apply uuid_str_length.
  - eexists. repeat split; lia.
  - rewrite Hkh, Hkg, Hkf, Hke, Hkd, Hkc. reflexivity.
Qed.

Lemma end_structured_effect r status duration (s : lstate) :
  exists s' e tail,
    end_structured kst_at r status duration s = (Ok tt, s') /\
    sink s' = (sink s ++ e :: tail)%list /\
    ev_adapter e = r /\ ev_log_type e = "START" /\
    ev_trace_id e = trace_id (deref s r) /\
    ev_status_code e = Some status /\
    ev_duration_ms e = Some duration /\
    ev_sql e = Some (_sql_logs (deref s r)) /\
    Forall (fun e' => ev_adapter e' = r /\
                      ev_trace_id e' = trace_id (deref s r) /\
                      Some (ev_log_type e') = _pending_tx_event (deref s r)) tail /\
    ctxs s' = ctxs s /\
    forall r', trace_id (deref s' r') = trace_id (deref s r').
Proof.
  unfold end_structured, bind, get_kst_now_str, gets, emit, modify. cbn.
  change (deref {| heap := heap s; next_ref := next_ref s; ctxs := ctxs s;
                   sink := sink s; ticks := S (ticks s); draws := draws s |} r)
    with (deref s r).
  destruct (_pending_tx_event (deref s r)) as [tx|] eqn:Hp.
  - destruct (tx =? EmptyString) eqn:Htx.
    + eexists _, _, []. cbn. split; [reflexivity|]. cbn. repeat split.
      constructor.
    + eexists _, _, [_]. unfold set_pending, update, modify, ret. cbn.
      split; [reflexivity|]. cbn. rewrite <- app_assoc. cbn.
      split; [reflexivity|]. unfold deref at 1 2 3. cbn.
      repeat split.
      * constructor; [|constructor]. cbn. unfold deref. cbn. auto.
      * intros r'. unfold deref. cbn.
        destruct (decide (r = r')) as [<-|Hne].
        -- rewrite lookup_insert_eq. reflexivity.
        -- rewrite lookup_insert_ne by exact Hne. reflexivity.
  - eexists _, _, []. cbn. split; [reflexivity|]. cbn. repeat split.
    constructor.
Qed.

(** A request that completes went through its set-up, the handler body,
    the header and the END log, in this order. *)
Lemma custom_handler_Ok u req body outcome (s s' : lstate) resp :
  custom_handler settings time_at kst_at rand_at router_dirs u req body outcome s
    = (Ok resp, s') ->
  exists s1 s2 resp0,
    set_up time_at rand_at router_dirs u req s
      = (Ok (time_at (ticks s), short_id (rand_at (draws s)), next_ref s,
             S (next_ref s)), s1) /\
    actions_of u body s1 = (Ok tt, s2) /\
    outcome = Ok resp0 /\
    resp = {| status_code := status_code resp0;
              headers := set_header "X-Trace-Id" (short_id (rand_at (draws s)))
                           (headers resp0) |} /\
    end_structured kst_at (next_ref s) (status_code resp)
      (round2 (PrimFloat.mul
                 (PrimFloat.sub (time_at (ticks s2)) (time_at (ticks s))) 1000))
      {| heap := heap s2; next_ref := next_ref s2; ctxs := ctxs s2;
         sink := sink s2; ticks := S (ticks s2); draws := draws s2 |}
      = (Ok tt, s').
Proof.
  intros H. unfold custom_handler in H.
  apply bind_Ok in H as ([[[start tid] lg] slow] & s1 & Hset & H).
  destruct (set_up_effect u req s) as (s1' & Hset' & _).
  rewrite Hset' in Hset. injection Hset as <- <- <- <- <-.
  apply bind_Ok in H as (resp1 & s2 & Hh & H).
  apply try_except_reraise_Ok in Hh.
  apply bind_Ok in Hh as (resp0 & s2' & Hh & Hret).
  apply ret_Ok in Hret as [-> ->].
  unfold original_handler in Hh. apply bind_Ok in Hh as ([] & s2'' & Hbody & Hout).
  apply lift_res_Ok in Hout as [-> ->].
  apply bind_Ok in H as (t & s3 & Ht & H).
  unfold time_time in Ht. injection Ht as <- <-.
  apply bind_Ok in H as ([] & s4 & Hend & H).
  apply ret_Ok in H as [-> ->].
  eexists _, _, _. repeat split; eauto.
Qed.

(** C10.  After the set-up of a request the context of its unit holds, as
    trace id, the full UUID drawn by [set_slow] (the third draw: the first
    is the trace id of the request, the second the UUID of [set]); it has
    36 characters where the trace id of the two adapters, of their records
    and of the response header has 8, and this stays so through the
    handler and to the end of the request. *)
Theorem context_trace_id_differs u req (s : lstate) :
  let lg := next_ref s in
  let slow := S (next_ref s) in
  let tid := short_id (rand_at (draws s)) in
  exists s1,
    set_up time_at rand_at router_dirs u req s = (Ok (time_at (ticks s), tid, lg, slow), s1) /\
    trace_id (deref s1 lg) = tid /\
    trace_id (deref s1 slow) = tid /\
    String.length tid = 8 /\
    ctx_get_trace_id u s1 = (Ok (uuid_str (rand_at (S (S (draws s))))), s1) /\
    (forall body s2,
       actions_of u body s1 = (Ok tt, s2) ->
       exists full,
         ctx_get_trace_id u s2 = (Ok full, s2) /\
         String.length full = 36 /\ full <> tid /\
         trace_id (deref s2 lg) = tid /\ trace_id (deref s2 slow) = tid) /\
    (forall body outcome resp s',
       custom_handler settings time_at kst_at rand_at router_dirs u req body outcome s
         = (Ok resp, s') ->
       header "X-Trace-Id" (headers resp) = Some tid /\
       exists full,
         ctx_get_trace_id u s' = (Ok full, s') /\
         String.length full = 36 /\ full <> tid).
Proof.
  intros lg slow tid.
  destruct (set_up_effect u req s)
    as (s1 & Hset & Hinv & Hown & Hvar & _).
  fold lg slow tid in Hset, Hinv, Hown.
  assert (Hlen : String.length tid = 8) by apply short_id_length.
  assert (Hget : forall st full, _trace_id_var (ctx_of st u) = Some full ->
                   ctx_get_trace_id u st = (Ok full, st)).
  { intros st full Hst. unfold ctx_get_trace_id, try_except, trace_id_var_get.
    now rewrite Hst. }
  assert (Hbody : forall body s2,
            actions_of u body s1 = (Ok tt, s2) ->
            inv u lg slow tid s2 /\
            exists full, ctx_get_trace_id u s2 = (Ok full, s2) /\
              String.length full = 36 /\ full <> tid).
  { intros body s2 Hrun.
    destruct (run_actions_inv u lg slow tid body s1 s2 Hinv Hrun) as (Hinv2 & _).
    split; [exact Hinv2|].
    destruct Hinv2 as (_ & _ & _ & _ & _ & _ & (full & Hfull & Hl) & _).
    exists full. split; [apply Hget, Hfull|]. split; [exact Hl|].
    intros Heq. rewrite Heq, Hlen in Hl. discriminate. }
  exists s1. split; [exact Hset|].
  destruct Hinv as (_ & _ & _ & Htl & Hts & _).
  split; [exact Htl|]. split; [exact Hts|]. split; [exact Hlen|].
  split; [apply Hget, Hvar|]. split.
  - intros body s2 Hrun. destruct (Hbody body s2 Hrun) as (Hinv2 & full & Hf).
    exists full. destruct Hinv2 as (_ & _ & _ & Htl2 & Hts2 & _). tauto.
  - intros body outcome resp s' Hrun.
    apply custom_handler_Ok in Hrun
      as (s1' & s2 & resp0 & Hset' & Hact & _ & -> & Hend).
    fold lg slow tid in Hset'. rewrite Hset in Hset'. injection Hset' as <-.
    split; [apply header_set_header|].
    destruct (Hbody body s2 Hact) as (Hinv2 & _).
    destruct Hinv2 as (_ & _ & _ & _ & _ & _ & (full & Hfull & Hl) & _).
    match type of Hend with
    | end_structured _ ?r ?st ?d ?s0 = _ =>
        destruct (end_structured_effect r st d s0)
          as (s'' & e & tail & Hrun' & _ & _ & _ & _ & _ & _ & _ & _ & Hctx & _)
    end.
    rewrite Hrun' in Hend. injection Hend as <-.
    exists full. split; [|split; [exact Hl|]].
    + apply Hget. rewrite (ctx_of_ctxs s2 s'' u) by exact Hctx. exact Hfull.
    + intros Heq. rewrite Heq, Hlen in Hl. discriminate.
Qed.

(** C1 (as amended).  A request that completes: the [X-Trace-Id] header
    of the response is the short trace id drawn at entry; that id is the
    trace id of the primary and of the slow adapter; the request logs
    exactly one END record (log type [START], with the status code), which
    carries that id and, as its SQL list, the statements buffered by the
    handler; the slow query records logged on the way carry it too, and so
    does the pending COMMIT or ROLLBACK record that may follow the END
    record.  The only other records of the request are DEBUG records the
    endpoint writes through an adapter that is neither of these two; they
    need not carry that id. *)
Theorem request_trace_id u req body outcome (s s' : lstate) resp :
  custom_handler settings time_at kst_at rand_at router_dirs u req body outcome s
    = (Ok resp, s') ->
  let lg := next_ref s in
  let slow := S (next_ref s) in
  let tid := short_id (rand_at (draws s)) in
  header "X-Trace-Id" (headers resp) = Some tid /\
  trace_id (deref s' lg) = tid /\
  trace_id (deref s' slow) = tid /\
  exists during e tail,
    sink s' = (sink s ++ during ++ e :: tail)%list /\
    ev_adapter e = lg /\
    ev_log_type e = "START" /\
    ev_status_code e = Some (status_code resp) /\
    ev_trace_id e = tid /\
    ev_sql e = Some (buffered body) /\
    Forall (from_body lg slow tid) during /\
    Forall (fun e' => ev_adapter e' = lg /\ ev_trace_id e' = tid /\
                      (ev_log_type e' = "COMMIT" \/ ev_log_type e' = "ROLLBACK"))
           tail.
Proof.
  intros Hrun lg slow tid. subst lg slow tid.
  apply custom_handler_Ok in Hrun
    as (s1 & s2 & resp0 & Hset & Hact & _ & Hresp & Hend).
  destruct (set_up_effect u req s)
    as (s1' & Hset' & Hinv & Hown & _ & Hlogs & Hpend & _ & _ & Hsink1).
  rewrite Hset' in Hset. injection Hset as ->.
  destruct (run_actions_inv u _ _ _ body s1 s2 Hinv Hact)
    as (Hinv2 & (during & Hsink2 & Hduring) & Htrack).
  rewrite Hown in Htrack.
  assert (Hlg2 : deref s2 (next_ref s)
                 = snd (track true body (deref s1 (next_ref s))))
    by (now rewrite <- Htrack).
  destruct Hinv2 as (_ & _ & _ & Htl2 & Hts2 & _).
  match type of Hend with
  | end_structured _ ?r ?st ?d ?s0 = _ =>
      destruct (end_structured_effect r st d s0)
        as (s'' & e & tail & Hrun' & Hsink & Hea & Hety & Hetid & Hest & _ &
            Hesql & Htail & _ & Htids)
  end.
  rewrite Hrun' in Hend. injection Hend as <-.
  change (deref {| heap := heap s2; next_ref := next_ref s2; ctxs := ctxs s2;
                   sink := sink s2; ticks := S (ticks s2); draws := draws s2 |})
    with (deref s2) in *.
  cbn [sink] in Hsink.
  split; [rewrite Hresp; apply header_set_header|].
  split; [rewrite Htids; exact Htl2|].
  split; [rewrite Htids; exact Hts2|].
  exists during, e, tail.
  split; [rewrite Hsink, Hsink2, Hsink1, <- app_assoc; reflexivity|].
  split; [exact Hea|]. split; [exact Hety|]. split; [exact Hest|].
  split; [rewrite Hetid; exact Htl2|].
  split.
  { rewrite Hesql, Hlg2, track_sql_logs, Hlogs. reflexivity. }
  split; [exact Hduring|].
  eapply List.Forall_impl; [|exact Htail]. cbn. intros e' (Ha & Ht & Hp).
  split; [exact Ha|]. split; [now rewrite Ht|].
  rewrite Hlg2 in Hp.
  destruct (track_pending true body (deref s1 (next_ref s))) as [H|[H|H]];
    rewrite H in Hp.
  - rewrite Hpend in Hp. discriminate.
  - injection Hp as ->. now left.
  - injection Hp as ->. now right.
Qed.

End Request.

(** *** The pipeline at work *)

Import Traffic.

(** The first request: header, END record and slow query record under one
    trace id. *)
Lemma request_trace_id_witness :
  let tid := short_id (random 0) in
  header "X-Trace-Id" (headers {| status_code := 200;
                                  headers := [("X-Trace-Id", tid)] |}) = Some tid /\
  trace_id (deref (snd first_request) 0) = tid /\
  trace_id (deref (snd first_request) 1) = tid /\
  exists during e tail,
    sink (snd first_request) = (sink boot ++ during ++ e :: tail)%list /\
    ev_adapter e = 0 /\
    ev_log_type e = "START" /\
    ev_status_code e = Some 200%Z /\
    ev_trace_id e = tid /\
    ev_sql e = Some (buffered [select_employee; Commit]) /\
    Forall (from_body 0 1 tid) during /\
    Forall (fun e' => ev_adapter e' = 0 /\ ev_trace_id e' = tid /\
                      (ev_log_type e' = "COMMIT" \/ ev_log_type e' = "ROLLBACK"))
           tail.
Proof.
  assert (Hrun : custom_handler default_settings clock kst random routers_v1 0
                   get_employee [select_employee; Commit] (Ok ok_response) boot
                 = (Ok {| status_code := 200;
                          headers := [("X-Trace-Id", short_id (random 0))] |},
                    snd first_request))
    by (vm_compute; reflexivity).
  exact (request_trace_id default_settings clock kst random routers_v1 0 get_employee
           [select_employee; Commit] (Ok ok_response) boot (snd first_request)
           _ Hrun).
Defined.

(** C1 as written does not hold.  The [test_debug] endpoint makes an
    adapter of its own with a full UUID and logs through it while the
    request is handled: the request completes, its header carries the short
    id, and one of the records it logged carries another, 36 characters
    long. *)
Lemma request_trace_id_claim_fails :
  exists resp s' e,
    custom_handler default_settings clock kst random routers_v1 0
      get_test_debug [TestDebug get_test_debug] (Ok ok_response) boot
      = (Ok resp, s') /\
    header "X-Trace-Id" (headers resp) = Some "123e4567" /\
    In e (sink s') /\
    ev_log_type e = "DEBUG_STRUCTURED" /\
    ev_trace_id e = "123e456a-e89b-42d6-a456-426614174003" /\
    Some (ev_trace_id e) <> header "X-Trace-Id" (headers resp).
Proof.
  assert (Hrun : custom_handler default_settings clock kst random routers_v1 0
                   get_test_debug [TestDebug get_test_debug] (Ok ok_response)
                   boot
                 = debug_request) by (vm_compute; reflexivity).
  exists {| status_code := 200; headers := [("X-Trace-Id", "123e4567")] |}.
  exists (snd debug_request).
  exists (nth 0 (sink (snd debug_request))
            (build_extra 0 blank EmptyString None None None None None
               EmptyString)).
  split; [exact Hrun|]. split; [reflexivity|].
  split; [left; reflexivity|]. split; [reflexivity|].
  split; [reflexivity|discriminate].
Qed.

(** What the first request logged: the slow query, the END record and
    the pending COMMIT, in this order and under the same trace id. *)
Example first_request_log :
  map (fun e => (ev_logger e, ev_log_type e, ev_trace_id e, ev_duration_ms e))
      (sink (snd first_request))
  = [("slow_query", "SLOW_QUERY", "123e4567", Some 3000%float);
     ("employee", "START", "123e4567", Some 3500%float);
     ("employee", "COMMIT", "123e4567", None)].
Proof. vm_compute. reflexivity. Qed.

(** During that request the context answers a full UUID. *)
Example first_request_context_trace_id :
  fst (ctx_get_trace_id 0 (snd first_request))
  = Ok "123e4569-e89b-42d5-a456-426614174002".
Proof. vm_compute. reflexivity. Qed.

(** A statement sleeping 1.5 s under a threshold of 1.0 s: one record of
    1500 ms. *)
Example sleep_is_logged :
  fst sleep_after = Ok tt /\
  map (fun e => (ev_logger e, ev_log_type e, ev_trace_id e, ev_duration_ms e,
                 ev_sql e))
      (sink (snd sleep_after))
  = [("slow_query", "SLOW_QUERY", "unknown", Some 1500%float,
      Some [("SELECT SLEEP(1.5)", VDict [])])].
Proof. split; vm_compute; reflexivity. Qed.

(** The hooks before any request has set a context *)
Lemma hooks_without_context_witness :
  before_cursor_execute clock 0 "SELECT 1" (VList []) true boot
    = (Ok (clock 0),
       {| heap := heap boot; next_ref := next_ref boot; ctxs := ctxs boot;
          sink := sink boot; ticks := S (ticks boot); draws := draws boot |}).
Proof.
  exact (proj1 (hooks_without_context default_settings clock kst 0 "SELECT 1"
                  (VList []) true boot eq_refl eq_refl)).
Defined.

(** Unit 0 between two of its own calls, with units 1 and 2 busy *)
Lemma context_isolation_witness :
  observe 0 (run_schedule default_settings clock kst random routers_v1 others unit0_ready)
  = observe 0 unit0_ready.
Proof.
  refine (proj2 (context_isolation default_settings clock kst random routers_v1 0 others
                   unit0_ready _)).
  intros v op Hin. cbn in Hin.
  repeat (destruct Hin as [[= <- <-]|Hin]; [discriminate|]). destruct Hin.
Defined.

Example unit0_observes :
  observe 0 (run_schedule default_settings clock kst random routers_v1 others unit0_ready)
  = (Ok 0, Ok 1, Ok "123e4569-e89b-42d5-a456-426614174002").
Proof. vm_compute. reflexivity. Qed.

End LoggingFacts.

(* ===================================================================== *)
(** ** More on the audit history and the transaction boundary             *)
(* ===================================================================== *)

Module AuditFacts.
Import Decorator MonadFacts HistoryFacts CallLog.

Section Inversion.
Context {S A B : Type}.

Lemma bind_Raise (m : M S A) (k : A -> M S B) s e s' :
  bind m k s = (Raise e, s') ->
  m s = (Raise e, s') \/ exists a s1, m s = (Ok a, s1) /\ k a s1 = (Raise e, s').
Proof.
  unfold bind. destruct (m s) as [[a|e0] s1]; [eauto|].
  intros [= -> ->]. now left.
Qed.

Lemma try_except_Ok (m : M S A) c (h : exn -> M S A) s a s' :
  try_except m c h s = (Ok a, s') ->
  m s = (Ok a, s') \/
  exists e s1, m s = (Raise e, s1) /\ c e = true /\ h e s1 = (Ok a, s').
Proof.
  unfold try_except. destruct (m s) as [[a0|e] s1]; [now left|].
  destruct (c e) eqn:Hc; [|discriminate]. right. eauto.
Qed.

Lemma bind_ext (m : M S A) (k k' : A -> M S B) s :
  (forall a s1, k a s1 = k' a s1) -> bind m k s = bind m k' s.
Proof. intros H. unfold bind. destruct (m s) as [[a|e] s1]; auto. Qed.

Lemma bind_assoc {C} (m : M S A) (k : A -> M S B) (h : B -> M S C) s :
  bind (bind m k) h s = bind m (fun a => bind (k a) h) s.
Proof. unfold bind. destruct (m s) as [[a|e] s1]; reflexivity. Qed.

End Inversion.

Section Grows.
Variable W : Type.
Variable P : call -> Prop.

Lemma grows_ret {A} (a : A) : grows P (ret (S := state W) a).
Proof. intros s r s' [= <- <-]. exists []. now rewrite app_nil_r. Qed.

Lemma grows_raise {A} e : grows P (@raise (state W) A e).
Proof. intros s r s' [= <- <-]. exists []. now rewrite app_nil_r. Qed.

Lemma grows_lift_res {A} (x : res A) : grows P (lift_res (S := state W) x).
Proof. intros s r s' [= <- <-]. exists []. now rewrite app_nil_r. Qed.

Lemma grows_gets {A} (f : state W -> A) : grows P (gets f).
Proof. intros s r s' [= <- <-]. exists []. now rewrite app_nil_r. Qed.

Lemma grows_record c : P c -> grows P (record W c).
Proof. intros Hc s r s' [= <- <-]. exists [c]. cbn. auto. Qed.

Lemma grows_ask {A} (c : W -> res A * W) : grows P (ask W c).
Proof.
  intros s r s'. unfold ask. destruct (c (env s)) as [x w].
  intros [= <- <-]. exists []. cbn. now rewrite app_nil_r.
Qed.

Lemma grows_bind {A B} (m : M (state W) A) (k : A -> M (state W) B) :
  grows P m -> (forall a, grows P (k a)) -> grows P (bind m k).
Proof.
  intros Hm Hk s r s'. unfold bind.
  destruct (m s) as [[a|e] s1] eqn:H1.
  - intros H2. destruct (Hm _ _ _ H1) as (l1 & E1 & F1).
    destruct (Hk a _ _ _ H2) as (l2 & E2 & F2).
    exists (l1 ++ l2)%list. rewrite E2, E1, app_assoc. split; [reflexivity|].
    apply Forall_app. auto.
  - intros [= <- <-]. exact (Hm _ _ _ H1).
Qed.

End Grows.

Section Facts.

Variable W : Type.
Variable func : list value -> pydict -> W -> res value * W.
Variable session_commit session_rollback : nat -> W -> res unit * W.
Variable get_by_seq : string -> value -> value -> W -> res value * W.
Variable save : string -> value -> history_entity -> W -> res unit * W.
Variable utc_now : W -> Z.

Local Abbreviation history entity action sig f :=
  (History W get_by_seq save utc_now entity action sig f).
Local Abbreviation transactional sig f :=
  (Transactional W session_commit session_rollback sig f).
Local Abbreviation before_phase := (CallLog.before_phase W get_by_seq).
Local Abbreviation after_phase := (CallLog.after_phase W).
Local Abbreviation prepare := (CallLog.prepare W func get_by_seq utc_now).

Lemma grows_provide name : grows quiet (provide W name).
Proof.
  unfold provide. destruct (mem_string name registry).
  - apply grows_record. exact I.
  - apply grows_raise.
Qed.

Lemma grows_wrapped args kwargs : grows quiet (wrapped W func args kwargs).
Proof.
  unfold wrapped. apply grows_bind; [apply grows_record; exact I|].
  intros _. apply grows_ask.
Qed.

Lemma grows_repo_get_by_seq entity db seq :
  grows quiet (repo_get_by_seq W get_by_seq entity db seq).
Proof.
  unfold repo_get_by_seq. apply grows_bind; [apply grows_record; exact I|].
  intros _. apply grows_ask.
Qed.

Lemma grows_before_phase action entity db entity_seq :
  grows quiet (before_phase action entity db entity_seq).
Proof.
  unfold CallLog.before_phase.
  destruct (negb (action =? "INSERT") && truthy entity_seq);
    [|apply grows_ret].
  apply grows_bind; [apply grows_repo_get_by_seq|]. intros x.
  destruct (truthy x); [|apply grows_ret].
  apply grows_bind; [apply grows_lift_res|]. intros d. apply grows_ret.
Qed.

Lemma grows_after_phase action entity_seq result :
  grows quiet (after_phase action entity_seq result).
Proof.
  unfold CallLog.after_phase. destruct (action =? "DELETE"); [apply grows_ret|].
  apply grows_bind; [apply grows_lift_res|]. intros d.
  apply grows_bind; [apply grows_lift_res|]. intros x. apply grows_ret.
Qed.

Lemma after_phase_state action entity_seq result (s s' : state W) out :
  after_phase action entity_seq result s = (out, s') -> s' = s.
Proof.
  unfold CallLog.after_phase. destruct (action =? "DELETE"); [now intros [= _ <-]|].
  unfold bind, lift_res, ret.
  destruct (obj_dict result); [|now intros [= _ <-]].
  destruct (getattr result "seq"); now intros [= _ <-].
Qed.

Lemma grows_prepare entity action args kwargs db entity_seq :
  grows quiet (prepare entity action args kwargs db entity_seq).
Proof.
  unfold CallLog.prepare.
  apply grows_bind; [apply grows_provide|]. intros _.
  apply grows_bind; [apply grows_before_phase|]. intros bd.
  apply grows_bind; [apply grows_wrapped|]. intros r.
  apply grows_bind; [apply grows_after_phase|]. intros a.
  apply grows_bind.
  { unfold load_history_modules. destruct (mem_string entity history_modules);
      [apply grows_ret|apply grows_raise]. }
  intros _. apply grows_bind; [apply grows_gets|]. intros now.
  apply grows_bind; [apply grows_provide|]. intros _. apply grows_ret.
Qed.

(** The wrapper is the preparation followed by the hand-over. *)
Lemma history_unfold entity action sig args kwargs bound (s : state W) :
  bind_partial sig args kwargs = Ok bound ->
  is_None (dict_get bound "db") = false ->
  history entity action sig (wrapped W func) args kwargs s
  = bind (prepare entity action args kwargs (dict_get bound "db")
            (extract_entity_seq entity args kwargs sig))
      (fun p => do* save_history W save entity (dict_get bound "db") (snd p) in
                ret (fst p)) s.
Proof.
  intros Hb Hdb. unfold History.
  unfold bind at 1. unfold lift_res at 1. rewrite Hb, Hdb.
  unfold CallLog.prepare.
  rewrite bind_assoc. apply bind_ext. intros _ s1.
  rewrite bind_assoc. apply bind_ext. intros bd s2.
  rewrite bind_assoc. apply bind_ext. intros r s3.
  rewrite bind_assoc. apply bind_ext. intros a s4.
  rewrite bind_assoc. apply bind_ext. intros _ s5.
  rewrite bind_assoc. apply bind_ext. intros now s6.
  rewrite bind_assoc. apply bind_ext. intros _ s7.
  reflexivity.
Qed.


Lemma grows_weaken {A} (P Q : call -> Prop) (m : M (state W) A) :
  (forall c, P c -> Q c) -> grows P m -> grows Q m.
Proof.
  intros HPQ Hm s r s' H. destruct (Hm s r s' H) as (l & E & F).
  exists l. split; [exact E|]. eapply List.Forall_impl; [|exact F]. exact HPQ.
Qed.

(** What the preparation answers when it returns. *)
Lemma prepare_Ok entity action args kwargs db id (s s' : state W) r dom :
  prepare entity action args kwargs db id s = (Ok (r, dom), s') ->
  exists bd w0 w1 after,
    before_phase action entity db id
      {| env := env s;
         calls := (calls s ++ [CallProvider (entity +:+ "_repository")])%list |}
      = (Ok bd,
         {| env := w0;
            calls := (calls s ++ [CallProvider (entity +:+ "_repository")] ++
                        (if negb (action =? "INSERT") && truthy id
                         then [CallGetBySeq entity db id] else []))%list |}) /\
    func args kwargs w0 = (Ok r, w1) /\
    after_phase action id r {| env := w1; calls := [] |}
      = (Ok after, {| env := w1; calls := [] |}) /\
    dom = {| d_entity_seq := snd after;
             d_action_type := action;
             d_username := dict_get kwargs "username";
             d_created_at := (utc_now w1 + 9 * 3600 * 1000000)%Z;
             d_seq := VNone;
             d_before_value := dumps_or_none bd;
             d_after_value := dumps_or_none (fst after) |} /\
    s' = {| env := w1;
            calls := (calls s ++ [CallProvider (entity +:+ "_repository")] ++
                        (if negb (action =? "INSERT") && truthy id
                         then [CallGetBySeq entity db id] else []) ++
                        [CallFunc args kwargs;
                         CallProvider (entity +:+ "_history_repository")])%list |}.
Proof.
  intros H. unfold CallLog.prepare in H.
  apply bind_Ok in H as (u1 & s1 & Hp & H). apply provide_Ok in Hp. subst s1.
  apply bind_Ok in H as (bd & s2 & Hbd & H).
  apply bind_Ok in H as (r' & s3 & Hf & H).
  apply wrapped_Ok in Hf as (w1 & Hf & ->).
  apply bind_Ok in H as (after & s4 & Ha & H).
  pose proof (after_phase_state _ _ _ _ _ _ Ha) as ->.
  apply bind_Ok in H as (u2 & s5 & Hl & H).
  apply load_history_modules_Ok in Hl as [_ ->].
  apply bind_Ok in H as (now & s6 & Hn & H). apply ret_Ok in Hn as [-> ->].
  apply bind_Ok in H as (u3 & s7 & Hp2 & H). apply provide_Ok in Hp2. subst s7.
  apply ret_Ok in H as [[= -> ->] ->].
  assert (Hs2 : s2 = {| env := env s2;
                        calls := (calls s ++
                          [CallProvider (entity +:+ "_repository")] ++
                          (if negb (action =? "INSERT") && truthy id
                           then [CallGetBySeq entity db id] else []))%list |}).
  { unfold CallLog.before_phase in Hbd.
    destruct (negb (action =? "INSERT") && truthy id).
    - apply bind_Ok in Hbd as (x & s8 & Hg & Hbd).
      apply repo_get_by_seq_Ok in Hg as (w0 & Hg & ->).
      destruct (truthy x).
      + apply bind_Ok in Hbd as (d & s9 & Hd & Hbd).
        apply lift_res_Ok in Hd as [_ ->]. apply ret_Ok in Hbd as [_ ->].
        cbn. now rewrite <- app_assoc.
      + apply ret_Ok in Hbd as [_ ->]. cbn. now rewrite <- app_assoc.
    - apply ret_Ok in Hbd as [_ ->]. cbn. reflexivity. }
  exists bd, (env s2), w1, after. split; [|split; [|split; [|split]]].
  - rewrite Hbd. f_equal. exact Hs2.
  - exact Hf.
  - unfold CallLog.after_phase in *.
    destruct (action =? "DELETE").
    + apply ret_Ok in Ha as [-> _]. reflexivity.
    + apply bind_Ok in Ha as (d & s8 & Hd & Ha).
      apply lift_res_Ok in Hd as [Hd ->].
      apply bind_Ok in Ha as (x & s9 & Hx & Ha).
      apply lift_res_Ok in Hx as [Hx ->]. apply ret_Ok in Ha as [-> _].
      unfold bind, lift_res. rewrite Hd, Hx. reflexivity.
  - reflexivity.
  - cbn [env calls]. f_equal. rewrite Hs2. cbn [calls].
    rewrite <- !app_assoc. reflexivity.
Qed.

(** What the lookup phase answers, with and without a lookup. *)
Lemma before_phase_Ok action entity db id (s s' : state W) bd :
  before_phase action entity db id s = (Ok bd, s') ->
  if negb (action =? "INSERT") && truthy id
  then exists fetched,
         get_by_seq entity db id (env s) = (Ok fetched, env s') /\
         bd = match fetched with
              | VObj _ d => Some (clean_dict d)
              | _ => None
              end
  else env s' = env s /\ bd = None.
Proof.
  unfold CallLog.before_phase.
  destruct (negb (action =? "INSERT") && truthy id).
  - intros H. apply bind_Ok in H as (x & s1 & Hg & H).
    apply repo_get_by_seq_Ok in Hg as (w0 & Hg & ->).
    exists x. destruct (truthy x) eqn:Hx.
    + apply bind_Ok in H as (d & s2 & Hd & H).
      apply lift_res_Ok in Hd as [Hd ->]. apply ret_Ok in H as [-> ->].
      split; [exact Hg|]. destruct x; try discriminate. now injection Hd as ->.
    + apply ret_Ok in H as [-> ->]. split; [exact Hg|].
      destruct x; try discriminate; reflexivity.
  - intros H. apply ret_Ok in H as [-> ->]. auto.
Qed.

(** X1.  An UPDATE-audited call that completes has stored one history
    row after the wrapped function: its before value is the snapshot of
    what the lookup returned, the lookup being made before the wrapped
    function and only for a truthy identifier; its after value is the
    snapshot of the returned object; and its entity id is the [seq] of the
    returned object, not the identifier found in the arguments. *)
Theorem history_update_record entity sig args kwargs (s s' : state W) r :
  history entity "UPDATE" sig (wrapped W func) args kwargs s = (Ok r, s') ->
  exists bound w0 w1 d seqv row,
    let id := extract_entity_seq entity args kwargs sig in
    let db := dict_get bound "db" in
    bind_partial sig args kwargs = Ok bound /\
    (if truthy id
     then exists fetched,
            get_by_seq entity db id (env s) = (Ok fetched, w0) /\
            before_value row = match fetched with
                               | VObj _ d0 => dumps_or_none (Some (clean_dict d0))
                               | _ => None
                               end
     else w0 = env s /\ before_value row = None) /\
    func args kwargs w0 = (Ok r, w1) /\
    obj_dict r = Ok d /\
    getattr r "seq" = Ok seqv /\
    after_value row = Some (Json.dumps_sorted (clean_dict d)) /\
    entity_seq row = seqv /\
    action_type row = "UPDATE" /\
    calls s' = (calls s ++ [CallProvider (entity +:+ "_repository")] ++
                  (if truthy id then [CallGetBySeq entity db id] else []) ++
                  [CallFunc args kwargs;
                   CallProvider (entity +:+ "_history_repository");
                   CallSaveHistory entity db row])%list.
Proof.
  intros H.
  assert (Hb : exists bound, bind_partial sig args kwargs = Ok bound /\
                             is_None (dict_get bound "db") = false).
  { unfold History in H. apply bind_Ok in H as (bound & s0 & Hb & H).
    apply lift_res_Ok in Hb as [Hb ->]. exists bound. split; [exact Hb|].
    destruct (is_None (dict_get bound "db")); [now apply raise_Ok in H|auto]. }
  destruct Hb as (bound & Hb & Hdb).
  rewrite (history_unfold _ _ _ _ _ _ _ Hb Hdb) in H.
  apply bind_Ok in H as ([r0 dom] & s1 & Hprep & H).
  apply bind_Ok in H as (u & s2 & Hsv & H).
  apply ret_Ok in H as [-> ->]. cbn [fst snd] in *.
  apply save_history_Ok in Hsv as (w2 & Hsv & ->).
  apply prepare_Ok in Hprep as (bd & w0 & w1 & after & Hbd & Hf & Ha & -> & ->).
  apply before_phase_Ok in Hbd. cbn [env calls] in Hbd.
  change (negb ("UPDATE" =? "INSERT")) with true in *. cbn [andb] in *.
  unfold CallLog.after_phase in Ha.
  change ("UPDATE" =? "DELETE") with false in Ha. cbn match in Ha.
  apply bind_Ok in Ha as (d & s8 & Hd & Ha). apply lift_res_Ok in Hd as [Hd ->].
  apply bind_Ok in Ha as (x & s9 & Hx & Ha). apply lift_res_Ok in Hx as [Hx ->].
  apply ret_Ok in Ha as [-> _]. cbn [fst snd] in *.
  match type of Hsv with
  | save _ _ ?row _ = _ => exists bound, w0, w1, d, x, row
  end. cbn zeta.
  split; [exact Hb|]. split.
  { destruct (truthy (extract_entity_seq entity args kwargs sig)).
    - destruct Hbd as (fetched & Hg & ->). exists fetched.
      split; [exact Hg|]. cbn. destruct fetched; reflexivity.
    - destruct Hbd as [-> ->]. split; reflexivity. }
  split; [exact Hf|]. split; [exact Hd|]. split; [exact Hx|].
  split.
  { cbn. destruct r0 as [| | | | | |rr dd|]; try discriminate.
    cbn in Hd, Hx. injection Hd as ->.
    destruct (dict_find d "seq") as [y|] eqn:Hy; [|discriminate].
    exact (snapshot_with_seq d y Hy). }
  split; [reflexivity|]. split; [reflexivity|].
  cbn [env calls]. rewrite <- !app_assoc. reflexivity.
Qed.

(** X2.  When the wrapper raises, no history row has been stored: the
    calls it made are to the container, the lookup and the wrapped function
    only, unless it is the history write itself that raised, which is then
    the last call. *)
Theorem history_failure_leaves_no_row entity action sig args kwargs
    (s s' : state W) e :
  history entity action sig (wrapped W func) args kwargs s = (Raise e, s') ->
  exists l, calls s' = (calls s ++ l)%list /\
    (Forall quiet l \/
     exists pre db row w w',
       l = (pre ++ [CallSaveHistory entity db row])%list /\
       Forall quiet pre /\ save entity db row w = (Raise e, w')).
Proof.
  intros H.
  destruct (bind_partial sig args kwargs) as [bound|e0] eqn:Hb.
  2:{ unfold History, bind, lift_res in H. rewrite Hb in H.
      injection H as _ <-. exists []. rewrite app_nil_r. auto. }
  destruct (is_None (dict_get bound "db")) eqn:Hdb.
  { unfold History, bind, lift_res in H. rewrite Hb, Hdb in H.
    injection H as _ <-. exists []. rewrite app_nil_r. auto. }
  rewrite (history_unfold _ _ _ _ _ _ _ Hb Hdb) in H.
  apply bind_Raise in H as [H|([r dom] & s1 & Hprep & H)].
  - destruct (grows_prepare _ _ _ _ _ _ _ _ _ H) as (l & E & F).
    exists l. auto.
  - destruct (grows_prepare _ _ _ _ _ _ _ _ _ Hprep) as (pre & E & F).
    cbn [fst snd] in H.
    apply bind_Raise in H as [H|(u & s2 & _ & H)]; [|discriminate].
    unfold save_history in H.
    apply bind_Raise in H as [H|(u & s2 & Hrec & H)]; [discriminate|].
    apply record_Ok in Hrec. subst s2. unfold ask in H. cbn [env calls] in H.
    destruct (save entity (dict_get bound "db") (domain_to_entity dom) (env s1))
      as [rr w'] eqn:Hsave.
    injection H as -> <-. cbn [calls].
    exists (pre ++ [CallSaveHistory entity (dict_get bound "db")
                      (domain_to_entity dom)])%list.
    rewrite E, <- app_assoc. split; [reflexivity|]. right.
    eexists pre, _, _, _, _. eauto.
Qed.


Lemma db_commit_Ok db (s s' : state W) u :
  db_commit W session_commit db s = (Ok u, s') ->
  exists sid, db = VSession sid /\
              calls s' = (calls s ++ [CallCommit sid])%list.
Proof.
  unfold db_commit. destruct db; try discriminate. intros H.
  apply bind_Ok in H as (u' & s1 & Hr & H). apply record_Ok in Hr. subst s1.
  apply ask_Ok in H as (w & _ & ->). eauto.
Qed.

(** X3.  The two wrappers stacked as the services declare them
    ([@Transactional] over [@History]): in a call that returns, the history
    row is handed over before the transaction is committed; [commit()] is
    the last call made and the only call the wrappers make on the session,
    so the change and its audit row are committed together. *)
Theorem stacked_commit_is_last entity action sig args kwargs (s s' : state W) r :
  transactional sig (history entity action sig (wrapped W func)) args kwargs s
    = (Ok r, s') ->
  exists sid pre row,
    calls s' = (calls s ++ pre ++
                  [CallSaveHistory entity (VSession sid) row;
                   CallCommit sid])%list /\
    Forall quiet pre /\ In (CallFunc args kwargs) pre.
Proof.
  intros H. unfold Transactional in H.
  apply bind_Ok in H as (bound & s0 & Hb & H).
  apply lift_res_Ok in Hb as [Hb ->].
  destruct (is_None (dict_get bound "db")) eqn:Hdb;
    [now apply raise_Ok in H|].
  apply try_except_Ok in H as [H|(e & s1 & _ & _ & H)].
  2:{ apply bind_Ok in H as (u & s2 & _ & H). discriminate. }
  apply bind_Ok in H as (r0 & s1 & Hh & H).
  apply bind_Ok in H as (u & s2 & Hc & H). apply ret_Ok in H as [-> ->].
  apply db_commit_Ok in Hc as (sid & Hsid & Hc).
  rewrite (history_unfold _ _ _ _ _ _ _ Hb Hdb) in Hh.
  apply bind_Ok in Hh as ([r1 dom] & s3 & Hprep & Hh).
  apply bind_Ok in Hh as (u1 & s4 & Hsv & Hh). apply ret_Ok in Hh as [-> ->].
  cbn [fst snd] in *.
  apply save_history_Ok in Hsv as (w2 & _ & ->).
  apply prepare_Ok in Hprep as (bd & w0 & w1 & after & _ & _ & _ & -> & ->).
  cbn [env calls] in Hc. rewrite Hsid in *.
  match type of Hc with
  | calls s2 = ((?base ++ [CallSaveHistory _ _ ?row]) ++ _)%list =>
      exists sid, ([CallProvider (entity +:+ "_repository")] ++
                   (if negb (action =? "INSERT") &&
                       truthy (extract_entity_seq entity args kwargs sig)
                    then [CallGetBySeq entity (VSession sid)
                            (extract_entity_seq entity args kwargs sig)]
                    else []) ++
                   [CallFunc args kwargs;
                    CallProvider (entity +:+ "_history_repository")])%list, row
  end.
  split.
  - rewrite Hc. rewrite <- !app_assoc. reflexivity.
  - split.
    + apply Forall_app. split; [repeat constructor|].
      apply Forall_app. split; [|repeat constructor].
      destruct (negb (action =? "INSERT") && truthy _); repeat constructor.
    + apply in_or_app. right. apply in_or_app. right. now left.
Qed.



Lemma grows_save_history entity db dom :
  grows any_call (save_history W save entity db dom).
Proof.
  unfold save_history. apply grows_bind; [apply grows_record; exact I|].
  intros _. apply grows_ask.
Qed.

Lemma grows_history entity action sig args kwargs :
  grows any_call (history entity action sig (wrapped W func) args kwargs).
Proof.
  intros s r s' H.
  destruct (bind_partial sig args kwargs) as [bound|e0] eqn:Hb.
  2:{ unfold History, bind, lift_res in H. rewrite Hb in H.
      injection H as _ <-. exists []. rewrite app_nil_r. auto. }
  destruct (is_None (dict_get bound "db")) eqn:Hdb.
  { unfold History, bind, lift_res in H. rewrite Hb, Hdb in H.
    injection H as _ <-. exists []. rewrite app_nil_r. auto. }
  rewrite (history_unfold _ _ _ _ _ _ _ Hb Hdb) in H. revert s r s' H.
  apply grows_bind.
  - eapply grows_weaken; [|apply grows_prepare]. intros c _. exact I.
  - intros [r dom]. apply grows_bind; [apply grows_save_history|].
    intros _. apply grows_ret.
Qed.

(** X4.  The two wrappers stacked, a session bound: whenever the call
    raises an [Exception], whether it comes from the container, the lookup,
    the wrapped function, the history write or [commit()] itself, the last
    call made is [rollback()] on that session. *)
Theorem stacked_failure_rolls_back entity action sig args kwargs bound sid
    (s s' : state W) e :
  bind_partial sig args kwargs = Ok bound ->
  dict_get bound "db" = VSession sid ->
  transactional sig (history entity action sig (wrapped W func)) args kwargs s
    = (Raise e, s') ->
  is_Exception e = true ->
  exists l, calls s' = (calls s ++ l ++ [CallRollback sid])%list.
Proof.
  intros Hb Hdb H He. unfold Transactional in H.
  unfold bind at 1 in H. unfold lift_res at 1 in H. rewrite Hb, Hdb in H.
  cbn [is_None] in H. unfold try_except in H.
  match type of H with
  | (match ?m s with _ => _ end) = _ => destruct (m s) as [[r|e0] s1] eqn:Hin
  end; [discriminate|].
  assert (Hg : exists l, calls s1 = (calls s ++ l)%list).
  { revert Hin. set (inner := bind _ _). intros Hin.
    assert (G : grows any_call inner).
    { apply grows_bind; [apply grows_history|]. intros r.
      apply grows_bind; [|intros _; apply grows_ret].
      unfold db_commit. apply grows_bind; [apply grows_record; exact I|].
      intros _. apply grows_ask. }
    destruct (G _ _ _ Hin) as (l & E & _). eauto. }
  destruct Hg as (l & Hl).
  destruct (is_Exception e0) eqn:He0.
  - unfold db_rollback, bind, record, modify, ask in H. cbn [env calls] in H.
    destruct (session_rollback sid (env s1)) as [[u|e1] w];
      injection H as _ <-; exists l; cbn [calls]; now rewrite Hl, <- app_assoc.
  - injection H as -> _. congruence.
Qed.


(** X7.  An entity that has no history modules ([rank], [position],
    [user], ...): the wrapper never returns normally and never stores a
    row, whatever the lookup and the wrapped function did before the
    import failed. *)
Theorem history_without_modules entity action sig args kwargs
    (s s' : state W) out :
  mem_string entity history_modules = false ->
  history entity action sig (wrapped W func) args kwargs s = (out, s') ->
  exists e l, out = Raise e /\ calls s' = (calls s ++ l)%list /\
              Forall quiet l.
Proof.
  intros Hm H.
  destruct (bind_partial sig args kwargs) as [bound|e0] eqn:Hb.
  2:{ unfold History, bind, lift_res in H. rewrite Hb in H.
      injection H as <- <-. exists e0, []. rewrite app_nil_r.
      repeat split; auto. }
  destruct (is_None (dict_get bound "db")) eqn:Hdb.
  { unfold History, bind, lift_res in H. rewrite Hb, Hdb in H.
    injection H as <- <-. eexists _, []. rewrite app_nil_r.
    repeat split; auto. }
  rewrite (history_unfold _ _ _ _ _ _ _ Hb Hdb) in H.
  unfold bind at 1 in H.
  destruct (prepare entity action args kwargs (dict_get bound "db")
              (extract_entity_seq entity args kwargs sig) s)
    as [[p|e] s1] eqn:Hprep.
  - exfalso. unfold CallLog.prepare in Hprep.
    apply bind_Ok in Hprep as (u1 & s2 & _ & Hprep).
    apply bind_Ok in Hprep as (bd & s3 & _ & Hprep).
    apply bind_Ok in Hprep as (r' & s4 & _ & Hprep).
    apply bind_Ok in Hprep as (after & s5 & _ & Hprep).
    apply bind_Ok in Hprep as (u2 & s6 & Hl & _).
    apply load_history_modules_Ok in Hl as [Hl _]. congruence.
  - injection H as <- <-.
    destruct (grows_prepare _ _ _ _ _ _ _ _ _ Hprep) as (l & E & F).
    exists e, l. auto.
Qed.

End Facts.

Lemma clean_dict_Permutation (d1 d2 : pydict) :
  Permutation d1 d2 -> Permutation (clean_dict d1) (clean_dict d2).
Proof.
  unfold clean_dict.
  induction 1 as [|kv l l' _ IH|a b l|l l' l'' _ IH1 _ IH2]; cbn.
  - constructor.
  - destruct (negb _); [now constructor|exact IH].
  - destruct (negb (mem_string (fst a) _)), (negb (mem_string (fst b) _));
      try reflexivity. apply perm_swap.
  - now transitivity (List.filter
        (fun kv => negb (mem_string (fst kv) exclude_fields)) l').
Qed.

Lemma clean_dict_NoDup (d : pydict) :
  NoDup (map fst d) -> NoDup (map fst (clean_dict d)).
Proof.
  unfold clean_dict. induction d as [|[k v] d IH]; cbn; [auto|].
  intros Hnd. apply NoDup_cons in Hnd as [Hk Hnd].
  destruct (negb (mem_string k exclude_fields)); cbn; [|auto].
  apply NoDup_cons. split; [|auto].
  intros Hin. apply Hk. apply list_elem_of_In in Hin. apply list_elem_of_In.
  apply in_map_iff in Hin as ([k' v'] & Hk' & Hin). cbn in Hk'. subst k'.
  apply filter_In in Hin as [Hin _].
  apply in_map_iff. now exists (k, v').
Qed.

(** X5.  The JSON text stored for a snapshot does not depend on the
    order in which the attributes of the object were set: two snapshots
    with the same attributes and values give the same before or after
    value. *)
Theorem snapshot_order_independent (d1 d2 : pydict) :
  NoDup (map fst d1) -> Permutation d1 d2 ->
  dumps_or_none (Some (clean_dict d1)) = dumps_or_none (Some (clean_dict d2)).
Proof.
  intros Hnd Hp.
  pose proof (clean_dict_Permutation _ _ Hp) as Hc.
  pose proof (clean_dict_NoDup _ Hnd) as Hn.
  destruct (clean_dict d1) as [|kv1 r1] eqn:E1.
  - apply Permutation_nil in Hc. now rewrite Hc.
  - destruct (clean_dict d2) as [|kv2 r2] eqn:E2.
    + symmetry in Hc. now apply Permutation_nil in Hc.
    + cbn [dumps_or_none]. f_equal.
      exact (JsonFacts.dumps_sorted_order _ _ Hn Hc).
Qed.

Lemma bind_positional_surplus (params : signature) (args : list value) :
  (length params < length args)%nat ->
  bind_positional params args
    = Raise (TypeError "too many positional arguments").
Proof.
  revert params. induction args as [|a args IH]; intros params Hlen.
  - cbn in Hlen. lia.
  - destruct params as [|p params]; [reflexivity|].
    cbn in *. rewrite IH by lia. reflexivity.
Qed.

Lemma bind_positional_TypeError params args e :
  bind_positional params args = Raise e -> exists m, e = TypeError m.
Proof.
  revert params. induction args as [|a args IH]; intros params.
  - destruct params; discriminate.
  - destruct params as [|p params]; cbn; [intros [= <-]; eauto|].
    destruct (bind_positional params args) as [b|e0] eqn:H; [discriminate|].
    intros [= <-]. exact (IH _ H).
Qed.

Lemma bind_keywords_unexpected params bound kwargs k v :
  In (k, v) kwargs -> mem_string k params = false ->
  exists m, bind_keywords params bound kwargs = Raise (TypeError m).
Proof.
  intros Hin Hk. induction kwargs as [|[k' v'] kw IH]; [destruct Hin|].
  cbn. destruct (dict_mem bound k'); [eauto|].
  destruct (mem_string k' params) eqn:Hk'; cbn; [|eauto].
  destruct Hin as [[= -> ->]|Hin]; [congruence|].
  destruct (IH Hin) as (m & ->). eauto.
Qed.

Lemma bind_partial_unbindable sig args kwargs :
  (length sig < length args)%nat \/
  (exists k v, In (k, v) kwargs /\ mem_string k sig = false) ->
  exists m, bind_partial sig args kwargs = Raise (TypeError m).
Proof.
  intros [Hlen|(k & v & Hin & Hk)]; unfold bind_partial.
  - rewrite bind_positional_surplus by exact Hlen. eauto.
  - destruct (bind_positional sig args) as [pos|e] eqn:Hpos.
    + destruct (bind_keywords_unexpected sig pos kwargs k v Hin Hk) as (m & ->).
      eauto.
    + destruct (bind_positional_TypeError _ _ _ Hpos) as (m & ->). eauto.
Qed.

Section Binding.

Variable W : Type.
Variable session_commit session_rollback : nat -> W -> res unit * W.
Variable get_by_seq : string -> value -> value -> W -> res value * W.
Variable save : string -> value -> history_entity -> W -> res unit * W.
Variable utc_now : W -> Z.

(** X6.  A call that passes more positional arguments than the wrapped
    function declares, or a keyword it does not declare, is refused by
    either wrapper with the [TypeError] of the binding, before the session
    is looked at and before anything is called. *)
Theorem wrappers_reject_unbindable_calls entity action sig (f : pyfun W)
    args kwargs (s : state W) :
  (length sig < length args)%nat \/
  (exists k v, In (k, v) kwargs /\ mem_string k sig = false) ->
  exists m,
    Transactional W session_commit session_rollback sig f args kwargs s
      = (Raise (TypeError m), s) /\
    History W get_by_seq save utc_now entity action sig f args kwargs s
      = (Raise (TypeError m), s).
Proof.
  intros H. destruct (bind_partial_unbindable sig args kwargs H) as (m & Hb).
  exists m. unfold Transactional, History, bind, lift_res. rewrite Hb. auto.
Qed.

End Binding.

Import Scenario Cases.

(** What the audited update stores: the row of the run *)
Example update_run_row :
  update_run
  = (Ok (updated 12),
     {| env := [employee 0 "Kim"; updated 12];
        calls :=
          [CallProvider "employee_repository";
           CallGetBySeq "employee" (VSession 1) (VInt 12);
           CallFunc update_args [];
           CallProvider "employee_history_repository";
           CallSaveHistory "employee" (VSession 1) updated_row] |}).
Proof. vm_compute. reflexivity. Qed.

(** [update_employee] audited *)
Lemma history_update_record_witness :
  exists bound w0 w1 d seqv row,
    let id := extract_entity_seq "employee" update_args [] update_sig in
    let db := dict_get bound "db" in
    bind_partial update_sig update_args [] = Ok bound /\
    (if truthy id
     then exists fetched,
            get_employee_by_seq "employee" db id (env (start two_rows))
              = (Ok fetched, w0) /\
            before_value row = match fetched with
                               | VObj _ d0 => dumps_or_none (Some (clean_dict d0))
                               | _ => None
                               end
     else w0 = env (start two_rows) /\ before_value row = None) /\
    update_employee update_args [] w0 = (Ok (updated 12), w1) /\
    obj_dict (updated 12) = Ok d /\
    getattr (updated 12) "seq" = Ok seqv /\
    after_value row = Some (Json.dumps_sorted (clean_dict d)) /\
    entity_seq row = seqv /\
    action_type row = "UPDATE" /\
    calls (snd update_run)
      = (calls (start two_rows) ++ [CallProvider ("employee" +:+ "_repository")] ++
           (if truthy id then [CallGetBySeq "employee" db id] else []) ++
           [CallFunc update_args [];
            CallProvider ("employee" +:+ "_history_repository");
            CallSaveHistory "employee" db row])%list.
Proof.
  exact (history_update_record table update_employee get_employee_by_seq
           save_ok clock "employee" update_sig update_args [] (start two_rows)
           (snd update_run) (updated 12) eq_refl).
Defined.



(** The same update with a history table that refuses the row *)
Lemma history_failure_leaves_no_row_witness :
  exists l,
    calls (snd (History table get_employee_by_seq save_refused clock "employee"
                  "UPDATE" update_sig (wrapped table update_employee)
                  update_args [] (start two_rows)))
      = (calls (start two_rows) ++ l)%list /\
    (Forall quiet l \/
     exists pre db row w w',
       l = (pre ++ [CallSaveHistory "employee" db row])%list /\
       Forall quiet pre /\
       save_refused "employee" db row w
         = (Raise (OtherException "DataError" "Data too long for column"), w')).
Proof.
  exact (history_failure_leaves_no_row table update_employee get_employee_by_seq
           save_refused clock "employee" "UPDATE" update_sig update_args []
           (start two_rows) _ _ eq_refl).
Defined.

(** [update_employee] as the service declares it *)
Lemma stacked_commit_is_last_witness :
  exists sid pre row,
    calls (snd (stacked "UPDATE" update_sig update_employee save_ok
                  update_args [] (start two_rows)))
      = (calls (start two_rows) ++ pre ++
           [CallSaveHistory "employee" (VSession sid) row; CallCommit sid])%list /\
    Forall quiet pre /\ In (CallFunc update_args []) pre.
Proof.
  exact (stacked_commit_is_last table update_employee commit_ok rollback_ok
           get_employee_by_seq save_ok clock "employee" "UPDATE" update_sig
           update_args [] (start two_rows) _ _ eq_refl).
Defined.

(** The history write fails: what was changed is rolled back. *)
Lemma stacked_failure_rolls_back_witness :
  exists l,
    calls (snd (stacked "UPDATE" update_sig update_employee save_refused
                  update_args [] (start two_rows)))
      = (calls (start two_rows) ++ l ++ [CallRollback 1])%list.
Proof.
  exact (stacked_failure_rolls_back table update_employee commit_ok rollback_ok
           get_employee_by_seq save_refused clock "employee" "UPDATE"
           update_sig update_args [] _ 1 (start two_rows) _ _
           eq_refl eq_refl eq_refl eq_refl).
Defined.

Example stacked_failure_run :
  stacked "UPDATE" update_sig update_employee save_refused update_args []
    (start two_rows)
  = (Raise (OtherException "DataError" "Data too long for column"),
     {| env := [employee 0 "Kim"; updated 12];
        calls :=
          [CallProvider "employee_repository";
           CallGetBySeq "employee" (VSession 1) (VInt 12);
           CallFunc update_args [];
           CallProvider "employee_history_repository";
           CallSaveHistory "employee" (VSession 1)
             {| entity_seq := VInt 12;
                action_type := "UPDATE";
                before_value := before_value updated_row;
                after_value := after_value updated_row;
                username := VNone;
                created_at := 1700032400000000 |};
           CallRollback 1] |}).
Proof. vm_compute. reflexivity. Qed.

(** The same attributes set in another order *)
Lemma snapshot_order_independent_witness :
  dumps_or_none
    (Some (clean_dict [sa_state; ("seq", VInt 12); ("name", VStr "Choi")]))
  = dumps_or_none
      (Some (clean_dict [("seq", VInt 12); sa_state; ("name", VStr "Choi")])).
Proof.
  apply snapshot_order_independent.
  - apply (bool_decide_unpack _). vm_compute. reflexivity.
  - apply perm_swap.
Defined.

(** [delete_employee(db, 12, 13)] and [delete_employee(db, seq=12)] *)
Lemma wrappers_reject_unbindable_calls_witness :
  (exists m,
     Transactional table commit_ok rollback_ok delete_sig
       (wrapped table delete_employee)
       [service; VSession 1; VInt 12; VInt 13] [] (start two_rows)
     = (Raise (TypeError m), start two_rows) /\
     audited "DELETE" delete_sig delete_employee
       [service; VSession 1; VInt 12; VInt 13] [] (start two_rows)
     = (Raise (TypeError m), start two_rows))
  /\ (exists m,
        Transactional table commit_ok rollback_ok delete_sig
          (wrapped table delete_employee)
          [service; VSession 1] [("seq", VInt 12)] (start two_rows)
        = (Raise (TypeError m), start two_rows) /\
        audited "DELETE" delete_sig delete_employee
          [service; VSession 1] [("seq", VInt 12)] (start two_rows)
        = (Raise (TypeError m), start two_rows)).
Proof.
  split.
  - apply (wrappers_reject_unbindable_calls table commit_ok rollback_ok
             get_employee_by_seq save_ok clock "employee" "DELETE" delete_sig
             (wrapped table delete_employee)).
    left. cbn. lia.
  - apply (wrappers_reject_unbindable_calls table commit_ok rollback_ok
             get_employee_by_seq save_ok clock "employee" "DELETE" delete_sig
             (wrapped table delete_employee)).
    right. exists "seq", (VInt 12). split; [now left|reflexivity].
Defined.

(** [History(entity="rank", ...)]: the row is deleted, then the import
    fails. *)
Lemma history_without_modules_witness :
  exists e l,
    History table get_employee_by_seq save_ok clock "rank" "DELETE"
      ["self"; "db"; "rank_seq"] (wrapped table delete_employee)
      [service; VSession 1; VInt 12] [] (start two_rows)
    = (Raise e, {| env := [employee 0 "Kim"];
                   calls := (calls (start two_rows) ++ l)%list |}) /\
    Forall quiet l.
Proof.
  destruct (history_without_modules table delete_employee get_employee_by_seq
              save_ok clock "rank" "DELETE" ["self"; "db"; "rank_seq"]
              [service; VSession 1; VInt 12] [] (start two_rows) _ _
              eq_refl eq_refl) as (e & l & He & Hl & Hq).
  exists e, l. split; [|exact Hq].
  rewrite <- Hl. rewrite <- He. reflexivity.
Defined.

End AuditFacts.

(* ===================================================================== *)
(** ** More on the adapters, the context and the interceptor              *)
(* ===================================================================== *)

Module PipelineFacts.
Import Logging RequestTrace MonadFacts LoggingFacts Readings.

Section Facts.

Variable settings : Settings.
Variable time_at : nat -> float.
Variable kst_at : nat -> string.
Variable rand_at : nat -> N.
Variable router_dirs : list string.

(** X8.  [clone_with_logger] makes a new adapter: it takes the trace id,
    the method, the path and the handler of the original, but starts with
    an empty SQL buffer and no pending transaction event, and the two are
    separate objects afterwards: a statement buffered on the original does
    not reach the clone, and [start_structured] on the clone does not reach
    the original. *)
Theorem clone_is_independent r new_logger query params m p h (s : lstate) :
  r < next_ref s ->
  exists c s1 s2 s3,
    clone_with_logger r new_logger s = (Ok c, s1) /\ c <> r /\
    logger (deref s1 c) = new_logger /\
    trace_id (deref s1 c) = trace_id (deref s r) /\
    _method (deref s1 c) = _method (deref s r) /\
    _path (deref s1 c) = _path (deref s r) /\
    _handler (deref s1 c) = _handler (deref s r) /\
    _sql_logs (deref s1 c) = [] /\
    _pending_tx_event (deref s1 c) = None /\
    deref s1 r = deref s r /\
    sql_structured r query params s1 = (Ok tt, s2) /\
    deref s2 c = deref s1 c /\
    start_structured c m p h s2 = (Ok tt, s3) /\
    deref s3 r = deref s2 r.
Proof.
  intros Hr.
  destruct (clone_with_logger_effect r new_logger s Hr)
    as (s1 & Hc & _ & _ & _ & _ & _ & Hd & Ho).
  assert (Hne : next_ref s <> r) by lia.
  unfold sql_structured, start_structured.
  match goal with
  | |- context [update r ?f] =>
      destruct (update_effect r f s1) as (s2 & Hq & _ & _ & Ho2)
  end.
  match goal with
  | |- context [update _ ?f _ = (Ok tt, _) /\ deref _ r = _] =>
      destruct (update_effect (next_ref s) f s2) as (s3 & Hst & _ & _ & Ho3)
  end.
  exists (next_ref s), s1, s2, s3.
  split; [exact Hc|]. split; [exact Hne|].
  rewrite Hd. cbn [logger trace_id _method _path _handler _sql_logs
                   _pending_tx_event].
  do 7 (split; [reflexivity|]).
  split; [apply Ho; lia|]. split; [exact Hq|].
  split; [rewrite Ho2 by exact Hne; exact Hd|].
  split; [exact Hst|]. apply Ho3. lia.
Qed.

Lemma deref_tick (s : lstate) r : deref (tick s) r = deref s r.
Proof. reflexivity. Qed.

Lemma emit_effect r level ev (s : lstate) :
  exists s', emit r level ev s = (Ok tt, s') /\
    heap s' = heap s /\ next_ref s' = next_ref s /\ ctxs s' = ctxs s /\
    ticks s' = ticks s /\ draws s' = draws s /\
    sink s' = (sink s ++ [at_level level (process (deref s r) ev)])%list.
Proof. eexists. split; [reflexivity|]. repeat split. Qed.

(** The state an END log leaves behind *)
Lemma end_structured_after r status duration (s : lstate) :
  exists s' e tail,
    end_structured kst_at r status duration s = (Ok tt, s') /\
    sink s' = (sink s ++ e :: tail)%list /\
    ev_log_type e = "START" /\
    ev_status_code e = Some status /\
    ev_sql e = Some (_sql_logs (deref s r)) /\
    match _pending_tx_event (deref s r) with
    | Some tx =>
        if tx =? EmptyString then tail = []
        else exists t, tail = [t] /\ ev_log_type t = tx /\
               ev_log_message t
                 = Some (if tx =? "COMMIT" then msg_commit else msg_rollback)
    | None => tail = []
    end /\
    _sql_logs (deref s' r) = _sql_logs (deref s r) /\
    _pending_tx_event (deref s' r)
      = match _pending_tx_event (deref s r) with
        | Some tx => if tx =? EmptyString then Some tx else None
        | None => None
        end /\
    ctxs s' = ctxs s /\
    forall r', r' <> r -> deref s' r' = deref s r'.
Proof.
  unfold end_structured.
  rewrite (bind_run (get_kst_now_str kst_at) _ s (tick s) _ eq_refl).
  rewrite (bind_run (gets (fun s0 => deref s0 r)) _ (tick s) (tick s) _ eq_refl).
  rewrite deref_tick.
  match goal with
  | |- context [emit r "INFO" ?ev] =>
      destruct (emit_effect r "INFO" ev (tick s))
        as (s1 & He & Hh1 & _ & Hc1 & Ht1 & _ & Hk1); set (ev1 := ev) in *
  end.
  rewrite (bind_run _ _ _ _ _ He).
  assert (Hd1 : forall r', deref s1 r' = deref s r')
    by (intros r'; unfold deref; rewrite Hh1; reflexivity).
  rewrite deref_tick in Hk1. cbn [sink tick] in Hk1.
  destruct (_pending_tx_event (deref s r)) as [tx|] eqn:Hp.
  - destruct (tx =? EmptyString) eqn:Htx.
    + exists s1, (at_level "INFO" (process (deref s r) ev1)), [].
      split; [reflexivity|]. split; [exact Hk1|].
      rewrite !Hd1, Hp. repeat split; auto.
    + rewrite (bind_run (get_kst_now_str kst_at) _ s1 (tick s1) _ eq_refl).
      rewrite (bind_run (get_kst_now_str kst_at) _ (tick s1) (tick (tick s1)) _
                 eq_refl).
      match goal with
      | |- context [emit r "INFO" ?ev] =>
          destruct (emit_effect r "INFO" ev (tick (tick s1)))
            as (s2 & He2 & Hh2 & _ & Hc2 & _ & _ & Hk2); set (ev2 := ev) in *
      end.
      rewrite (bind_run _ _ _ _ _ He2).
      assert (Hd2 : forall r', deref s2 r' = deref s r')
        by (intros r'; unfold deref; rewrite Hh2; cbn [heap tick];
            rewrite Hh1; reflexivity).
      unfold set_pending.
      match goal with
      | |- context [update r ?f] =>
          destruct (update_effect r f s2)
            as (s3 & Hu & (_ & Hc3 & Hk3 & _ & _) & Hr3 & Ho3)
      end.
      exists s3, (at_level "INFO" (process (deref s r) ev1)),
        [at_level "INFO" (process (deref (tick (tick s1)) r) ev2)].
      split; [exact Hu|].
      split.
      { rewrite Hk3, Hk2. cbn [sink tick]. rewrite Hk1, <- app_assoc.
        reflexivity. }
      rewrite Hr3, Hd2. cbn [_sql_logs _pending_tx_event].
      split; [reflexivity|]. split; [reflexivity|]. split; [reflexivity|].
      split; [eexists; split; [reflexivity|split; reflexivity]|].
      split; [reflexivity|]. split; [reflexivity|].
      split; [rewrite Hc3, Hc2; cbn [ctxs tick]; exact Hc1|].
      intros r' Hne. rewrite Ho3 by exact Hne. apply Hd2.
  - exists s1, (at_level "INFO" (process (deref s r) ev1)), [].
    split; [reflexivity|]. split; [exact Hk1|].
    rewrite !Hd1, Hp. repeat split; auto.
Qed.

(** X9.  [end_structured] reports the pending COMMIT or ROLLBACK once
    and forgets it, but it does not empty the SQL buffer: a second END log
    through the same adapter carries the same statements again, and no
    transaction record. *)
Theorem end_structured_keeps_buffer r st1 d1 st2 d2 (s : lstate) :
  exists s1 s2 e1 tail e2,
    end_structured kst_at r st1 d1 s = (Ok tt, s1) /\
    sink s1 = (sink s ++ e1 :: tail)%list /\
    ev_sql e1 = Some (_sql_logs (deref s r)) /\
    (length tail <= 1)%nat /\
    Forall (fun t => Some (ev_log_type t) = _pending_tx_event (deref s r)) tail /\
    (forall tx, _pending_tx_event (deref s r) = Some tx ->
                tx <> EmptyString -> length tail = 1%nat) /\
    end_structured kst_at r st2 d2 s1 = (Ok tt, s2) /\
    sink s2 = (sink s1 ++ [e2])%list /\
    ev_log_type e2 = "START" /\
    ev_status_code e2 = Some st2 /\
    ev_sql e2 = Some (_sql_logs (deref s r)).
Proof.
  destruct (end_structured_after r st1 d1 s)
    as (s1 & e1 & tail & H1 & Hk1 & _ & _ & Hq1 & Ht1 & Hb1 & Hp1 & _).
  destruct (end_structured_after r st2 d2 s1)
    as (s2 & e2 & tail2 & H2 & Hk2 & Hy2 & Hc2 & Hq2 & Ht2 & _).
  exists s1, s2, e1, tail, e2. rewrite Hb1 in Hq2.
  assert (tail2 = []) as ->.
  { rewrite Hp1 in Ht2.
    destruct (_pending_tx_event (deref s r)) as [tx|]; [|exact Ht2].
    destruct (tx =? EmptyString) eqn:Htx; [|exact Ht2].
    rewrite Htx in Ht2. exact Ht2. }
  split; [exact H1|]. split; [exact Hk1|]. split; [exact Hq1|].
  split.
  { destruct (_pending_tx_event (deref s r)) as [tx|]; [|subst; cbn; lia].
    destruct (tx =? EmptyString); [subst; cbn; lia|].
    destruct Ht1 as (t & -> & _). cbn. lia. }
  split.
  { destruct (_pending_tx_event (deref s r)) as [tx|]; [|subst; constructor].
    destruct (tx =? EmptyString); [subst; constructor|].
    destruct Ht1 as (t & -> & <- & _). repeat constructor. }
  split.
  { intros tx Htx Hne. rewrite Htx in Ht1.
    destruct (tx =? EmptyString) eqn:E;
      [apply String.eqb_eq in E; contradiction|].
    destruct Ht1 as (t & -> & _). reflexivity. }
  split; [exact H2|]. split; [exact Hk2|]. split; [exact Hy2|].
  split; [exact Hc2|exact Hq2].
Qed.

(** X10.  Session events reach the logger of the context only, and only
    the last one before the END log is reported: a request that commits and
    then rolls back logs one ROLLBACK record after its END record.  An
    event of another kind, or one outside a request, changes nothing and
    raises nothing. *)
Theorem last_transaction_event_wins u r st d ev (s : lstate) :
  (_logger_var (ctx_of s u) = None \/ (ev <> "commit" /\ ev <> "rollback") ->
   _log_tx_event u ev s = (Ok tt, s)) /\
  (_logger_var (ctx_of s u) = Some r ->
   exists s1 s2 s3 e t,
     after_commit u s = (Ok tt, s1) /\
     after_rollback u s1 = (Ok tt, s2) /\
     end_structured kst_at r st d s2 = (Ok tt, s3) /\
     sink s3 = (sink s ++ [e; t])%list /\
     ev_log_type e = "START" /\
     ev_log_type t = "ROLLBACK" /\
     ev_log_message t = Some msg_rollback /\
     _pending_tx_event (deref s3 r) = None).
Proof.
  split.
  - intros [Hno|[Hc Hr]]; unfold _log_tx_event, try_except, bind, ctx_get.
    + rewrite Hno. reflexivity.
    + destruct (_logger_var (ctx_of s u)); [|reflexivity].
      apply String.eqb_neq in Hc, Hr. rewrite Hc, Hr. reflexivity.
  - intros Hlg. unfold after_commit, after_rollback.
    destruct (log_tx_event_effect u "commit" r s Hlg (or_introl eq_refl))
      as (s1 & H1 & (_ & Hc1 & Hk1 & _) & Hd1 & _).
    assert (Hlg1 : _logger_var (ctx_of s1 u) = Some r)
      by (rewrite (ctx_of_ctxs s s1 u Hc1); exact Hlg).
    destruct (log_tx_event_effect u "rollback" r s1 Hlg1 (or_intror eq_refl))
      as (s2 & H2 & (_ & _ & Hk2 & _) & Hd2 & _).
    destruct (end_structured_after r st d s2)
      as (s3 & e & tail & H3 & Hk3 & Hy3 & _ & _ & Ht3 & _ & Hp3 & _).
    rewrite Hd2 in Ht3. cbn in Ht3. destruct Ht3 as (t & -> & Hty & Hmsg).
    exists s1, s2, s3, e, t. rewrite Hk3, Hk2, Hk1.
    repeat split; auto.
    rewrite Hp3, Hd2. reflexivity.
Qed.

(** X11.  [before_cursor_execute] with [executemany]: every parameter
    set makes one entry, in the order given, in the buffer of the logger of
    the context; nothing is logged and no other adapter is touched; the
    hook returns the start time it took. *)
Theorem executemany_buffers_each_set u r statement sets (s : lstate) :
  _logger_var (ctx_of s u) = Some r ->
  exists s',
    before_cursor_execute time_at u statement (VList sets) true s
      = (Ok (time_at (ticks s)), s') /\
    _sql_logs (deref s' r)
      = (_sql_logs (deref s r) ++ map (pair statement) sets)%list /\
    length (_sql_logs (deref s' r))
      = (length (_sql_logs (deref s r)) + length sets)%nat /\
    sink s' = sink s /\ ctxs s' = ctxs s /\
    forall r', r' <> r -> deref s' r' = deref s r'.
Proof.
  intros Hlg. unfold before_cursor_execute.
  rewrite (bind_run (time_time time_at) _ s (tick s) _ eq_refl).
  destruct (sql_structured_each_effect r statement sets (tick s))
    as (s1 & He & (_ & Hc & Hk & _ & _) & Hd & Ho).
  assert (Htry : try_except
                   (let* lg := ctx_get u in
                    let* sets0 := lift_res (iterate (VList sets)) in
                    sql_structured_each lg statement sets0)
                   is_LookupError (fun _ => ret tt) (tick s) = (Ok tt, s1)).
  { unfold try_except, bind at 1, ctx_get.
    change (ctx_of (tick s) u) with (ctx_of s u). rewrite Hlg.
    unfold bind, lift_res. cbn [iterate]. rewrite He. reflexivity. }
  rewrite (bind_run _ _ _ _ _ Htry). exists s1.
  split; [reflexivity|]. rewrite Hd, deref_tick. cbn [add_logs _sql_logs].
  split; [reflexivity|]. split; [now rewrite length_app, length_map|].
  split; [exact Hk|]. split; [exact Hc|]. exact Ho.
Qed.

Lemma block_check_Ok v (s : lstate) :
  accepted v -> block_check v s = (Ok tt, s).
Proof.
  destruct v as [x|]; [|reflexivity]. cbn [accepted block_check]. intros H.
  destruct (truthy x); [|reflexivity]. now rewrite H.
Qed.

Lemma block_check_Raise v (s : lstate) :
  ~ accepted v ->
  block_check v s = (Raise (TypeError msg_not_serializable), s).
Proof.
  destruct v as [x|]; cbn [accepted block_check]; [|now intros []].
  intros H. destruct (truthy x); [|now destruct H].
  destruct (serializable x); [now destruct H|reflexivity].
Qed.

(** X12.  [debug_structured] builds its text block first: with a context
    [json.dumps] refuses it raises [TypeError] and logs nothing.
    Otherwise it returns, and what it logs depends on the logger under the
    adapter.  If that logger is not enabled for DEBUG, as the loggers of
    [LoggingConfig] at the default [LOG_LEVEL], nothing is logged.  If it
    is, exactly one DEBUG record is logged, and the [method], [path] and
    [handler] arguments do not reach it: [process] writes the fields of the
    adapter over them, so the record carries what [start_structured] last
    stored on the adapter (nothing, for an adapter that was never
    started). *)
Theorem debug_record_keeps_adapter_fields r enabled message context method
    path handler (s : lstate) :
  (~ accepted context ->
   debug_structured kst_at r enabled message context method path handler s
     = (Raise (TypeError msg_not_serializable), tick s)) /\
  (accepted context ->
   exists s',
     debug_structured kst_at r enabled message context method path handler s
       = (Ok tt, s') /\
     heap s' = heap s /\ ctxs s' = ctxs s /\
     if enabled then
       exists e,
         sink s' = (sink s ++ [e])%list /\
         ev_adapter e = r /\
         ev_level e = "DEBUG" /\
         ev_log_type e = "DEBUG_STRUCTURED" /\
         ev_log_message e = Some message /\
         ev_context e = context /\
         ev_trace_id e = trace_id (deref s r) /\
         ev_method e = _method (deref s r) /\
         ev_path e = _path (deref s r) /\
         ev_handler e = _handler (deref s r)
     else sink s' = sink s).
Proof.
  unfold debug_structured.
  rewrite (bind_run (get_kst_now_str kst_at) _ s (tick s) _ eq_refl).
  split; intros Hc.
  - unfold bind at 1. now rewrite (block_check_Raise _ (tick s) Hc).
  - rewrite (bind_run (block_check context) _ (tick s) (tick s) tt
               (block_check_Ok _ _ Hc)).
    rewrite (bind_run (gets (fun s0 => deref s0 r)) _ (tick s) (tick s) _
               eq_refl).
    destruct enabled.
    + match goal with
      | |- context [emit r "DEBUG" ?ev] =>
          destruct (emit_effect r "DEBUG" ev (tick s))
            as (s1 & He & Hh & _ & Hx & _ & _ & Hk)
      end.
      exists s1. split; [exact He|]. split; [exact Hh|]. split; [exact Hx|].
      eexists. split; [exact Hk|]. rewrite deref_tick. repeat split.
    + exists (tick s). repeat split.
Qed.

(** X13.  A request whose endpoint raises after its statements ran: the
    interceptor lets the exception through as it is and writes no END
    record; what the handler buffered stays in the adapter of the request
    and is never logged, and the records written meanwhile are those of the
    handler body only. *)
Theorem failed_request_logs_no_end u req body exc (s s1 s2 : lstate) x :
  set_up time_at rand_at router_dirs u req s = (Ok x, s1) ->
  run_actions settings time_at kst_at rand_at u body s1 = (Ok tt, s2) ->
  let lg := next_ref s in
  let slow := S (next_ref s) in
  let tid := short_id (rand_at (draws s)) in
  custom_handler settings time_at kst_at rand_at router_dirs u req body (Raise exc) s
    = (Raise exc, s2) /\
  (exists during,
     sink s2 = (sink s ++ during)%list /\
     Forall (from_body lg slow tid) during /\
     Forall (fun e => ev_log_type e <> "START") during) /\
  _sql_logs (deref s2 lg) = buffered body.
Proof.
  intros Hset Hact lg slow tid.
  destruct (set_up_effect time_at rand_at router_dirs u req s)
    as (s1' & Hset' & Hinv & Hown & _ & Hlogs & _ & _ & _ & Hsink1).
  rewrite Hset' in Hset. injection Hset as <- <-.
  destruct (run_actions_inv settings time_at kst_at rand_at u _ _ _ body s1' s2
              Hinv Hact) as (_ & (during & Hsink2 & Hduring) & Htrack).
  rewrite Hown in Htrack.
  split; [|split].
  - unfold custom_handler. rewrite (bind_run _ _ _ _ _ Hset').
    unfold bind at 1, try_except, bind at 1, original_handler, bind at 1.
    rewrite Hact. unfold lift_res.
    destruct (is_Exception exc); reflexivity.
  - exists during. split; [now rewrite Hsink2, Hsink1|]. split; [exact Hduring|].
    eapply List.Forall_impl; [|exact Hduring].
    intros e [[Hty _]|[Hty _]]; rewrite Hty; discriminate.
  - assert (Hd : deref s2 (next_ref s)
                 = snd (track true body (deref s1' (next_ref s))))
      by (rewrite <- Htrack; reflexivity).
    fold lg in Hd, Hlogs |- *. rewrite Hd, track_sql_logs, Hlogs. reflexivity.
Qed.

Lemma ctx_set_explicit u lg t (s : lstate) :
  exists s', ctx_set rand_at u lg (Some t) s = (Ok tt, s') /\
    heap s' = heap s /\ sink s' = sink s /\ draws s' = draws s /\
    ctx_of s' u
      = {| _logger_var := Some lg;
           _slow_logger_var := _slow_logger_var (ctx_of s u);
           _trace_id_var := Some t |}.
Proof.
  eexists. split; [reflexivity|]. repeat split.
  rewrite !ctx_of_with_ctx_eq. reflexivity.
Qed.

Lemma ctx_set_slow_explicit u lg t (s : lstate) :
  exists s', ctx_set_slow rand_at u lg (Some t) s = (Ok tt, s') /\
    heap s' = heap s /\ sink s' = sink s /\ draws s' = draws s /\
    ctx_of s' u
      = {| _logger_var := _logger_var (ctx_of s u);
           _slow_logger_var := Some lg;
           _trace_id_var := Some t |}.
Proof.
  eexists. split; [reflexivity|]. repeat split.
  rewrite !ctx_of_with_ctx_eq. reflexivity.
Qed.

(** X14.  [set] and [set_slow] with an explicit trace id store what they
    are given and draw no UUID; the two share one trace id variable, so the
    later call replaces the trace id of the earlier one while each keeps
    its own logger. *)
Theorem context_set_round_trip u lg sl t1 t2 (s : lstate) :
  exists s1 s2,
    ctx_set rand_at u lg (Some t1) s = (Ok tt, s1) /\
    ctx_get u s1 = (Ok lg, s1) /\
    ctx_get_trace_id u s1 = (Ok t1, s1) /\
    _slow_logger_var (ctx_of s1 u) = _slow_logger_var (ctx_of s u) /\
    ctx_set_slow rand_at u sl (Some t2) s1 = (Ok tt, s2) /\
    observe u s2 = (Ok lg, Ok sl, Ok t2) /\
    draws s2 = draws s /\ heap s2 = heap s /\ sink s2 = sink s.
Proof.
  destruct (ctx_set_explicit u lg t1 s) as (s1 & H1 & Hh1 & Hk1 & Hd1 & Hc1).
  destruct (ctx_set_slow_explicit u sl t2 s1)
    as (s2 & H2 & Hh2 & Hk2 & Hd2 & Hc2).
  exists s1, s2. split; [exact H1|]. unfold observe.
  unfold ctx_get, ctx_get_trace_id, trace_id_var_get, try_except,
    ctx_get_slow.
  rewrite Hc2, Hc1. cbn [_logger_var _trace_id_var _slow_logger_var fst].
  split; [reflexivity|]. split; [reflexivity|]. split; [reflexivity|].
  split; [exact H2|]. split; [reflexivity|].
  split; [congruence|]. split; congruence.
Qed.

(** X15.  Outside a request, where the three variables were never set:
    [get()] and [get_slow()] raise [LookupError], while [get_trace_id()]
    catches it and answers the string [None]; [get_trace_id()] never
    raises and never changes the state. *)
Theorem context_unset u (s : lstate) :
  (exists t, ctx_get_trace_id u s = (Ok t, s)) /\
  (_trace_id_var (ctx_of s u) = None -> ctx_get_trace_id u s = (Ok "None", s)) /\
  (_logger_var (ctx_of s u) = None ->
   exists m, ctx_get u s = (Raise (LookupError m), s)) /\
  (_slow_logger_var (ctx_of s u) = None ->
   exists m, ctx_get_slow u s = (Raise (LookupError m), s)).
Proof.
  unfold ctx_get_trace_id, trace_id_var_get, try_except, ctx_get, ctx_get_slow.
  split; [|split; [|split]].
  - destruct (_trace_id_var (ctx_of s u)); eauto.
  - intros ->. reflexivity.
  - intros ->. eauto.
  - intros ->. eauto.
Qed.

(** X16.  [clear()] installs a new adapter on the logger [default] and
    gives the context the same 8-character trace id as that adapter; the
    slow logger of the context is left as it was, with the trace id of the
    request that set it, and nothing is logged. *)
Theorem clear_installs_default_logger u (s : lstate) :
  let tid := short_id (rand_at (draws s)) in
  exists s',
    ctx_clear rand_at u s = (Ok tt, s') /\
    ctx_get u s' = (Ok (next_ref s), s') /\
    logger (deref s' (next_ref s)) = "default" /\
    trace_id (deref s' (next_ref s)) = tid /\
    _sql_logs (deref s' (next_ref s)) = [] /\
    ctx_get_trace_id u s' = (Ok tid, s') /\
    String.length tid = 8 /\
    _slow_logger_var (ctx_of s' u) = _slow_logger_var (ctx_of s u) /\
    (forall r, r <> next_ref s -> deref s' r = deref s r) /\
    sink s' = sink s.
Proof.
  intros tid. unfold ctx_clear.
  set (sa := {| heap := heap s; next_ref := next_ref s; ctxs := ctxs s;
                sink := sink s; ticks := ticks s; draws := S (draws s) |}).
  rewrite (bind_run (urandom rand_at) _ s sa _ eq_refl). fold tid.
  destruct (new_adapter_effect "default" tid sa)
    as (s1 & Hnew & _ & Hc1 & Hk1 & _ & _ & Hd1 & Ho1).
  rewrite (bind_run _ _ _ _ _ Hnew). change (next_ref sa) with (next_ref s) in *.
  eexists. split; [reflexivity|].
  unfold ctx_get, ctx_get_trace_id, trace_id_var_get, try_except.
  rewrite !ctx_of_with_ctx_eq. cbn [_logger_var _trace_id_var _slow_logger_var].
  change (deref (with_ctx u _ (with_ctx u _ s1)) ?r) with (deref s1 r).
  rewrite Hd1. cbn [logger trace_id _sql_logs].
  split; [reflexivity|]. split; [reflexivity|]. split; [reflexivity|].
  split; [reflexivity|]. split; [reflexivity|].
  split; [apply short_id_length|].
  split; [unfold ctx_of; rewrite Hc1; reflexivity|].
  split; [|exact Hk1].
  intros r Hr. change (deref (with_ctx u _ (with_ctx u _ s1)) r) with (deref s1 r).
  rewrite Ho1 by exact Hr. reflexivity.
Qed.


End Facts.

Import Traffic.

(** The adapter of the first request, cloned for another logger *)
Lemma clone_is_independent_witness :
  exists c s1,
    clone_with_logger 0 "audit" unit0_ready = (Ok c, s1) /\ c <> 0 /\
    trace_id (deref s1 c) = trace_id (deref unit0_ready 0) /\
    _sql_logs (deref s1 c) = [] /\
    deref s1 0 = deref unit0_ready 0.
Proof.
  destruct (clone_is_independent 0 "audit" "SELECT 1" (VList [])
              "GET" "/v1/employee/12" "get_employee" unit0_ready)
    as (c & s1 & s2 & s3 & H1 & H2 & _ & H4 & _ & _ & _ & H8 & _ & H10 & _).
  - vm_compute. lia.
  - exists c, s1. repeat split; assumption.
Defined.

(** Three rows inserted by one [executemany] during the first request *)
Lemma executemany_buffers_each_set_witness :
  exists s',
    before_cursor_execute clock 0 "INSERT INTO rank (name) VALUES (%s)"
      (VList [VList [VStr "A"]; VList [VStr "B"]; VList [VStr "C"]]) true
      unit0_ready
    = (Ok (clock (ticks unit0_ready)), s') /\
    length (_sql_logs (deref s' 0)) = 3 /\
    sink s' = sink unit0_ready.
Proof.
  destruct (executemany_buffers_each_set clock 0 0
              "INSERT INTO rank (name) VALUES (%s)"
              [VList [VStr "A"]; VList [VStr "B"]; VList [VStr "C"]]
              unit0_ready)
    as (s' & H1 & _ & H3 & H4 & _).
  - vm_compute. reflexivity.
  - exists s'. repeat split; assumption.
Defined.

(** The debug call of the [test_debug] endpoint on the adapter of the
    first request, whose logger is at the default level: nothing is
    logged. *)
Lemma debug_record_keeps_adapter_fields_witness :
  exists s',
    debug_structured kst 0 false msg_test_debug
      (Some (VDict [("active", VBool true)])) "GET" "/v1/test/test-debug"
      "test_debug" unit0_ready = (Ok tt, s') /\
    sink s' = sink unit0_ready.
Proof.
  destruct (proj2 (debug_record_keeps_adapter_fields kst 0 false msg_test_debug
                     (Some (VDict [("active", VBool true)])) "GET"
                     "/v1/test/test-debug" "test_debug" unit0_ready)
              (fun _ => eq_refl))
    as (s' & H1 & _ & _ & H2).
  exists s'. split; assumption.
Defined.

(** The first request, with an endpoint that raises after its statement *)
Lemma failed_request_logs_no_end_witness :
  custom_handler default_settings clock kst random routers_v1 0 get_employee
    [select_employee]
    (Raise (OtherException "EmployeeNotFoundException" EmptyString)) boot
  = (Raise (OtherException "EmployeeNotFoundException" EmptyString),
     snd (run_actions default_settings clock kst random 0 [select_employee]
            unit0_ready)).
Proof.
  refine (proj1 (failed_request_logs_no_end default_settings clock kst random routers_v1
                   0 get_employee [select_employee]
                   (OtherException "EmployeeNotFoundException" EmptyString)
                   boot unit0_ready _
                   (clock 0, short_id (random 0), 0, 1)
                   _ _)).
  - vm_compute. reflexivity.
  - vm_compute. reflexivity.
Defined.

End PipelineFacts.

(* ===================================================================== *)
(** ** Logger names and trace identifiers as strings                      *)
(* ===================================================================== *)

Module NameFacts.
Import Logging LoggingFacts Readings.

Lemma app_empty_r (s : string) : s +:+ EmptyString = s.
Proof.
  induction s as [|c s IH]; [reflexivity|].
  change (String c s +:+ EmptyString) with (String c (s +:+ EmptyString)).
  now rewrite IH.
Qed.

Lemma app_assoc_string (a b c : string) : (a +:+ b) +:+ c = a +:+ (b +:+ c).
Proof.
  induction a as [|x a IH]; [reflexivity|].
  change ((String x a +:+ b) +:+ c) with (String x ((a +:+ b) +:+ c)).
  change (String x a +:+ (b +:+ c)) with (String x (a +:+ (b +:+ c))).
  now rewrite IH.
Qed.

(** A string is its first [i] characters followed by the rest. *)
Lemma substring_split (s : string) (i : nat) :
  (i <= String.length s)%nat ->
  s = substring 0 i s +:+ substring i (String.length s - i) s.
Proof.
  revert i. induction s as [|c s IH]; intros i Hi; cbn in Hi.
  - assert (i = 0)%nat as -> by lia. reflexivity.
  - destruct i as [|i].
    + cbn [substring String.length Nat.sub].
      change (EmptyString +:+ ?x) with x.
      f_equal. clear. induction s as [|c' s IH]; [reflexivity|].
      cbn. now rewrite <- IH.
    + cbn [substring String.length Nat.sub].
      change (String c ?x +:+ ?y) with (String c (x +:+ y)).
      f_equal. apply IH. lia.
Qed.

Lemma substring_0_app (a b : string) :
  substring 0 (String.length a) (a +:+ b) = a.
Proof.
  induction a as [|c a IH].
  - cbn. destruct b; reflexivity.
  - change (String c a +:+ b) with (String c (a +:+ b)).
    cbn [String.length substring]. now rewrite IH.
Qed.

Lemma ends_with_removesuffix (suffix s : string) :
  ends_with suffix s = true -> s = removesuffix suffix s +:+ suffix.
Proof.
  intros H. unfold removesuffix. rewrite H. unfold ends_with in H.
  apply andb_true_iff in H as [Hlen Heq].
  apply Nat.leb_le in Hlen. apply String.eqb_eq in Heq.
  rewrite (substring_split s (String.length s - String.length suffix)) at 1
    by lia.
  replace (String.length s - (String.length s - String.length suffix))%nat
    with (String.length suffix) by lia.
  now rewrite Heq.
Qed.

Lemma mem_string_In (x : string) (l : list string) :
  mem_string x l = true -> In x l.
Proof.
  unfold mem_string. intros H. apply existsb_exists in H as (y & Hin & Heq).
  apply String.eqb_eq in Heq. now subst y.
Qed.

(** X17.  Whatever the path of the request and whatever directories the
    provider found below [routers/v1], the name of the logger the
    interceptor asks for is [general], the name of one of these
    directories, or such a name followed by [_history]: the URL cannot make
    the application open a logger, and a log directory, of another name.
    The directories are those on the disk when the request comes in, so
    [__pycache__] is such a name once Python has written its bytecode
    there. *)
Theorem extract_domain_range (router_dirs : list string) (path : string) :
  let d := extract_domain_from_path router_dirs path in
  d = "general" \/ In d router_dirs \/
  exists b, In b router_dirs /\ d = b +:+ "_history".
Proof.
  cbv zeta. unfold extract_domain_from_path.
  destruct (String.prefix "/v1/" path); [|now left].
  destruct (take_domain _) as [|c g]; [now left|].
  set (raw := dash_to_underscore (String c g)).
  destruct (ends_with "_history" raw) eqn:He; cbn [andb].
  - destruct (mem_string (removesuffix "_history" raw) router_dirs) eqn:Hm.
    + right. right. exists (removesuffix "_history" raw).
      split; [now apply mem_string_In|now apply ends_with_removesuffix].
    + destruct (mem_string raw router_dirs) eqn:Hr; [|now left].
      right. left. now apply mem_string_In.
  - destruct (mem_string raw router_dirs) eqn:Hr; [|now left].
    right. left. now apply mem_string_In.
Qed.

Example extract_domain_examples :
  map (extract_domain_from_path routers_v1)
    ["/v1/employee/12"; "/v1/employee-history/3"; "/v1/rank"; "/v1/test/slow-sql";
     "/v1/../../etc/passwd"; "/health"; "/v1/"; "/v2/employee";
     "/v1/history_history"]
  = ["employee"; "employee_history"; "rank"; "general"; "general"; "general";
     "general"; "general"; "general"].
Proof. vm_compute. reflexivity. Qed.

(** With the bytecode directory on the disk, a path can name it. *)
Example extract_domain_pycache :
  extract_domain_from_path routers_v1 "/v1/__pycache__" = "general" /\
  extract_domain_from_path ("__pycache__" :: routers_v1) "/v1/__pycache__"
  = "__pycache__".
Proof. split; vm_compute; reflexivity. Qed.

(** *** The short trace id *)

Lemma hex_fixed_app (a b : nat) (x : N) :
  Json.hex_fixed (a + b) x
  = Json.hex_fixed a (x / 16 ^ N.of_nat b)%N +:+ Json.hex_fixed b x.
Proof.
  revert x. induction b as [|b IH]; intros x.
  - rewrite Nat.add_0_r. cbn [Json.hex_fixed N.of_nat].
    rewrite N.pow_0_r, N.div_1_r, app_empty_r. reflexivity.
  - rewrite Nat.add_succ_r. cbn [Json.hex_fixed]. rewrite IH.
    rewrite app_assoc_string. f_equal. f_equal.
    rewrite Nat2N.inj_succ, N.pow_succ_r', N.Div0.div_div. reflexivity.
Qed.

Lemma high_bits_div (a b : N) (k : N) :
  (forall n, (k <= n)%N -> N.testbit a n = N.testbit b n) ->
  (a / 2 ^ k = b / 2 ^ k)%N.
Proof.
  intros H. rewrite <- !N.shiftr_div_pow2. apply N.bits_inj. intros n.
  rewrite !N.shiftr_spec by lia. apply H. lia.
Qed.

Lemma small_bits (c k n : N) :
  (c < 2 ^ k)%N -> (k <= n)%N -> N.testbit c n = false.
Proof.
  intros Hc Hn. rewrite <- (N.mod_small c (2 ^ k)) by exact Hc.
  apply N.mod_pow2_bits_high. exact Hn.
Qed.

Lemma shifted_bits (c k n : N) :
  (c < 2 ^ 16)%N -> (k + 16 <= n)%N -> N.testbit (N.shiftl c k) n = false.
Proof.
  intros Hc Hn. rewrite N.shiftl_spec_high' by lia.
  apply (small_bits c 16); [exact Hc|lia].
Qed.

(** The version and variant bits lie below the first four bytes. *)
Lemma uuid4_int_high (r : N) : (uuid4_int r / 2 ^ 96 = r / 2 ^ 96)%N.
Proof.
  apply high_bits_div. intros n Hn. unfold uuid4_int.
  rewrite N.lor_spec, N.ldiff_spec, N.lor_spec, N.ldiff_spec.
  rewrite !shifted_bits by (try lia; reflexivity).
  cbn [negb]. rewrite !andb_true_r, !orb_false_r. reflexivity.
Qed.

Lemma short_id_hex (r : N) :
  short_id r = Json.hex_fixed 8 (r / 2 ^ 96)%N.
Proof.
  unfold short_id, uuid_str. cbv zeta.
  set (h := Json.hex_fixed 32 (uuid4_int r)).
  assert (Hh : substring 0 8 h = Json.hex_fixed 8 (r / 2 ^ 96)%N).
  { unfold h. change 32%nat with (8 + 24)%nat. rewrite hex_fixed_app.
    rewrite <- (hex_fixed_length 8 (uuid4_int r / 16 ^ N.of_nat 24)%N) at 1.
    rewrite substring_0_app.
    change (16 ^ N.of_nat 24)%N with (2 ^ 96)%N.
    now rewrite uuid4_int_high. }
  rewrite ?app_assoc_string.
  rewrite <- (hex_fixed_length 8 (r / 2 ^ 96)%N) at 1.
  rewrite Hh. apply substring_0_app.
Qed.

Lemma app_inv_length (a a' b b' : string) :
  String.length a = String.length a' ->
  a +:+ b = a' +:+ b' -> a = a' /\ b = b'.
Proof.
  revert a'. induction a as [|c a IH]; intros [|c' a'] Hlen H;
    try discriminate.
  - auto.
  - change (String c (a +:+ b) = String c' (a' +:+ b')) in H.
    injection H as -> H. cbn in Hlen.
    destruct (IH a' ltac:(lia) H) as [-> ->]. auto.
Qed.

Lemma hex_digit_inj (n m : N) :
  (n < 16)%N -> (m < 16)%N ->
  Json.hex_digit n = Json.hex_digit m -> n = m.
Proof.
  intros Hn Hm.
  assert (En : In n [0;1;2;3;4;5;6;7;8;9;10;11;12;13;14;15]%N)
    by (cbn; lia).
  assert (Em : In m [0;1;2;3;4;5;6;7;8;9;10;11;12;13;14;15]%N)
    by (cbn; lia).
  cbn in En, Em.
  repeat (destruct En as [<-|En]; [
    repeat (destruct Em as [<-|Em]; [intros H; first [reflexivity|discriminate H]|]);
    destruct Em|]).
  destruct En.
Qed.

Lemma hex_fixed_inj (k : nat) (x y : N) :
  Json.hex_fixed k x = Json.hex_fixed k y <->
  (x mod 16 ^ N.of_nat k = y mod 16 ^ N.of_nat k)%N.
Proof.
  revert x y. induction k as [|k IH]; intros x y.
  - cbn. rewrite !N.mod_1_r. tauto.
  - cbn [Json.hex_fixed]. rewrite Nat2N.inj_succ, N.pow_succ_r'.
    rewrite !N.Div0.mod_mul_r. split.
    + intros H. apply app_inv_length in H as [H1 H2];
        [|now rewrite !hex_fixed_length].
      apply IH in H1. injection H2 as H2.
      apply hex_digit_inj in H2; try (apply N.mod_upper_bound; lia).
      now rewrite H1, H2.
    + intros H.
      assert (Hx : (x mod 16 < 16)%N) by (apply N.mod_upper_bound; lia).
      assert (Hy : (y mod 16 < 16)%N) by (apply N.mod_upper_bound; lia).
      assert (E : (x mod 16 = y mod 16)%N /\
                  ((x / 16) mod 16 ^ N.of_nat k
                   = (y / 16) mod 16 ^ N.of_nat k)%N).
      { revert H Hx Hy.
        generalize ((x / 16) mod 16 ^ N.of_nat k)%N (x mod 16)%N
                   ((y / 16) mod 16 ^ N.of_nat k)%N (y mod 16)%N.
        intros a1 b1 a2 b2 H Hx Hy. lia. }
      destruct E as [E1 E2]. apply IH in E2. now rewrite E1, E2.
Qed.

Lemma hex_fixed_chars (k : nat) (x : N) :
  forallb is_lower_hex (list_ascii_of_string (Json.hex_fixed k x)) = true.
Proof.
  revert x. induction k as [|k IH]; intros x; [reflexivity|].
  cbn [Json.hex_fixed].
  assert (Happ : forall a b, list_ascii_of_string (a +:+ b)
                   = (list_ascii_of_string a ++ list_ascii_of_string b)%list).
  { induction a as [|c a IHa]; intros b; [reflexivity|].
    change (String c a +:+ b) with (String c (a +:+ b)). cbn.
    now rewrite IHa. }
  rewrite Happ, forallb_app, IH. cbn [list_ascii_of_string forallb andb].
  rewrite andb_true_r.
  assert (Hx : (x mod 16 < 16)%N) by (apply N.mod_upper_bound; lia).
  revert Hx. generalize (x mod 16)%N. intros n Hn.
  assert (En : In n [0;1;2;3;4;5;6;7;8;9;10;11;12;13;14;15]%N)
    by (cbn; lia).
  cbn in En.
  repeat (destruct En as [<-|En]; [reflexivity|]). destruct En.
Qed.

(** X18.  The short trace id of a request is the hexadecimal writing of
    the first four of the sixteen random bytes: eight characters among
    [0-9a-f], untouched by the version and variant bits of the UUID; two
    draws give the same trace id exactly when they agree on these four
    bytes. *)
Theorem short_id_is_four_bytes (r1 r2 : N) :
  short_id r1 = Json.hex_fixed 8 (r1 / 2 ^ 96)%N /\
  forallb is_lower_hex (list_ascii_of_string (short_id r1)) = true /\
  (short_id r1 = short_id r2 <->
   ((r1 / 2 ^ 96) mod 2 ^ 32 = (r2 / 2 ^ 96) mod 2 ^ 32)%N).
Proof.
  split; [apply short_id_hex|]. split.
  - rewrite short_id_hex. apply hex_fixed_chars.
  - rewrite !short_id_hex. apply hex_fixed_inj.
Qed.

Example short_id_collision :
  short_id 0x123e4567e89b12d3a456426614174000
  = short_id 0x123e4567ffffffffffffffffffffffff
  /\ uuid_str 0x123e4567e89b12d3a456426614174000
     <> uuid_str 0x123e4567ffffffffffffffffffffffff.
Proof. split; [reflexivity|discriminate]. Qed.


End NameFacts.

(* ===================================================================== *)
(** ** The organization tree                                              *)
(* ===================================================================== *)

Module TreeFacts.
Import OrganizationTree.

Lemma collect_Some (f : organization -> option organization) l :
  (forall org, In org l -> exists o, f org = Some o) ->
  exists t, collect f l = Some t.
Proof.
  induction l as [|org l IH]; intros H; cbn; [eauto|].
  destruct (H org (or_introl eq_refl)) as (o & ->).
  destruct IH as (t & ->); [intros x Hx; apply H; now right|]. eauto.
Qed.

Lemma collect_mono (f g : organization -> option organization) l t :
  (forall org o, In org l -> f org = Some o -> g org = Some o) ->
  collect f l = Some t -> collect g l = Some t.
Proof.
  revert t. induction l as [|org l IH]; intros t H; cbn; [auto|].
  destruct (f org) as [o|] eqn:Hf; [|discriminate].
  rewrite (H org o (or_introl eq_refl) Hf).
  destruct (collect f l) as [t'|]; [|discriminate].
  rewrite (IH t'); auto. intros x o' Hx. apply H. now right.
Qed.

Lemma collect_Forall2 (f : organization -> option organization) l t :
  collect f l = Some t -> Forall2 (fun org o => f org = Some o) l t.
Proof.
  revert t. induction l as [|org l IH]; intros t; cbn.
  - intros [= <-]. constructor.
  - destruct (f org) as [o|] eqn:Hf; [|discriminate].
    destruct (collect f l) as [t'|]; [|discriminate].
    intros [= <-]. constructor; auto.
Qed.

(** Allowing deeper recursion does not change the answer. *)
Lemma build_tree_mono (d : nat) all p t :
  build_tree d all p = Some t -> build_tree (S d) all p = Some t.
Proof.
  revert p t. induction d as [|d IH]; intros p t; [discriminate|].
  intros H. change (build_tree (S (S d)) all p) with
    (collect (fun org => match build_tree (S d) all (seq org) with
                         | Some c => Some (replace_children org c)
                         | None => None
                         end)
       (List.filter (fun org => same_seq (parent_seq org) p) all)).
  cbn [build_tree] in H. revert H. apply collect_mono.
  intros org o _. destruct (build_tree d all (seq org)) as [c|] eqn:Hc;
    [|discriminate].
  intros [= <-]. now rewrite (IH _ _ Hc).
Qed.

Lemma build_tree_mono_le (d d' : nat) all p t :
  (d <= d')%nat -> build_tree d all p = Some t -> build_tree d' all p = Some t.
Proof.
  induction 1 as [|d' _ IH]; [auto|]. intros H. apply build_tree_mono. auto.
Qed.

Lemma same_seq_eq (a b : option Z) : same_seq a b = true -> a = b.
Proof.
  destruct a, b; cbn; try discriminate; [|reflexivity].
  intros H. apply Z.eqb_eq in H. now subst.
Qed.

Section Paths.

Variable all : list organization.
Hypothesis unique : List.NoDup (map seq all).
Hypothesis keyed : Forall (fun o => seq o <> None) all.

Lemma same_row (a b : organization) :
  In a all -> In b all -> seq a = seq b -> a = b.
Proof.
  clear keyed. induction all as [|x l IH]; [intros []|].
  cbn in unique. apply List.NoDup_cons_iff in unique as [Hx Hl].
  intros [<-|Ha] [<-|Hb] Heq; auto.
  - exfalso. apply Hx. rewrite Heq. now apply in_map.
  - exfalso. apply Hx. rewrite <- Heq. now apply in_map.
Qed.

Lemma keyed_In (o : organization) : In o all -> seq o <> None.
Proof. intros H. rewrite List.Forall_forall in keyed. auto. Qed.

Lemma chain_suffix pre post p :
  chain all (pre ++ post) p -> exists q, chain all post q.
Proof.
  revert p. induction pre as [|r pre IH]; intros p; cbn; [eauto|].
  intros (_ & _ & H). eauto.
Qed.

Lemma chain_incl path p : chain all path p -> incl path all.
Proof.
  revert p. induction path as [|r path IH]; intros p; cbn.
  - intros _ x [].
  - intros (Hr & _ & H) x [<-|Hx]; [exact Hr|]. exact (IH _ H x Hx).
Qed.

(** The parent of a member of a path comes after it on the path. *)
Lemma chain_parent_after pre org post p r0 :
  chain all (pre ++ org :: post) p ->
  In r0 all -> parent_seq org = seq r0 -> In r0 post.
Proof.
  intros H Hr0 Hpar. apply chain_suffix in H as (q & H).
  cbn in H. destruct H as (_ & _ & H).
  destruct post as [|r' post]; cbn in H.
  - exfalso. apply (keyed_In r0 Hr0). congruence.
  - destruct H as (Hr' & Hseq & _). left.
    apply same_row; auto. congruence.
Qed.

(** A child of the organization a path starts from is not on the path. *)
Lemma chain_fresh path p org :
  chain all path p -> List.NoDup path ->
  In org all -> parent_seq org = p -> ~ In org path.
Proof.
  intros Hchain Hnd Horg Hpar Hin.
  destruct path as [|r1 path]; [destruct Hin|].
  pose proof Hchain as (Hr1 & Hseq1 & _).
  apply in_split in Hin as (pre & post & Hsplit).
  assert (Hpost : In r1 post).
  { rewrite Hsplit in Hchain.
    apply (chain_parent_after pre org post p r1 Hchain Hr1). congruence. }
  rewrite Hsplit in Hnd. destruct pre as [|x pre]; cbn in Hsplit.
  - injection Hsplit as -> _. apply List.NoDup_cons_iff in Hnd as [Hn _]. auto.
  - injection Hsplit as <- _. cbn in Hnd.
    apply List.NoDup_cons_iff in Hnd as [Hn _]. apply Hn.
    apply in_or_app. right. now right.
Qed.

(** With the recursion allowed to go as deep as there are organizations
    not yet on the path, and one more, the tree below [p] is built. *)
Lemma build_tree_enough (fuel : nat) path p :
  chain all path p -> List.NoDup path ->
  (length all < fuel + length path)%nat ->
  exists t, build_tree fuel all p = Some t.
Proof.
  revert path p. induction fuel as [|fuel IH]; intros path p Hchain Hnd Hlen.
  - exfalso. pose proof (List.NoDup_incl_length Hnd (chain_incl _ _ Hchain)).
    cbn in Hlen. lia.
  - cbn [build_tree]. apply collect_Some. intros org Hin.
    apply filter_In in Hin as [Horg Hpar]. apply same_seq_eq in Hpar.
    destruct (IH (org :: path) (seq org)) as (c & ->).
    + cbn. repeat split; auto. now rewrite Hpar.
    + constructor; [|exact Hnd]. now apply (chain_fresh path p).
    + cbn [length]. lia.
    + eauto.
Qed.

End Paths.

(** X19.  When no two organizations have the same identifier and none
    lacks one, as for rows of the table, [build_tree(None)] ends: the
    recursion never nests deeper than the number of organizations plus one,
    whatever the parent links are, cycles and dangling parents included,
    and the answer is the same at every depth allowed beyond that. *)
Theorem organization_tree_terminates (all : list organization) :
  List.NoDup (map seq all) ->
  Forall (fun o => seq o <> None) all ->
  exists t, forall depth,
    (length all < depth)%nat -> build_tree depth all None = Some t.
Proof.
  intros Hu Hk.
  destruct (build_tree_enough all Hu Hk (S (length all)) [] None)
    as (t & Ht); [reflexivity|constructor|cbn; lia|].
  exists t. intros depth Hd.
  apply (build_tree_mono_le (S (length all))); [lia|exact Ht].
Qed.

Lemma below_flat_map (c : list organization) :
  (fix below (l : list organization) : list organization :=
     match l with
     | [] => []
     | x :: l' => (nodes_of x ++ below l')%list
     end) c = nodes c.
Proof. induction c as [|x c IH]; cbn; [reflexivity|]. now rewrite IH. Qed.

Lemma nodes_of_replace (org : organization) (c : list organization) :
  nodes_of (replace_children org c) = replace_children org c :: nodes c.
Proof. cbn [nodes_of replace_children]. now rewrite below_flat_map. Qed.

Lemma bare_replace (org : organization) (c : list organization) :
  bare (replace_children org c) = bare org.
Proof. reflexivity. Qed.

(** What [build_tree] answers for a parent, at any depth *)
Lemma build_tree_shape (depth : nat) (all : list organization)
    (p : option Z) (t : list organization) :
  build_tree depth all p = Some t ->
  map bare t
    = map bare (List.filter (fun o => same_seq (parent_seq o) p) all) /\
  Forall (fun n =>
            In (bare n) (map bare all) /\
            map bare (children n)
              = map bare (List.filter
                            (fun o => same_seq (parent_seq o) (seq n)) all))
         (nodes t).
Proof.
  revert p t. induction depth as [|d IH]; intros p t; [discriminate|].
  cbn [build_tree]. intros H. apply collect_Forall2 in H.
  assert (Hsub : incl (List.filter (fun o => same_seq (parent_seq o) p) all) all)
    by (intros x Hx; now apply filter_In in Hx).
  revert H Hsub. generalize (List.filter (fun o => same_seq (parent_seq o) p) all).
  intros l H Hsub. induction H as [|org o l t Ho _ IHl]; [split; constructor|].
  destruct IHl as [IH1 IH2]; [intros x Hx; apply Hsub; now right|].
  destruct (build_tree d all (seq org)) as [c|] eqn:Hc; [|discriminate].
  injection Ho as <-. destruct (IH _ _ Hc) as [Hc1 Hc2].
  split.
  - cbn [map]. now rewrite bare_replace, IH1.
  - unfold nodes. cbn [flat_map]. rewrite nodes_of_replace.
    apply Forall_app. split; [|exact IH2].
    constructor; [|exact Hc2]. split.
    + rewrite bare_replace. apply in_map, Hsub. now left.
    + exact Hc1.
Qed.

(** X20.  The tree that [get_organization_tree] answers: its roots are,
    in the order of the table, exactly the organizations without
    [parent_seq], each a copy of its row with only [children] replaced;
    and the children of every node of the tree, whatever its depth, are in
    the order of the table exactly the organizations whose [parent_seq] is
    the node's [seq].  No filter is applied on the way: hidden and
    soft-deleted organizations are part of the tree. *)
Theorem organization_tree_shape (depth : nat) (rows : list organization_entity)
    (t : list organization) :
  get_organization_tree depth rows = Some t ->
  let all := map entity_to_domain rows in
  map bare t
    = map bare (List.filter (fun o => same_seq (parent_seq o) None) all) /\
  Forall (fun n =>
            In (bare n) (map bare all) /\
            map bare (children n)
              = map bare (List.filter
                            (fun o => same_seq (parent_seq o) (seq n)) all))
         (nodes t).
Proof.
  intros H. exact (build_tree_shape _ _ _ _ H).
Qed.

Lemma nodes_children (t : list organization) (n c : organization) :
  In n (nodes t) -> In c (children n) -> In c (nodes t).
Proof.
  assert (Hof : forall (k : nat) (o n c : organization),
             In n (nodes_of o) -> In c (children n) ->
             (forall x, In x (children o) ->
                forall n c, In n (nodes_of x) -> In c (children n) ->
                            In c (nodes_of x)) ->
             In c (nodes_of o)).
  { intros _ o n0 c0 Hn Hc Hrec. destruct o as [a b v s q ca ua da ch].
    cbn [nodes_of] in *. rewrite below_flat_map in *.
    destruct Hn as [<-|Hn].
    - right. cbn in Hc. unfold nodes. apply in_flat_map. exists c0.
      split; [exact Hc|]. destruct c0. cbn. now left.
    - right. unfold nodes in *. apply in_flat_map in Hn as (x & Hx & Hn).
      apply in_flat_map. exists x. split; [exact Hx|].
      apply (Hrec x Hx n0 c0); auto. }
  assert (Hall : forall o n c, In n (nodes_of o) -> In c (children n) ->
                               In c (nodes_of o)).
  { fix rec 1. intros o. destruct o as [a b v s q ca ua da ch].
    intros n0 c0 Hn Hc. apply (Hof 0%nat _ n0 c0 Hn Hc).
    cbn [children]. clear Hn Hc n0 c0.
    induction ch as [|x ch IHch]; intros y [].
    - subst y. apply rec.
    - now apply IHch. }
  intros Hn Hc. unfold nodes in *. apply in_flat_map in Hn as (o & Ho & Hn).
  apply in_flat_map. exists o. split; [exact Ho|]. now apply (Hall o n c).
Qed.

Lemma in_map_bare (row : organization) (l : list organization) :
  In (bare row) (map bare l) -> exists n, In n l /\ bare n = bare row.
Proof. intros H. apply in_map_iff in H as (n & Hb & Hn). eauto. Qed.

Lemma bare_seq (a b : organization) :
  bare a = bare b -> seq a = seq b /\ parent_seq a = parent_seq b.
Proof. destruct a, b. cbn. intros [= -> -> -> -> -> -> -> ->]. auto. Qed.

Lemma same_seq_refl (a : option Z) : same_seq a a = true.
Proof. destruct a; cbn; [apply Z.eqb_refl|reflexivity]. Qed.

(** X21.  Which organizations the tree shows: exactly those from which
    the parent links lead up to an organization without parent.  One whose
    parent does not exist, or whose parent links run in a circle (an
    organization moved below itself or below one of its descendants), is
    in no tree, and neither is anything below it. *)
Theorem organization_tree_members (depth : nat) (all : list organization)
    (t : list organization) (row : organization) :
  build_tree depth all None = Some t ->
  In row all ->
  ((exists path, chain all (row :: path) (seq row)) <->
   (exists n, In n (nodes t) /\ bare n = bare row)).
Proof.
  intros Ht Hrow. destruct (build_tree_shape _ _ _ _ Ht) as [Hroots Hkids].
  rewrite List.Forall_forall in Hkids. split.
  - intros (path & Hchain). clear Hrow.
    revert row Hchain. induction path as [|r path IH]; intros row Hchain.
    + destruct Hchain as (Hrow & _ & Hpar). cbn in Hpar.
      assert (Hin : In (bare row) (map bare t)).
      { rewrite Hroots. apply in_map, filter_In. split; [exact Hrow|].
        rewrite Hpar. reflexivity. }
      apply in_map_bare in Hin as (n & Hn & Hb). exists n. split; [|exact Hb].
      unfold nodes. apply in_flat_map. exists n. split; [exact Hn|].
      destruct n. cbn. now left.
    + destruct Hchain as (Hrow & _ & Hr).
      assert (Hr' : chain all (r :: path) (seq r)).
      { destruct Hr as (H1 & H2 & H3). cbn. auto. }
      destruct (IH r Hr') as (nr & Hnr & Hbr).
      destruct Hr as (_ & Hseq & _).
      destruct (Hkids nr Hnr) as [_ Hch].
      assert (Hin : In (bare row) (map bare (children nr))).
      { rewrite Hch. apply in_map, filter_In. split; [exact Hrow|].
        apply bare_seq in Hbr as [-> _]. rewrite Hseq. apply same_seq_refl. }
      apply in_map_bare in Hin as (n & Hn & Hb). exists n. split; [|exact Hb].
      exact (nodes_children t nr n Hnr Hn).
  - intros (n & Hn & Hb).
    assert (G : forall d p t0, build_tree d all p = Some t0 ->
                forall up, chain all up p ->
                forall n0, In n0 (nodes t0) ->
                exists r0 path0, In r0 all /\ bare r0 = bare n0 /\
                                 chain all (r0 :: path0) (seq r0)).
    { clear. induction d as [|d IH]; intros p t0; [discriminate|].
      cbn [build_tree]. intros H up Hup n0 Hn0.
      apply collect_Forall2 in H. unfold nodes in Hn0.
      apply in_flat_map in Hn0 as (o & Ho & Hn0).
      assert (Hex : exists org c, In org all /\ parent_seq org = p /\
                      build_tree d all (seq org) = Some c /\
                      o = replace_children org c).
      { revert H Ho. generalize (eq_refl (List.filter
            (fun org => same_seq (parent_seq org) p) all)).
        generalize (List.filter (fun org => same_seq (parent_seq org) p) all)
          at 1 3.
        intros l Hl H. assert (Hsub : incl l (List.filter
            (fun org => same_seq (parent_seq org) p) all))
          by (rewrite Hl; apply incl_refl).
        clear Hl. induction H as [|org o' l t' Ho' _ IHl]; [intros []|].
        intros [<-|Hin].
        - destruct (build_tree d all (seq org)) as [c|] eqn:Hc; [|discriminate].
          injection Ho' as <-. exists org, c.
          assert (Hf := Hsub org (or_introl eq_refl)).
          apply filter_In in Hf as [Hf1 Hf2]. apply same_seq_eq in Hf2. auto.
        - apply IHl; [|exact Hin]. intros x Hx. apply Hsub. now right. }
      destruct Hex as (org & c & Horg & Hpar & Hc & ->).
      assert (Hchain : chain all (org :: up) (seq org))
        by (cbn; rewrite Hpar; auto).
      rewrite nodes_of_replace in Hn0. destruct Hn0 as [<-|Hn0].
      - exists org, up. rewrite bare_replace. auto.
      - exact (IH _ _ Hc (org :: up) Hchain n0 Hn0). }
    destruct (G _ _ _ Ht [] eq_refl n Hn) as (r0 & path0 & Hr0 & Hb0 & Hc0).
    exists path0. assert (Hbb : bare r0 = bare row) by congruence.
    apply bare_seq in Hbb as [Hs Hp]. destruct Hc0 as (_ & _ & Hc0).
    cbn. rewrite <- Hp. auto.
Qed.

(** The team "Seoul" is shown, and it has its path to the root. *)
Lemma organization_tree_members_witness :
  (exists path,
     chain (map entity_to_domain sample)
       (entity_to_domain (row 3 "Seoul" 3 (Some 2%Z)) :: path) (Some 3%Z)) <->
  (exists n, In n (nodes sample_tree) /\
             bare n = bare (entity_to_domain (row 3 "Seoul" 3 (Some 2%Z)))).
Proof.
  apply (organization_tree_members 10 (map entity_to_domain sample) sample_tree
           (entity_to_domain (row 3 "Seoul" 3 (Some 2%Z))) eq_refl).
  cbn. tauto.
Defined.

(** The sample table: the team whose parent is gone, the two that point
    at each other and the one moved below itself are in no tree. *)
Example sample_tree_names :
  option_map (map (fun o => (name o, map (fun c => (name c, map name (children c)))
                                         (children o))))
    (get_organization_tree 10 sample)
  = Some [("Sales", [("Domestic", ["Seoul"; "Busan"])]); ("R&D", [])].
Proof. vm_compute. reflexivity. Qed.

Lemma organization_tree_terminates_witness :
  exists t, forall depth,
    (length (map entity_to_domain sample) < depth)%nat ->
    build_tree depth (map entity_to_domain sample) None = Some t.
Proof.
  apply organization_tree_terminates.
  - apply (proj1 (NoDup_ListNoDup _)). apply (bool_decide_unpack _).
    vm_compute. reflexivity.
  - repeat constructor; discriminate.
Defined.

Lemma organization_tree_shape_witness :
  map bare sample_tree
  = map bare (List.filter (fun o => same_seq (parent_seq o) None)
                (map entity_to_domain sample)).
Proof.
  exact (proj1 (organization_tree_shape 10 sample sample_tree eq_refl)).
Defined.

End TreeFacts.

(* ===================================================================== *)
(** ** The organization service                                           *)
(* ===================================================================== *)

Module OrganizationFacts.
Import Decorator MonadFacts OrganizationService.

Section Facts.

Variable W : Type.
Variable get_organization_by_seq : value -> value -> W -> res value * W.
Variable create_organization : value -> value -> W -> res value * W.
Variable repo_update_organization : value -> value -> pydict -> W -> res value * W.
Variable repo_delete_organization : value -> value -> W -> res value * W.
Variable repo_soft_delete_organization : value -> value -> W -> res value * W.
Variable has_child_organizations : value -> value -> W -> res bool * W.
Variable count_employees_by_organization_seq : value -> value -> W -> res Z * W.
Variable model_dump : value -> pydict.
Variable model_dump_exclude_unset : value -> pydict.
Variable session_commit session_rollback : nat -> W -> res unit * W.
Variable save : string -> value -> history_entity -> W -> res unit * W.
Variable utc_now : W -> Z.

Local Abbreviation update_organization :=
  (OrganizationService.update_organization W get_organization_by_seq
     repo_update_organization model_dump_exclude_unset).
Local Abbreviation move_organization :=
  (OrganizationService.move_organization W get_organization_by_seq
     repo_update_organization).
Local Abbreviation create_headquarters :=
  (OrganizationService.create_headquarters W get_organization_by_seq
     create_organization model_dump).
Local Abbreviation create_team :=
  (OrganizationService.create_team W get_organization_by_seq
     create_organization model_dump).
Local Abbreviation delete_organization :=
  (OrganizationService.delete_organization W get_organization_by_seq
     repo_delete_organization has_child_organizations
     count_employees_by_organization_seq).
Local Abbreviation soft_delete_organization :=
  (OrganizationService.soft_delete_organization W get_organization_by_seq
     repo_soft_delete_organization has_child_organizations
     count_employees_by_organization_seq).
Local Abbreviation declared :=
  (OrganizationService.declared W get_organization_by_seq session_commit
     session_rollback save utc_now).

(** X22.  [update_organization] with a request that sets no field: the
    service returns the exception object instead of raising it.  Under the
    wrappers the service is declared with, the history wrapper then looks
    for the [seq] of that object, so the caller gets an [AttributeError]
    and not the 400 error the service means; nothing is updated, no history
    row is written and the session is rolled back. *)
Theorem empty_update_is_not_refused self sid seq req r d org (w w1 w2 w3 : W)
    (log : list call) :
  truthy seq = true ->
  get_organization_by_seq (VSession sid) seq w = (Ok (VObj r d), w1) ->
  get_organization_by_seq (VSession sid) seq w1 = (Ok org, w2) ->
  is_None org = false ->
  model_dump_exclude_unset req = [] ->
  session_rollback sid w2 = (Ok tt, w3) ->
  let args := [self; VSession sid; seq; req] in
  update_organization args [] w1
    = (Ok (instance OrganizationUpdateDataNotFoundException), w2) /\
  declared "UPDATE" update_sig update_organization args []
      {| env := w; calls := log |}
    = (Raise (AttributeError "seq"),
       {| env := w3;
          calls := (log ++
                     [CallProvider "organization_repository";
                      CallGetBySeq "organization" (VSession sid) seq;
                      CallFunc args [];
                      CallRollback sid])%list |}).
Proof.
  intros Hseq Hlook Hlook2 Horg Hdump Hroll args.
  assert (Hf : update_organization args [] w1
               = (Ok (instance OrganizationUpdateDataNotFoundException), w2)).
  { unfold OrganizationService.update_organization, bind, lift_res.
    cbn [bind_call bind_partial bind_positional bind_keywords update_sig args
         app forallb dict_mem dict_find dict_get String.eqb Ascii.eqb
         Bool.eqb andb].
    rewrite Hlook2, Horg, Hdump. reflexivity. }
  split; [exact Hf|].
  assert (Hid : extract_entity_seq "organization" args [] update_sig = seq).
  { unfold extract_entity_seq, args.
    change (dict_get [] ("organization" +:+ "_seq")) with VNone.
    change (mem_string ("organization" +:+ "_seq") update_sig) with true.
    change (index_of ("organization" +:+ "_seq") update_sig) with (Some 2%nat).
    cbn [truthy negb andb nth_error]. rewrite Hseq. reflexivity. }
  unfold OrganizationService.declared, Transactional, History.
  unfold bind at 1. unfold lift_res at 1.
  change (bind_partial update_sig args [])
    with (Ok [("self", self); ("db", VSession sid); ("organization_seq", seq);
              ("update_request", req)]).
  cbv beta iota.
  change (dict_get [("self", self); ("db", VSession sid);
                    ("organization_seq", seq); ("update_request", req)] "db")
    with (VSession sid).
  cbn [is_None]. rewrite Hid.
  unfold try_except, bind, lift_res.
  change (bind_partial update_sig args [])
    with (Ok [("self", self); ("db", VSession sid); ("organization_seq", seq);
              ("update_request", req)]).
  cbv beta iota.
  change (dict_get [("self", self); ("db", VSession sid);
                    ("organization_seq", seq); ("update_request", req)] "db")
    with (VSession sid).
  cbn [is_None].
  change (provide W ("organization" +:+ "_repository") {| env := w; calls := log |})
    with (Ok tt, {| env := w; calls := (log ++ [CallProvider "organization_repository"])%list |}).
  cbv beta iota.
  change ("UPDATE" =? "INSERT") with false. change ("UPDATE" =? "DELETE") with false.
  cbn [negb andb]. rewrite Hseq.
  unfold repo_get_by_seq, wrapped, bind, record, modify, ask. cbn [env calls].
  rewrite Hlook. cbn [truthy obj_dict]. unfold ret. cbn [env calls].
  rewrite Hf. cbn [instance obj_dict getattr dict_find String.eqb Ascii.eqb
                   Bool.eqb].
  cbn [is_Exception]. unfold db_rollback, bind, record, modify, ask, raise.
  cbn [env calls]. rewrite Hroll. rewrite <- !app_assoc. reflexivity.
Qed.

(** X23.  [create_headquarters] and [create_team] store an organization
    only below a parent that exists and has the level above: when either
    returns, the request had the level 2 (3), its [parent_seq] was looked
    up and answered an organization of level 1 (2), and
    [create_organization] ran after that lookup; when the lookup answers
    nothing the call raises and the repository is left as the lookup left
    it. *)
Theorem create_checks_parent (f : service_function W) (param : string)
    (own above : Z) (refused : http_exception) args kwargs (w w' : W) :
  (f = create_headquarters /\ param = "headquarters_create_request_dto" /\
   own = 2%Z /\ above = 1%Z /\ refused = InvalidDivisionIdException) \/
  (f = create_team /\ param = "team_create_request_dto" /\
   own = 3%Z /\ above = 2%Z /\ refused = InvalidHeadquarterIdException) ->
  (forall r, f args kwargs w = (Ok r, w') ->
     exists b lv parent existing plv domain w1,
       bind_call ["self"; "db"; param] args kwargs = Ok b /\
       getattr (dict_get b param) "level" = Ok lv /\
       differs_from lv own = false /\
       getattr (dict_get b param) "parent_seq" = Ok parent /\
       is_None parent = false /\
       get_organization_by_seq (dict_get b "db") parent w = (Ok existing, w1) /\
       truthy existing = true /\
       getattr existing "level" = Ok plv /\
       differs_from plv above = false /\
       OrganizationDomain (model_dump (dict_get b param)) = Ok domain /\
       create_organization (dict_get b "db") domain w1 = (Ok r, w')) /\
  (forall b lv parent w1,
     bind_call ["self"; "db"; param] args kwargs = Ok b ->
     getattr (dict_get b param) "level" = Ok lv ->
     differs_from lv own = false ->
     getattr (dict_get b param) "parent_seq" = Ok parent ->
     is_None parent = false ->
     get_organization_by_seq (dict_get b "db") parent w = (Ok VNone, w1) ->
     f args kwargs w = (Raise (raised refused), w1)).
Proof.
  intros [(-> & -> & -> & -> & ->)|(-> & -> & -> & -> & ->)]; split.
  - intros r H. unfold OrganizationService.create_headquarters in H.
    apply bind_Ok in H as (b & w0 & Hb & H). apply lift_res_Ok in Hb as [Hb ->].
    apply bind_Ok in H as (lv & w0 & Hlv & H). apply lift_res_Ok in Hlv as [Hlv ->].
    destruct (differs_from lv 2) eqn:Hd; [now apply raise_Ok in H|].
    apply bind_Ok in H as (parent & w0 & Hp & H). apply lift_res_Ok in Hp as [Hp ->].
    destruct (is_None parent) eqn:Hn; [now apply raise_Ok in H|].
    apply bind_Ok in H as (existing & w1 & Hg & H).
    apply bind_Ok in H as (invalid & w2 & Hi & H).
    destruct invalid; [now apply raise_Ok in H|].
    apply bind_Ok in H as (domain & w3 & Hdom & H).
    apply lift_res_Ok in Hdom as [Hdom ->].
    destruct (truthy existing) eqn:Ht; cbn [negb] in Hi;
      [|apply ret_Ok in Hi as [[=] _]].
    apply bind_Ok in Hi as (plv & w4 & Hplv & Hi).
    apply lift_res_Ok in Hplv as [Hplv ->]. apply ret_Ok in Hi as [Hi ->].
    exists b, lv, parent, existing, plv, domain, w1. repeat split; auto.
  - intros b lv parent w1 Hb Hlv Hd Hp Hn Hg.
    unfold OrganizationService.create_headquarters, bind, lift_res.
    rewrite Hb, Hlv, Hd, Hp, Hn, Hg. reflexivity.
  - intros r H. unfold OrganizationService.create_team in H.
    apply bind_Ok in H as (b & w0 & Hb & H). apply lift_res_Ok in Hb as [Hb ->].
    apply bind_Ok in H as (lv & w0 & Hlv & H). apply lift_res_Ok in Hlv as [Hlv ->].
    destruct (differs_from lv 3) eqn:Hd; [now apply raise_Ok in H|].
    apply bind_Ok in H as (parent & w0 & Hp & H). apply lift_res_Ok in Hp as [Hp ->].
    destruct (is_None parent) eqn:Hn; [now apply raise_Ok in H|].
    apply bind_Ok in H as (existing & w1 & Hg & H).
    apply bind_Ok in H as (invalid & w2 & Hi & H).
    destruct invalid; [now apply raise_Ok in H|].
    apply bind_Ok in H as (domain & w3 & Hdom & H).
    apply lift_res_Ok in Hdom as [Hdom ->].
    destruct (truthy existing) eqn:Ht; cbn [negb] in Hi;
      [|apply ret_Ok in Hi as [[=] _]].
    apply bind_Ok in Hi as (plv & w4 & Hplv & Hi).
    apply lift_res_Ok in Hplv as [Hplv ->]. apply ret_Ok in Hi as [Hi ->].
    exists b, lv, parent, existing, plv, domain, w1. repeat split; auto.
  - intros b lv parent w1 Hb Hlv Hd Hp Hn Hg.
    unfold OrganizationService.create_team, bind, lift_res.
    rewrite Hb, Hlv, Hd, Hp, Hn, Hg. reflexivity.
Qed.

(** X24.  [delete_organization] and [soft_delete_organization] reach the
    repository only for an organization that exists, has no employee and
    no child: when either returns, the count of employees was not above
    zero, then no child was found, then the organization was found, in
    that order, and the repository was asked last. *)
Theorem delete_checks_first (soft : bool) args kwargs (w w' : W) r :
  (if soft then soft_delete_organization else delete_organization)
    args kwargs w = (Ok r, w') ->
  exists b n org w1 w2 w3,
    let db := dict_get b "db" in
    let organization_seq := dict_get b "organization_seq" in
    bind_call delete_sig args kwargs = Ok b /\
    count_employees_by_organization_seq db organization_seq w = (Ok n, w1) /\
    (n <= 0)%Z /\
    has_child_organizations db organization_seq w1 = (Ok false, w2) /\
    get_organization_by_seq db organization_seq w2 = (Ok org, w3) /\
    is_None org = false /\
    (if soft then repo_soft_delete_organization else repo_delete_organization)
      db organization_seq w3 = (Ok r, w').
Proof.
  intros H.
  assert (G : forall repo,
    (let* b := lift_res (bind_call delete_sig args kwargs) in
     let db := dict_get b "db" in
     let organization_seq := dict_get b "organization_seq" in
     let* has_employees :=
       count_employees_by_organization_seq db organization_seq in
     if (0 <? has_employees)%Z then
       raise (raised EmployeesExistInOrganizationException)
     else
       let* has_children := has_child_organizations db organization_seq in
       if has_children then raise (raised SubOrganizationsExistException)
       else
         let* organization_domain :=
           get_organization_by_seq db organization_seq in
         if is_None organization_domain then
           raise (raised OrganizationNotFoundException)
         else repo db organization_seq) w = (Ok r, w') ->
    exists b n org w1 w2 w3,
      bind_call delete_sig args kwargs = Ok b /\
      count_employees_by_organization_seq (dict_get b "db")
        (dict_get b "organization_seq") w = (Ok n, w1) /\
      (n <= 0)%Z /\
      has_child_organizations (dict_get b "db")
        (dict_get b "organization_seq") w1 = (Ok false, w2) /\
      get_organization_by_seq (dict_get b "db")
        (dict_get b "organization_seq") w2 = (Ok org, w3) /\
      is_None org = false /\
      repo (dict_get b "db") (dict_get b "organization_seq") w3 = (Ok r, w')).
  { intros repo G.
    apply bind_Ok in G as (b & w0 & Hb & G). apply lift_res_Ok in Hb as [Hb ->].
    cbv zeta in G.
    apply bind_Ok in G as (n & w1 & Hn & G).
    destruct (0 <? n)%Z eqn:Hpos; [now apply raise_Ok in G|].
    apply Z.ltb_ge in Hpos.
    apply bind_Ok in G as (ch & w2 & Hch & G).
    destruct ch; [now apply raise_Ok in G|].
    apply bind_Ok in G as (org & w3 & Ho & G).
    destruct (is_None org) eqn:Hnone; [now apply raise_Ok in G|].
    exists b, n, org, w1, w2, w3. repeat split; auto. }
  destruct soft; [exact (G repo_soft_delete_organization H)
                 |exact (G repo_delete_organization H)].
Qed.

End Facts.

Import OrganizationCases.

Lemma empty_update_is_not_refused_witness :
  OrganizationService.update_organization table find_by_id
      (fun _ _ _ w => (Ok VNone, w)) fields
      [service; VSession 1; VInt 1; empty_request] [] divisions
    = (Ok (instance OrganizationUpdateDataNotFoundException), divisions) /\
  OrganizationService.declared table find_by_id Scenario.commit_ok
      Scenario.rollback_ok Scenario.save_ok Scenario.clock
      "UPDATE" update_sig
      (OrganizationService.update_organization table find_by_id
         (fun _ _ _ w => (Ok VNone, w)) fields)
      [service; VSession 1; VInt 1; empty_request] []
      {| env := divisions; calls := [] |}
    = (Raise (AttributeError "seq"),
       {| env := divisions;
          calls := [CallProvider "organization_repository";
                    CallGetBySeq "organization" (VSession 1) (VInt 1);
                    CallFunc [service; VSession 1; VInt 1; empty_request] [];
                    CallRollback 1] |}).
Proof.
  exact (empty_update_is_not_refused table find_by_id
           (fun _ _ _ w => (Ok VNone, w)) fields
           Scenario.commit_ok Scenario.rollback_ok Scenario.save_ok
           Scenario.clock
           service 1%nat (VInt 1) empty_request "OrganizationDomain" _
           (organization 1 "Sales" 1 VNone) divisions divisions divisions
           divisions []
           eq_refl eq_refl eq_refl eq_refl eq_refl eq_refl).
Defined.

(** A headquarters below the division 1 is stored; below the organization
    7, which the table does not have, it is refused. *)
Lemma create_checks_parent_witness :
  (exists r w',
     OrganizationService.create_headquarters table find_by_id store fields
       [service; VSession 1; headquarters_request (VInt 1)] [] divisions
     = (Ok r, w') /\
     exists existing,
       find_by_id (VSession 1) (VInt 1) divisions = (Ok existing, divisions) /\
       getattr existing "level" = Ok (VInt 1)) /\
  OrganizationService.create_headquarters table find_by_id store fields
    [service; VSession 1; headquarters_request (VInt 7)] [] divisions
  = (Raise (raised InvalidDivisionIdException), divisions).
Proof.
  pose proof (create_checks_parent table find_by_id store fields
                (OrganizationService.create_headquarters table find_by_id
                   store fields)
                "headquarters_create_request_dto" 2 1
                InvalidDivisionIdException) as T.
  split.
  - destruct (OrganizationService.create_headquarters table find_by_id store
                fields [service; VSession 1; headquarters_request (VInt 1)] []
                divisions) as [r w'] eqn:E.
    vm_compute in E. injection E as <- <-.
    eexists _, _. split; [reflexivity|].
    eexists. split; reflexivity.
  - refine (proj2 (T [service; VSession 1; headquarters_request (VInt 7)] []
                     divisions divisions
                     (or_introl (conj eq_refl (conj eq_refl (conj eq_refl
                        (conj eq_refl eq_refl))))))
              _ (VInt 2) (VInt 7) divisions eq_refl eq_refl eq_refl eq_refl
              eq_refl eq_refl).
Defined.

Lemma delete_checks_first_witness :
  exists b n org w1 w2 w3,
    bind_call delete_sig [service; VSession 1; VInt 4] [] = Ok b /\
    no_employee (dict_get b "db") (dict_get b "organization_seq") divisions
      = (Ok n, w1) /\
    (n <= 0)%Z /\
    has_child (dict_get b "db") (dict_get b "organization_seq") w1
      = (Ok false, w2) /\
    find_by_id (dict_get b "db") (dict_get b "organization_seq") w2
      = (Ok org, w3) /\
    is_None org = false /\
    remove (dict_get b "db") (dict_get b "organization_seq") w3
      = (Ok (VBool true), [organization 1 "Sales" 1 VNone]).
Proof.
  exact (delete_checks_first table find_by_id remove remove has_child
           no_employee false [service; VSession 1; VInt 4] [] divisions
           [organization 1 "Sales" 1 VNone] (VBool true) eq_refl).
Defined.

End OrganizationFacts.

(* ===================================================================== *)
(** ** The exception handlers                                             *)
(* ===================================================================== *)

Module HandlerFacts.
Import Logging RequestTrace MonadFacts LoggingFacts PipelineFacts Readings.
Import OrganizationService ExceptionHandlers.

(** *** Dicts *)

Lemma dict_find_set (d : pydict) k v k' :
  dict_find (dict_set d k v) k'
  = if String.eqb k k' then Some v else dict_find d k'.
Proof.
  induction d as [|[k0 v0] d IH]; cbn [dict_set dict_find].
  - reflexivity.
  - destruct (String.eqb k0 k) eqn:E0.
    + apply String.eqb_eq in E0. subst k0. cbn [dict_find].
      now destruct (String.eqb k k').
    + cbn [dict_find]. destruct (String.eqb k0 k') eqn:E1.
      * apply String.eqb_eq in E1. subst k0.
        rewrite String.eqb_sym in E0. now rewrite E0.
      * exact IH.
Qed.

Lemma dict_find_update (e d : pydict) k :
  dict_find (dict_update d e) k
  = match last_value e k with
    | Some v => Some v
    | None => dict_find d k
    end.
Proof.
  unfold dict_update. revert d.
  induction e as [|[k0 v0] e IH]; intros d; cbn [fold_left last_value];
    [reflexivity|].
  rewrite IH. cbn [fst snd]. rewrite dict_find_set.
  destruct (last_value e k) as [v|]; [reflexivity|].
  now destruct (String.eqb k0 k).
Qed.

Lemma dict_set_keys (d : pydict) k v :
  List.NoDup (map fst d) -> List.NoDup (map fst (dict_set d k v)).
Proof.
  induction d as [|[k0 v0] d IH]; cbn [dict_set map fst]; intros H.
  - constructor; [intros []|constructor].
  - inversion H as [|? ? Hn Hd]; subst.
    destruct (String.eqb k0 k) eqn:E; cbn [map fst].
    + now constructor.
    + constructor; [|now apply IH].
      intros Hin. apply Hn. clear - Hin E.
      induction d as [|[k1 v1] d IH]; cbn [dict_set map fst] in *.
      * destruct Hin as [Hin|[]]. subst. now rewrite String.eqb_refl in E.
      * destruct (String.eqb k1 k); cbn [map fst] in Hin; [exact Hin|].
        destruct Hin as [Hin|Hin]; [now left|right; now apply IH].
Qed.

Lemma dict_update_keys (e d : pydict) :
  List.NoDup (map fst d) -> List.NoDup (map fst (dict_update d e)).
Proof.
  unfold dict_update. revert d. induction e as [|[k v] e IH]; intros d H;
    cbn [fold_left]; [exact H|]. apply IH. now apply dict_set_keys.
Qed.

Lemma dict_find_absent (d : pydict) k :
  ~ In k (map fst d) -> dict_find d k = None.
Proof.
  induction d as [|[k0 v0] d IH]; cbn [dict_find map fst]; intros H;
    [reflexivity|].
  destruct (String.eqb k0 k) eqn:E.
  - apply String.eqb_eq in E. exfalso. apply H. now left.
  - apply IH. intros Hin. apply H. now right.
Qed.

Lemma last_value_unique (d : pydict) k :
  List.NoDup (map fst d) -> last_value d k = dict_find d k.
Proof.
  induction d as [|[k0 v0] d IH]; cbn [last_value dict_find map fst];
    intros H; [reflexivity|].
  inversion H as [|? ? Hn Hd]; subst. rewrite (IH Hd).
  destruct (String.eqb k0 k) eqn:E.
  - apply String.eqb_eq in E. subst k0. now rewrite (dict_find_absent d k Hn).
  - now destruct (dict_find d k).
Qed.

Lemma last_value_dict (items : pydict) k :
  last_value (dict_update [] items) k = last_value items k.
Proof.
  rewrite last_value_unique by (apply dict_update_keys; constructor).
  rewrite dict_find_update. now destruct (last_value items k).
Qed.

(** X25.  What [get_input_data] binds a name to: the body wins over the
    path parameters and these over the query string, and of a repeated
    query key the last value counts.  A body that is no JSON object, or
    that cannot be read, is bound to the name [body] and hides a parameter
    of that name.  No name is bound twice. *)
Theorem input_data_precedence (request : http_request) (k : string) :
  let from_body :=
    match body request with
    | NoBody => None
    | Parsed (VDict body_data) => last_value body_data k
    | Parsed body_data => if String.eqb "body" k then Some body_data else None
    | Unreadable =>
        if String.eqb "body" k
        then Some (VStr "[Could not parse request body]") else None
    end in
  dict_find (get_input_data request) k
  = match from_body with
    | Some v => Some v
    | None =>
        match last_value (path_params request) k with
        | Some v => Some v
        | None => last_value (query_params request) k
        end
    end /\
  List.NoDup (map fst (get_input_data request)).
Proof.
  set (q := match query_params request with
            | [] => []
            | items => dict_update [] (dict_update [] items)
            end).
  set (p := match path_params request with
            | [] => q
            | params => dict_update q (dict_update [] params)
            end).
  assert (Hq : dict_find q k = last_value (query_params request) k
               /\ List.NoDup (map fst q)).
  { subst q. destruct (query_params request) as [|i items].
    - split; [reflexivity|constructor].
    - split; [|apply dict_update_keys; constructor].
      rewrite dict_find_update, last_value_dict.
      now destruct (last_value (i :: items) k). }
  destruct Hq as [Hq Hqn].
  assert (Hp : dict_find p k
               = match last_value (path_params request) k with
                 | Some v => Some v
                 | None => last_value (query_params request) k
                 end /\ List.NoDup (map fst p)).
  { subst p. destruct (path_params request) as [|i params].
    - split; [exact Hq|exact Hqn].
    - split; [|now apply dict_update_keys].
      rewrite dict_find_update, last_value_dict. now rewrite Hq. }
  destruct Hp as [Hp Hpn].
  unfold get_input_data. fold q. fold p. cbv zeta.
  destruct (body request) as [|body_data|].
  - split; [exact Hp|exact Hpn].
  - destruct body_data;
      try (split; [rewrite dict_find_set, Hp; now destruct (String.eqb "body" k)
                  |now apply dict_set_keys]).
    split; [|now apply dict_update_keys].
    rewrite dict_find_update, Hp. reflexivity.
  - split; [rewrite dict_find_set, Hp; now destruct (String.eqb "body" k)
           |now apply dict_set_keys].
Qed.

(** *** The two adapter methods *)

Section Facts.

Variable settings : Settings.
Variable time_at : nat -> float.
Variable kst_at : nat -> string.
Variable rand_at : nat -> N.
Variable router_dirs : list string.

Lemma exception_structured_effect r message cause exception context
    (s : lstate) :
  accepted cause -> accepted context ->
  exists s',
    exception_structured kst_at r message cause exception context s
      = (Ok tt, s') /\
    heap s' = heap s /\ next_ref s' = next_ref s /\ ctxs s' = ctxs s /\
    draws s' = draws s /\
    sink s'
      = (sink s ++
          [at_level "ERROR"
             (process (deref s r)
                (with_cause cause exception
                   (build_extra r (deref s r) "EXCEPTION_STRUCTURED"
                      (Some message) context (status_of context) None None
                      (kst_at (ticks s)))))])%list.
Proof.
  intros Hc Hx. unfold exception_structured.
  rewrite (bind_run (get_kst_now_str kst_at) _ s (tick s) _ eq_refl).
  cbv zeta.
  rewrite (bind_run (block_check cause) _ (tick s) (tick s) tt
             (block_check_Ok _ _ Hc)).
  rewrite (bind_run (block_check context) _ (tick s) (tick s) tt
             (block_check_Ok _ _ Hx)).
  rewrite (bind_run (gets (fun s0 => deref s0 r)) _ (tick s) (tick s) _ eq_refl).
  match goal with
  | |- context [emit r "ERROR" ?ev] =>
      destruct (emit_effect r "ERROR" ev (tick s))
        as (s1 & He & Hh & Hn & Hcx & _ & Hd & Hk)
  end.
  exists s1. split; [exact He|]. repeat split; assumption.
Qed.

Lemma error_structured_effect r message context (s : lstate) :
  accepted context ->
  exists s',
    error_structured kst_at r message context s = (Ok tt, s') /\
    heap s' = heap s /\ next_ref s' = next_ref s /\ ctxs s' = ctxs s /\
    draws s' = draws s /\
    sink s'
      = (sink s ++
          [at_level "ERROR"
             (process (deref s r)
                (build_extra r (deref s r) "ERROR_STRUCTURED"
                   (Some message) context (status_of context) None None
                   (kst_at (ticks s))))])%list.
Proof.
  intros Hx. unfold error_structured.
  rewrite (bind_run (get_kst_now_str kst_at) _ s (tick s) _ eq_refl).
  cbv zeta.
  rewrite (bind_run (block_check context) _ (tick s) (tick s) tt
             (block_check_Ok _ _ Hx)).
  rewrite (bind_run (gets (fun s0 => deref s0 r)) _ (tick s) (tick s) _ eq_refl).
  match goal with
  | |- context [emit r "ERROR" ?ev] =>
      destruct (emit_effect r "ERROR" ev (tick s))
        as (s1 & He & Hh & Hn & Hcx & _ & Hd & Hk)
  end.
  exists s1. split; [exact He|]. repeat split; assumption.
Qed.

(** The adapter after [start_structured] *)
Lemma start_structured_effect r method path handler (s : lstate) :
  exists s',
    start_structured r method path handler s = (Ok tt, s') /\
    heap_only s s' /\
    trace_id (deref s' r) = trace_id (deref s r) /\
    logger (deref s' r) = logger (deref s r) /\
    _sql_logs (deref s' r) = _sql_logs (deref s r) /\
    _pending_tx_event (deref s' r) = _pending_tx_event (deref s r) /\
    _method (deref s' r) = method /\ _path (deref s' r) = path /\
    _handler (deref s' r)
      = (if String.eqb handler EmptyString then "unnamed_handler" else handler) /\
    forall r', r' <> r -> deref s' r' = deref s r'.
Proof.
  unfold start_structured.
  match goal with
  | |- context [update r ?f] =>
      destruct (update_effect r f s) as (s' & Hu & Ho & Hd & Hne)
  end.
  exists s'. split; [exact Hu|]. split; [exact Ho|]. rewrite Hd.
  repeat split. exact Hne.
Qed.

Lemma ctx_get_Some u r (s : lstate) :
  _logger_var (ctx_of s u) = Some r -> ctx_get u s = (Ok r, s).
Proof. intros H. unfold ctx_get. now rewrite H. Qed.

Lemma ctx_get_None u (s : lstate) :
  _logger_var (ctx_of s u) = None ->
  ctx_get u s = (Raise (LookupError "request_logger"), s).
Proof. intros H. unfold ctx_get. now rewrite H. Qed.

Lemma input_accepted (input_data : pydict) (fields : pydict) :
  serializable (VDict input_data) = true ->
  serializable (VDict fields) = true ->
  accepted (Some (VDict (fields ++ [("input", input_or_none input_data)]))).
Proof.
  intros Hi Hf _. revert Hf. induction fields as [|[k v] fields IH].
  - intros _. cbn [app]. destruct input_data; [reflexivity|].
    cbn [input_or_none]. cbn [serializable] in *. now rewrite Hi.
  - cbn [app]. intros Hf. cbn [serializable] in *.
    apply andb_true_iff in Hf as [Hv Hf]. rewrite Hv. cbn [andb].
    exact (IH Hf).
Qed.

Lemma try_except_run {S A} (m : M S A) c h (s s' : S) (a : A) :
  m s = (Ok a, s') -> try_except m c h s = (Ok a, s').
Proof. intros H. unfold try_except. now rewrite H. Qed.

(** What the handlers do with the logger of the context: the adapter is
    renamed after the handler and one ERROR record goes through it. *)
Lemma report_effect u r handler message cause exception context method path
    (s : lstate) :
  _logger_var (ctx_of s u) = Some r ->
  String.eqb handler EmptyString = false ->
  accepted cause -> accepted context ->
  exists s' e,
    (let* logger := ctx_get u in
     do* start_structured logger method path handler in
     exception_structured kst_at logger message cause exception context) s
      = (Ok tt, s') /\
    sink s' = (sink s ++ [e])%list /\ ctxs s' = ctxs s /\
    next_ref s' = next_ref s /\ draws s' = draws s /\
    (ev_adapter e = r /\ ev_logger e = logger (deref s r) /\
     ev_level e = "ERROR" /\ ev_log_type e = "EXCEPTION_STRUCTURED" /\
     ev_trace_id e = trace_id (deref s r) /\
     ev_method e = method /\ ev_path e = path /\ ev_handler e = handler /\
     ev_status_code e = status_of context /\
     ev_log_message e = Some message /\ ev_cause e = cause /\
     ev_exception e = exception /\ ev_context e = context /\
     ev_sql e = None /\ ev_duration_ms e = None) /\
    (_handler (deref s' r) = handler /\
     trace_id (deref s' r) = trace_id (deref s r) /\
     _sql_logs (deref s' r) = _sql_logs (deref s r) /\
     _pending_tx_event (deref s' r) = _pending_tx_event (deref s r)) /\
    forall r', r' <> r -> deref s' r' = deref s r'.
Proof.
  intros Hr Hh Hc Hx.
  rewrite (bind_run (ctx_get u) _ s s r (ctx_get_Some u r s Hr)).
  destruct (start_structured_effect r method path handler s)
    as (s1 & Hs1 & (Hn1 & Hc1 & Hk1 & _ & Hd1) & Ht & Hl & Hq & Hp & Hm & Hpa &
        Hha & Hne).
  rewrite Hh in Hha.
  rewrite (bind_run _ _ s s1 tt Hs1).
  destruct (exception_structured_effect r message cause exception context s1
              Hc Hx) as (s2 & Hs2 & Hh2 & Hn2 & Hc2 & Hd2 & Hk2).
  eexists s2, _. split; [exact Hs2|].
  split; [rewrite Hk2, Hk1; reflexivity|].
  split; [now rewrite Hc2|]. split; [now rewrite Hn2|].
  split; [now rewrite Hd2|].
  split.
  { cbn [at_level process with_cause build_extra ev_adapter ev_logger ev_level
         ev_log_type ev_trace_id ev_method ev_path ev_handler ev_status_code
         ev_log_message ev_cause ev_exception ev_context ev_sql
         ev_duration_ms].
    rewrite Hl, Ht, Hm, Hpa, Hha. repeat split. }
  split.
  { rewrite (deref_heap s1 s2 r Hh2), Hha, Ht, Hq, Hp. repeat split. }
  intros r' Hne'. rewrite (deref_heap s1 s2 r' Hh2). now apply Hne.
Qed.

(** [http_exception_handler] with a logger in the context *)
Lemma http_exception_handler_effect u r request exc (s : lstate) :
  _logger_var (ctx_of s u) = Some r ->
  serializable (VDict (get_input_data request)) = true ->
  exists s' e,
    http_exception_handler kst_at u request exc s
      = (Ok {| js_status_code := exc_status exc;
               js_content :=
                 [("status", VStr "error"); ("data", VNone);
                  ("message", VStr (exc_detail exc))] |}, s') /\
    sink s' = (sink s ++ [e])%list /\ ctxs s' = ctxs s /\
    (ev_adapter e = r /\ ev_logger e = logger (deref s r) /\
     ev_level e = "ERROR" /\ ev_log_type e = "EXCEPTION_STRUCTURED" /\
     ev_trace_id e = trace_id (deref s r) /\
     ev_method e = req_method (rq request) /\
     ev_path e = req_path (rq request) /\
     ev_handler e = "http_exception_handler" /\
     ev_status_code e = Some (exc_status exc) /\
     ev_log_message e = Some (exc_detail exc) /\ ev_cause e = None /\
     ev_exception e = Some (exc_class exc) /\
     ev_context e
       = Some (VDict [("method", VStr (req_method (rq request)));
                      ("path", VStr (req_path (rq request)));
                      ("status_code", VInt (exc_status exc));
                      ("input", input_or_none (get_input_data request))]) /\
     ev_sql e = None /\ ev_duration_ms e = None) /\
    (_handler (deref s' r) = "http_exception_handler" /\
     trace_id (deref s' r) = trace_id (deref s r) /\
     _sql_logs (deref s' r) = _sql_logs (deref s r) /\
     _pending_tx_event (deref s' r) = _pending_tx_event (deref s r)) /\
    forall r', r' <> r -> deref s' r' = deref s r'.
Proof.
  intros Hr Hin. unfold http_exception_handler, suppress_LookupError. cbv zeta.
  match goal with
  | |- context [exception_structured kst_at _ ?m ?c ?x ?cx] =>
      destruct (report_effect u r "http_exception_handler" m c x cx
                  (req_method (rq request)) (req_path (rq request)) s Hr
                  eq_refl I
                  (input_accepted (get_input_data request)
                     [("method", VStr (req_method (rq request)));
                      ("path", VStr (req_path (rq request)));
                      ("status_code", VInt (exc_status exc))] Hin eq_refl))
        as (s' & e & Hrun & Hk & Hc & _ & _ & He & Ha & Hne)
  end.
  exists s', e. split.
  { rewrite (bind_run _ _ s s' tt (try_except_run _ _ _ _ _ _ Hrun)).
    reflexivity. }
  split; [exact Hk|]. split; [exact Hc|]. split; [exact He|].
  split; [exact Ha|exact Hne].
Qed.

(** X26.  [http_exception_handler] answers with the status code and the
    detail of the exception whether or not the context has a logger.
    Without one nothing is logged; with one, the adapter is renamed to
    [http_exception_handler] and exactly one ERROR record goes through it,
    of type EXCEPTION_STRUCTURED, with the trace id of the adapter, the
    status code, the class name and the detail of the exception and the
    input of the request; the statements buffered on the adapter are not
    part of it and stay in the buffer. *)
Theorem http_exception_is_reported u request exc (s : lstate) :
  serializable (VDict (get_input_data request)) = true ->
  exists s',
    http_exception_handler kst_at u request exc s
      = (Ok {| js_status_code := exc_status exc;
               js_content :=
                 [("status", VStr "error"); ("data", VNone);
                  ("message", VStr (exc_detail exc))] |}, s') /\
    match _logger_var (ctx_of s u) with
    | None => s' = s
    | Some r =>
        exists e,
          sink s' = (sink s ++ [e])%list /\
          ev_adapter e = r /\ ev_level e = "ERROR" /\
          ev_log_type e = "EXCEPTION_STRUCTURED" /\
          ev_trace_id e = trace_id (deref s r) /\
          ev_method e = req_method (rq request) /\
          ev_path e = req_path (rq request) /\
          ev_handler e = "http_exception_handler" /\
          ev_status_code e = Some (exc_status exc) /\
          ev_exception e = Some (exc_class exc) /\
          ev_log_message e = Some (exc_detail exc) /\
          ev_context e
            = Some (VDict [("method", VStr (req_method (rq request)));
                           ("path", VStr (req_path (rq request)));
                           ("status_code", VInt (exc_status exc));
                           ("input", input_or_none (get_input_data request))]) /\
          ev_sql e = None /\
          _handler (deref s' r) = "http_exception_handler" /\
          _sql_logs (deref s' r) = _sql_logs (deref s r) /\
          ctxs s' = ctxs s
    end.
Proof.
  intros Hin. destruct (_logger_var (ctx_of s u)) as [r|] eqn:Hr.
  - destruct (http_exception_handler_effect u r request exc s Hr Hin)
      as (s' & e & Hrun & Hk & Hc & He & Ha & _).
    exists s'. split; [exact Hrun|]. exists e.
    destruct He as (E1 & _ & E3 & E4 & E5 & E6 & E7 & E8 & E9 & E10 & _ &
                    E12 & E13 & E14 & _).
    destruct Ha as (A1 & _ & A3 & _).
    repeat (split; [assumption|]). exact Hc.
  - exists s. split; [|reflexivity].
    unfold http_exception_handler, suppress_LookupError, bind, try_except.
    rewrite (ctx_get_None u s Hr). reflexivity.
Qed.

Lemma errors_serializable (exc : list validation_error) :
  serializable (VDict (errors_of exc)) = true.
Proof.
  unfold errors_of.
  assert (G : forall acc k v,
             serializable (VDict acc) = true ->
             serializable (VDict (dict_set acc k (VStr v))) = true).
  { intros acc k v. induction acc as [|[k0 v0] acc IH]; [reflexivity|].
    cbn [dict_set]. intros H. cbn [serializable] in H.
    apply andb_true_iff in H as [H0 H].
    destruct (String.eqb k0 k); cbn [serializable].
    - exact H.
    - rewrite H0. exact (IH H). }
  assert (F : forall acc,
             serializable (VDict acc) = true ->
             serializable
               (VDict (fold_left
                         (fun acc err =>
                            dict_set acc (Json.join "." (map loc_str (loc err)))
                              (VStr (msg err))) exc acc)) = true).
  { induction exc as [|err exc IH]; intros acc H; [exact H|].
    cbn [fold_left]. apply IH. now apply G. }
  now apply F.
Qed.

(** X27.  [validation_exception_handler] answers 422 with the messages
    keyed by the dotted location of each error, whether or not the context
    has a logger.  With a logger, one ERROR record of type
    EXCEPTION_STRUCTURED goes through it, with those messages as its cause
    and [RequestValidationError] as its exception; the record carries no
    status code, since the context of the call has none. *)
Theorem validation_error_is_reported u request exc (s : lstate) :
  serializable (VDict (get_input_data request)) = true ->
  exists s',
    validation_exception_handler kst_at u request exc s
      = (Ok {| js_status_code := 422;
               js_content :=
                 [("status", VStr "fail"); ("data", VDict (errors_of exc));
                  ("message", VNone)] |}, s') /\
    match _logger_var (ctx_of s u) with
    | None => s' = s
    | Some r =>
        exists e,
          sink s' = (sink s ++ [e])%list /\
          ev_adapter e = r /\ ev_level e = "ERROR" /\
          ev_log_type e = "EXCEPTION_STRUCTURED" /\
          ev_trace_id e = trace_id (deref s r) /\
          ev_handler e = "validation_exception_handler" /\
          ev_status_code e = None /\
          ev_exception e = Some "RequestValidationError" /\
          ev_log_message e = Some msg_validation /\
          ev_cause e = Some (VDict (errors_of exc)) /\
          ev_context e
            = Some (VDict [("method", VStr (req_method (rq request)));
                           ("path", VStr (req_path (rq request)));
                           ("input", input_or_none (get_input_data request))]) /\
          _handler (deref s' r) = "validation_exception_handler" /\
          ctxs s' = ctxs s
    end.
Proof.
  intros Hin. unfold validation_exception_handler, suppress_LookupError.
  cbv zeta.
  destruct (_logger_var (ctx_of s u)) as [r|] eqn:Hr.
  - match goal with
    | |- context [exception_structured kst_at _ ?m ?c ?x ?cx] =>
        destruct (report_effect u r "validation_exception_handler" m c x cx
                    (req_method (rq request)) (req_path (rq request)) s Hr
                    eq_refl (fun _ => errors_serializable exc)
                    (input_accepted (get_input_data request)
                       [("method", VStr (req_method (rq request)));
                        ("path", VStr (req_path (rq request)))] Hin eq_refl))
          as (s' & e & Hrun & Hk & Hc & _ & _ & He & Ha & _)
    end.
    exists s'. split.
    + rewrite (bind_run _ _ s s' tt (try_except_run _ _ _ _ _ _ Hrun)).
      reflexivity.
    + exists e.
      destruct He as (E1 & _ & E3 & E4 & E5 & _ & _ & E8 & E9 & E10 & E11 &
                      E12 & E13 & _).
      destruct Ha as (A1 & _).
      repeat (split; [assumption|]). exact Hc.
  - exists s. split; [|reflexivity].
    unfold bind, try_except. rewrite (ctx_get_None u s Hr). reflexivity.
Qed.

(** X28.  [global_exception_handler] answers 500 with the message
    [Internal Server Error], never the text of the exception.  Without a
    logger in the context the logging state is left as it is (the
    traceback is only printed); with one, the adapter is renamed to
    [global_exception_handler] and one ERROR record of type
    ERROR_STRUCTURED goes through it, with the traceback and the host of
    the client in its context, and with no status code and no exception
    name. *)
Theorem unhandled_error_is_reported u request traceback_str (s : lstate) :
  exists s',
    global_exception_handler kst_at u request traceback_str s
      = (Ok {| js_status_code := 500;
               js_content :=
                 [("status", VStr "error"); ("data", VNone);
                  ("message", VStr "Internal Server Error")] |}, s') /\
    match _logger_var (ctx_of s u) with
    | None => s' = s
    | Some r =>
        exists e,
          sink s' = (sink s ++ [e])%list /\
          ev_adapter e = r /\ ev_level e = "ERROR" /\
          ev_log_type e = "ERROR_STRUCTURED" /\
          ev_trace_id e = trace_id (deref s r) /\
          ev_handler e = "global_exception_handler" /\
          ev_status_code e = None /\ ev_exception e = None /\
          ev_log_message e = Some "Unhandled server error" /\
          (exists c, ev_context e = Some (VDict c) /\
             dict_find c "traceback" = Some (VStr traceback_str) /\
             dict_find c "client"
               = Some (match client request with
                       | Some host => VStr host
                       | None => VNone
                       end)) /\
          _handler (deref s' r) = "global_exception_handler" /\
          _sql_logs (deref s' r) = _sql_logs (deref s r) /\
          ctxs s' = ctxs s
    end.
Proof.
  unfold global_exception_handler. cbv zeta.
  destruct (_logger_var (ctx_of s u)) as [r|] eqn:Hr.
  - assert (Hg : try_except (let* lg := ctx_get u in ret (Some lg))
                   is_LookupError (fun _ => ret None) s = (Ok (Some r), s)).
    { apply try_except_run.
      now rewrite (bind_run (ctx_get u) _ s s r (ctx_get_Some u r s Hr)). }
    rewrite (bind_run _ _ s s (Some r) Hg).
    destruct (start_structured_effect r (req_method (rq request))
                (req_path (rq request)) "global_exception_handler" s)
      as (s1 & Hs1 & (Hn1 & Hc1 & Hk1 & _ & Hd1) & Ht & Hl & Hq & Hp & Hm &
          Hpa & Hha & Hne).
    match goal with
    | |- context [error_structured kst_at r ?m ?cx] =>
        destruct (error_structured_effect r m cx s1)
          as (s2 & Hs2 & Hh2 & Hn2 & Hc2 & Hd2 & Hk2)
    end.
    { intros _. cbn [serializable]. now destruct (client request). }
    exists s2. split.
    + match goal with
      | |- bind ?m _ s = _ =>
          assert (Hm2 : m s = (Ok tt, s2))
            by (rewrite (bind_run _ _ s s1 tt Hs1); exact Hs2)
      end.
      rewrite (bind_run _ _ s s2 tt Hm2). reflexivity.
    + eexists. split; [rewrite Hk2, Hk1; reflexivity|].
      cbn [at_level process build_extra ev_adapter ev_level ev_log_type
           ev_trace_id ev_handler ev_status_code ev_exception ev_log_message
           ev_context].
      rewrite Ht, Hha. do 8 (split; [reflexivity|]).
      split; [eexists; split; [reflexivity|split; reflexivity]|].
      rewrite (deref_heap s1 s2 r Hh2), Hha, Hq, Hc2.
      repeat split. exact Hc1.
  - exists s. split; [|reflexivity].
    unfold bind, try_except. rewrite (ctx_get_None u s Hr). reflexivity.
Qed.

Lemma track_own (body : list action) (ad : adapter) :
  existsb installs_logger body = false -> fst (track true body ad) = true.
Proof.
  revert ad. induction body as [|a body IH]; intros ad; [reflexivity|].
  cbn [existsb]. intros H. apply orb_false_iff in H as [Ha Hb].
  cbn [track]. destruct a; try discriminate; now apply IH.
Qed.

(** X29.  A request whose endpoint raises an HTTP exception, which
    [http_exception_handler] then handles in the same execution unit: the
    request logs no END record; after what the endpoint logged itself
    there is only the record of the exception, which carries no SQL, so
    the statements the endpoint buffered stay unreported in the buffer of
    the request's adapter.  Unless the endpoint installed a logger of its
    own, the record goes through the adapter of the request and carries the
    short trace id drawn at entry. *)
Theorem failed_request_is_reported u req body request exc (s s1 s2 : lstate) x :
  set_up time_at rand_at router_dirs u req s = (Ok x, s1) ->
  run_actions settings time_at kst_at rand_at u body s1 = (Ok tt, s2) ->
  serializable (VDict (get_input_data request)) = true ->
  let lg := next_ref s in
  let tid := short_id (rand_at (draws s)) in
  exists r s3 during e,
    _logger_var (ctx_of s2 u) = Some r /\
    http_exception_handler kst_at u request exc s2
      = (Ok {| js_status_code := exc_status exc;
               js_content :=
                 [("status", VStr "error"); ("data", VNone);
                  ("message", VStr (exc_detail exc))] |}, s3) /\
    sink s3 = (sink s ++ during ++ [e])%list /\
    Forall (from_body lg (S lg) tid) during /\
    Forall (fun e' => ev_log_type e' <> "START") (during ++ [e]) /\
    ev_adapter e = r /\
    ev_log_type e = "EXCEPTION_STRUCTURED" /\
    ev_status_code e = Some (exc_status exc) /\
    ev_trace_id e = trace_id (deref s2 r) /\
    ev_sql e = None /\
    _sql_logs (deref s3 lg) = buffered body /\
    (existsb installs_logger body = false -> r = lg /\ ev_trace_id e = tid).
Proof.
  intros Hset Hact Hin lg tid.
  destruct (set_up_effect time_at rand_at router_dirs u req s)
    as (s1' & Hset' & Hinv & Hown & _ & Hlogs & _ & _ & _ & Hsink1).
  rewrite Hset' in Hset. injection Hset as <- <-.
  destruct (run_actions_inv settings time_at kst_at rand_at u _ _ _ body s1' s2
              Hinv Hact) as (Hinv2 & (during & Hsink2 & Hduring) & Htrack).
  rewrite Hown in Htrack.
  destruct Hinv2 as (_ & _ & _ & Htl2 & _ & _ & _ & (r & Hr & _ & _)).
  destruct (http_exception_handler_effect u r request exc s2 Hr Hin)
    as (s3 & e & Hrun & Hk & Hc & He & Ha & Hne).
  destruct He as (E1 & _ & _ & E4 & E5 & _ & _ & _ & E9 & _ & _ & _ & _ &
                  E14 & _).
  destruct Ha as (_ & _ & A3 & _).
  assert (Hd : deref s2 (next_ref s)
               = snd (track true body (deref s1' (next_ref s))))
    by (rewrite <- Htrack; reflexivity).
  assert (Hbuf : _sql_logs (deref s2 (next_ref s)) = buffered body)
    by (rewrite Hd, track_sql_logs, Hlogs; reflexivity).
  exists r, s3, during, e.
  split; [exact Hr|]. split; [exact Hrun|].
  split; [rewrite Hk, Hsink2, Hsink1, <- app_assoc; reflexivity|].
  split; [exact Hduring|].
  split.
  { apply Forall_app. split.
    - eapply List.Forall_impl; [|exact Hduring].
      intros e' [[Hty _]|[Hty _]]; rewrite Hty; discriminate.
    - constructor; [|constructor]. rewrite E4. discriminate. }
  split; [exact E1|]. split; [exact E4|]. split; [exact E9|].
  split; [exact E5|]. split; [exact E14|]. split.
  { unfold lg. destruct (Nat.eq_dec (next_ref s) r) as [<-|Hneq].
    - now rewrite A3.
    - now rewrite (Hne _ Hneq). }
  intros Hno.
  assert (Hown2 : is_own u (next_ref s) s2 = true).
  { replace (is_own u (next_ref s) s2)
      with (fst (track true body (deref s1' (next_ref s))))
      by (rewrite <- Htrack; reflexivity).
    now apply track_own. }
  unfold is_own in Hown2. rewrite Hr in Hown2.
  apply Nat.eqb_eq in Hown2.
  split; [exact Hown2|]. rewrite E5, Hown2. exact Htl2.
Qed.

End Facts.

Import Traffic.

(** The employee 12 is not found during the first request. *)
Lemma http_exception_is_reported_witness :
  exists s',
    http_exception_handler kst 0 lookup_request OrganizationNotFoundException
      unit0_ready
    = (Ok {| js_status_code := 404;
             js_content :=
               [("status", VStr "error"); ("data", VNone);
                ("message",
                 VStr (exc_detail OrganizationNotFoundException))] |}, s').
Proof.
  destruct (http_exception_is_reported kst 0 lookup_request
              OrganizationNotFoundException unit0_ready eq_refl)
    as (s' & H & _).
  exists s'. exact H.
Defined.

(** The record of that run: the path parameter [seq] hides the query
    parameter of the same name. *)
Example not_found_record :
  map (fun e => (ev_logger e, ev_log_type e, ev_trace_id e, ev_handler e,
                 ev_status_code e, ev_exception e, ev_context e))
      (sink (snd (http_exception_handler kst 0 lookup_request
                    OrganizationNotFoundException unit0_ready)))
  = [("employee", "EXCEPTION_STRUCTURED", "123e4567", "http_exception_handler",
      Some 404%Z, Some "OrganizationNotFoundException",
      Some (VDict [("method", VStr "GET"); ("path", VStr "/v1/employee/12");
                   ("status_code", VInt 404);
                   ("input", VDict [("page", VStr "1"); ("seq", VStr "12")])]))].
Proof. vm_compute. reflexivity. Qed.

Lemma validation_error_is_reported_witness :
  exists s',
    validation_exception_handler kst 0 lookup_request
      [{| loc := [Field "body"; Field "items"; Index 0; Field "name"];
          msg := "Field required" |}] unit0_ready
    = (Ok {| js_status_code := 422;
             js_content :=
               [("status", VStr "fail");
                ("data", VDict [("body.items.0.name", VStr "Field required")]);
                ("message", VNone)] |}, s').
Proof.
  destruct (validation_error_is_reported kst 0 lookup_request
              [{| loc := [Field "body"; Field "items"; Index 0; Field "name"];
                  msg := "Field required" |}] unit0_ready eq_refl)
    as (s' & H & _).
  exists s'. exact H.
Defined.

(** The first request, with an endpoint that raises after its statement *)
Lemma failed_request_is_reported_witness :
  exists r s3 e,
    http_exception_handler kst 0 lookup_request OrganizationNotFoundException
      (snd (run_actions default_settings clock kst random 0 [select_employee]
              unit0_ready))
    = (Ok {| js_status_code := 404;
             js_content :=
               [("status", VStr "error"); ("data", VNone);
                ("message",
                 VStr (exc_detail OrganizationNotFoundException))] |}, s3) /\
    ev_adapter e = r /\
    ev_sql e = None /\
    _sql_logs (deref s3 0) = buffered [select_employee] /\
    r = 0 /\ ev_trace_id e = short_id (random 0).
Proof.
  destruct (failed_request_is_reported default_settings clock kst random routers_v1 0
              get_employee [select_employee] lookup_request
              OrganizationNotFoundException boot unit0_ready
              (snd (run_actions default_settings clock kst random 0
                      [select_employee] unit0_ready))
              (clock 0, short_id (random 0), 0, 1))
    as (r & s3 & during & e & _ & Hrun & _ & _ & _ & Ha & _ & _ & _ & Hq & Hb &
        Hown).
  - vm_compute. reflexivity.
  - vm_compute. reflexivity.
  - reflexivity.
  - exists r, s3, e. destruct (Hown eq_refl) as [Hr Ht].
    repeat split; assumption.
Defined.

End HandlerFacts.
